(** * IceBoard flash programmer: a shallow embedding of [IceBoard.cpp]

    The programmer drives a serial NOR flash through the FT4222 USB-to-SPI
    bridge.  Every function of [IceBoard.cpp] that talks to the flash is
    translated below as a state-passing computation over the bridge handle.
    The computation also produces the list of bus events it caused, so that
    statements about "which transactions were issued" can be read off its
    result.

    Conventions.
    - [int] and [size_t] values are modelled on [Z].  The conversions the
      source performs on purpose or by accident are written out: [(uint16)x] is
      [uint16 x], [(int)x] of a vector's size is [int32 x], and the unsigned
      subtraction [fileBuffer.size() - 1] is taken modulo [2^64].  Signed
      arithmetic is exact on [Z]; it agrees with the program wherever the
      program's values fit an [int].
    - The range constructor of [std::vector] has a meaning only for a range
      inside the source vector.  [ProgramFlash] can hand it another one; the
      run then ends as [Undefined], with no further transfer and no status.
    - [int] division is [Z.quot] (truncation toward zero), as in C++.
    - A [std::vector<uint8>] is a [list Z].
    - [IceBoard.h] and the vendor header [LibFT4222.h] are not part of the
      sources at hand.  Their constants are the fields of the class
      [IceBoardHeader]; the two vendor calls the program uses are the fields of
      the class [SpiMaster].
    - [InitBoard] talks to the USB host rather than to the flash.  The vendor
      constants it names are the fields of [VendorHeader], the four calls it
      makes the fields of [Ftd2xx], and its result carries the list of those
      calls. *)

From Stdlib Require Import String ZArith List Bool Lia PeanoNat.
Import ListNotations.

Local Open Scope Z_scope.

(** ** Status codes *)

(** The values of [FT4222_STATUS] that [IceBoard.cpp] names, and one
    constructor for every other value the vendor library may report. *)
Inductive FT4222_STATUS : Type :=
| FT4222_OK
| FT4222_VENDOR_ERROR (code : Z)
| FT4222_INORRECT_TRANSFER_SIZE
| FT4222_TIME_OUT_ERROR
| FT4222_CORRUPTED_UPLOAD.

(** [status == FT4222_OK] *)
Definition is_ok (status : FT4222_STATUS) : bool :=
  match status with
  | FT4222_OK => true
  | _ => false
  end.

(** ** Constants of [IceBoard.h] *)

Class IceBoardHeader : Type := {
  FLASH_PAGE_SIZE : Z;
  FLASH_SECTOR_SIZE : Z;
  MAX_READ_SIZE : Z;
  MAX_WAIT_TIME_MS : Z;
  MAX_SECTOR_PROGRAM_ATTEMPTS : Z;
  ReadStatusRegisterCmd : Z;
  WriteEnableCmd : Z;
  PageProgramCmd : Z;
  SectorEraseCmd : Z;
  ChipEraseCmd : Z;
  ReadCmd : Z;
  WakeUpCmd : Z
}.

(** ** The vendor driver *)

(** [FT4222_SPIMaster_SingleWrite h buffer count isEndTransaction] receives
    the vector whose storage the program points the driver at, and the 16-bit
    byte count; it answers with a status and the value it stores in
    [*sizeTransferred].  [FT4222_SPIMaster_SingleRead h count
    isEndTransaction] answers with a status, the bytes it stores through the
    buffer pointer and the value it stores in [*sizeOfRead]. *)
Class SpiMaster (Handle : Type) : Type := {
  FT4222_SPIMaster_SingleWrite :
    Handle -> list Z -> Z -> bool -> Handle * FT4222_STATUS * Z;
  FT4222_SPIMaster_SingleRead :
    Handle -> Z -> bool -> Handle * FT4222_STATUS * list Z * Z
}.

(** ** Bus events *)

(** What an observer of the program sees.  [EvWrite] and [EvRead] are the two
    vendor calls with the arguments the program passed and the status
    [WriteSPI] / [ReadSPI] returned for them; [EvRead] carries the read buffer
    as the program sees it after the call.  [EvSleep] is a call of [Sleep].
    [EvTimeout] marks the point where [WaitForFlashReady] gives up. *)
Inductive Event : Type :=
| EvWrite (writeBuffer : list Z) (count : Z) (isEndTransaction : bool)
          (result : FT4222_STATUS)
| EvRead (count : Z) (isEndTransaction : bool) (readBuffer : list Z)
         (result : FT4222_STATUS)
| EvSleep (ms : Z)
| EvTimeout.

(** ** Integer conversions and vectors *)

Definition uint16 (x : Z) : Z := x mod 65536.

Definition size_t (x : Z) : Z := x mod 2 ^ 64.

(** [(int)x] for a 32-bit two's-complement [int]. *)
Definition int32 (x : Z) : Z := (x + 2 ^ 31) mod 2 ^ 32 - 2 ^ 31.

Definition size (v : list Z) : Z := Z.of_nat (length v).

(** Whether [v.begin() + first] and [v.begin() + last] delimit a range of
    [v]: both within [v.begin() .. v.end()], in this order.  The range
    constructor has a defined meaning for such iterators only. *)
Definition valid_range (v : list Z) (first last : Z) : bool :=
  (0 <=? first) && (first <=? last) && (last <=? size v).

(** [std::vector<uint8>(v.begin() + first, v.begin() + last)] for a valid
    range: the bytes [v[first] .. v[last - 1]].  [ProgramFlash_while] applies
    it after testing [valid_range]; in [SectorProgramFlash] every range is
    valid when a page has a positive size (lemma [pageBuffer_valid_range]). *)
Definition vec_range (v : list Z) (first last : Z) : list Z :=
  firstn (Z.to_nat (last - first)) (skipn (Z.to_nat first) v).

(** [v.resize(n)]: keeps a prefix, pads with zero bytes. *)
Definition resize (n : Z) (v : list Z) : list Z :=
  firstn (Z.to_nat n) v ++ repeat 0 (Z.to_nat n - length v).

(** The effect on a destination vector [old] of a driver that stores [data]
    through a pointer to its first element. *)
Definition store_into (data old : list Z) : list Z :=
  firstn (length old) data ++ skipn (length data) old.

(** [v[j]] *)
Definition at_index (v : list Z) (j : Z) : Z := nth (Z.to_nat j) v 0.

Definition IntToByteVec (x : Z) : list Z :=
  [ Z.shiftr (Z.land x 0x00FF0000) 16;
    Z.shiftr (Z.land x 0x0000FF00) 8;
    Z.land x 0x000000FF ].

(** The address three bytes stand for, most significant first. *)
Definition ByteVecToInt (bytes : list Z) : Z :=
  match bytes with
  | [b2; b1; b0] => b2 * 65536 + b1 * 256 + b0
  | _ => 0
  end.

(** ** The programmer *)

Section Programmer.

Context {header : IceBoardHeader}.
Context {Handle : Type} {driver : SpiMaster Handle}.

(** A computation over the global [IceBoardHandle]: from the handle's state
    to the events caused, the new state and a value. *)
Definition Op (A : Type) : Type := Handle -> list Event * Handle * A.

Definition ret {A : Type} (a : A) : Op A := fun h => ([], h, a).

Definition bind {A B : Type} (m : Op A) (k : A -> Op B) : Op B :=
  fun h =>
    let '(t1, h1, a) := m h in
    let '(t2, h2, b) := k a h1 in
    (t1 ++ t2, h2, b).

Definition emit (e : Event) : Op unit := fun h => ([e], h, tt).

(** [status = m; if (status != FT4222_OK) return status; k] *)
Definition orReturn (m : Op FT4222_STATUS) (k : FT4222_STATUS -> Op FT4222_STATUS)
  : Op FT4222_STATUS :=
  bind m (fun status => if is_ok status then k status else ret status).

Definition WriteSPI (writeBuffer : list Z) (bytesToWrite : Z)
           (isEndTransaction : bool) : Op FT4222_STATUS :=
  fun h =>
    let '(h', status, transferred) :=
      FT4222_SPIMaster_SingleWrite h writeBuffer (uint16 bytesToWrite)
                                   isEndTransaction in
    let bytesTransferred := uint16 transferred in
    let result :=
      if negb (is_ok status) then status
      else if negb (bytesTransferred =? bytesToWrite)
           then FT4222_INORRECT_TRANSFER_SIZE
           else status in
    ([EvWrite writeBuffer (uint16 bytesToWrite) isEndTransaction result],
     h', result).

(** Returns the status and the read buffer after the call. *)
Definition ReadSPI (readBuffer : list Z) (bytesToRead : Z)
           (isEndTransaction : bool) : Op (FT4222_STATUS * list Z) :=
  fun h =>
    let '(h', status, data, sizeOfRead) :=
      FT4222_SPIMaster_SingleRead h (uint16 bytesToRead) isEndTransaction in
    let bytesRead := uint16 sizeOfRead in
    let readBuffer' := store_into data readBuffer in
    let result :=
      if negb (is_ok status) then status
      else if negb (bytesRead =? bytesToRead)
           then FT4222_INORRECT_TRANSFER_SIZE
           else status in
    ([EvRead (uint16 bytesToRead) isEndTransaction readBuffer' result],
     h', (result, readBuffer')).

(** The body of [for (int i = 0; i < MAX_WAIT_TIME_MS; i++)], with [n] the
    number of iterations left. *)
Fixpoint WaitForFlashReady_loop (n : nat) (readBuffer : list Z)
  : Op FT4222_STATUS :=
  match n with
  | O => bind (emit EvTimeout) (fun _ => ret FT4222_TIME_OUT_ERROR)
  | S n' =>
      orReturn (WriteSPI [ReadStatusRegisterCmd] 1 false) (fun _ =>
      bind (ReadSPI readBuffer (size readBuffer) true) (fun '(status, readBuffer) =>
      if negb (is_ok status) then ret status
      else if Z.land (at_index readBuffer 0) 0x01 =? 0x00 then ret FT4222_OK
      else bind (emit (EvSleep 1)) (fun _ =>
           WaitForFlashReady_loop n' readBuffer)))
  end.

Definition WaitForFlashReady : Op FT4222_STATUS :=
  WaitForFlashReady_loop (Z.to_nat MAX_WAIT_TIME_MS) [0].

Definition WakeUpFlash : Op FT4222_STATUS :=
  orReturn (WriteSPI [WakeUpCmd] 1 true) (fun status => ret status).

Definition WriteEnableFlash : Op FT4222_STATUS :=
  orReturn (WriteSPI [WriteEnableCmd] 1 true) (fun status => ret status).

Definition EraseFlash : Op FT4222_STATUS :=
  orReturn WriteEnableFlash (fun _ =>
  orReturn (WriteSPI [ChipEraseCmd] 1 true) (fun _ =>
  orReturn WaitForFlashReady (fun status => ret status))).

Definition EraseSector (sectorIndex : Z) : Op FT4222_STATUS :=
  orReturn WriteEnableFlash (fun _ =>
  let writeBuffer :=
    SectorEraseCmd :: IntToByteVec (sectorIndex * FLASH_SECTOR_SIZE) in
  orReturn (WriteSPI writeBuffer (size writeBuffer) true) (fun _ =>
  orReturn WaitForFlashReady (fun status => ret status))).

Definition PageProgramFlash (pageIndex : Z) (writeBuffer : list Z)
  : Op FT4222_STATUS :=
  let startAddress := pageIndex * FLASH_PAGE_SIZE in
  let commandAndAddressBuffer := PageProgramCmd :: IntToByteVec startAddress in
  orReturn WriteEnableFlash (fun _ =>
  orReturn (WriteSPI commandAndAddressBuffer (size commandAndAddressBuffer) false)
    (fun _ =>
  orReturn (WriteSPI writeBuffer FLASH_PAGE_SIZE true) (fun _ =>
  orReturn WaitForFlashReady (fun status => ret status)))).

(** [pageCount] of [SectorProgramFlash]. *)
Definition pageCount (sectorBuffer : list Z) : Z :=
  if int32 (size sectorBuffer) <? FLASH_SECTOR_SIZE
  then 1 + Z.quot (int32 (size sectorBuffer) - 1) FLASH_PAGE_SIZE
  else Z.quot FLASH_SECTOR_SIZE FLASH_PAGE_SIZE.

(** [last - sectorBuffer.begin()] of iteration [i] of [SectorProgramFlash]. *)
Definition pageLast (sectorBuffer : list Z) (i : Z) : Z :=
  if i =? pageCount sectorBuffer - 1 then size sectorBuffer
  else (i + 1) * FLASH_PAGE_SIZE.

(** [pageBuffer] of iteration [i] of [SectorProgramFlash]. *)
Definition pageBuffer (sectorBuffer : list Z) (i : Z) : list Z :=
  let first := i * FLASH_PAGE_SIZE in
  let last := pageLast sectorBuffer i in
  vec_range sectorBuffer first last.

(** The loop of [SectorProgramFlash] from iteration [i] on, with [n]
    iterations left; [status] is the variable of that name. *)
Fixpoint SectorProgramFlash_loop (n : nat) (pageStartIndex : Z)
         (sectorBuffer : list Z) (i : Z) (status : FT4222_STATUS)
  : Op FT4222_STATUS :=
  match n with
  | O => ret status
  | S n' =>
      orReturn (PageProgramFlash (pageStartIndex + i) (pageBuffer sectorBuffer i))
        (fun status =>
           SectorProgramFlash_loop n' pageStartIndex sectorBuffer (i + 1) status)
  end.

Definition SectorProgramFlash (sectorIndex : Z) (sectorBuffer : list Z)
  : Op FT4222_STATUS :=
  let pageStartIndex :=
    sectorIndex * Z.quot FLASH_SECTOR_SIZE FLASH_PAGE_SIZE in
  SectorProgramFlash_loop (Z.to_nat (pageCount sectorBuffer)) pageStartIndex
                          sectorBuffer 0 FT4222_OK.

Definition ReadSectorFlash (sectorIndex : Z) (readBuffer : list Z)
  : Op (FT4222_STATUS * list Z) :=
  let commandAndAddressBuffer :=
    ReadCmd :: IntToByteVec (sectorIndex * FLASH_SECTOR_SIZE) in
  bind (WriteSPI commandAndAddressBuffer (size commandAndAddressBuffer) false)
    (fun status =>
  if negb (is_ok status) then ret (status, readBuffer)
  else ReadSPI (resize FLASH_SECTOR_SIZE readBuffer) FLASH_SECTOR_SIZE true).

(** ** [ProgramFlash] *)

(** [sectorCount], computed in [size_t]. *)
Definition sectorCount (fileBuffer : list Z) : Z :=
  size_t (1 + size_t (size fileBuffer - 1) / size_t FLASH_SECTOR_SIZE).

(** [i == sectorCount - 1], compared in [size_t]. *)
Definition isLastSector (fileBuffer : list Z) (i : Z) : bool :=
  size_t i =? size_t (sectorCount fileBuffer - 1).

(** [last - fileBuffer.begin()] for sector [i], with the start of the sector
    at [bufferPointer]. *)
Definition sectorLast (fileBuffer : list Z) (i bufferPointer : Z) : Z :=
  if isLastSector fileBuffer i then size fileBuffer
  else bufferPointer + FLASH_SECTOR_SIZE.

(** [sectorBuffer] of sector [i], cut out at [bufferPointer]. *)
Definition sectorBuffer (fileBuffer : list Z) (i bufferPointer : Z) : list Z :=
  let first := bufferPointer in
  let last := sectorLast fileBuffer i bufferPointer in
  vec_range fileBuffer first last.

Definition bytesToTransmit (fileBuffer : list Z) (i : Z) : Z :=
  if isLastSector fileBuffer i
  then int32 (size fileBuffer) - i * FLASH_SECTOR_SIZE
  else FLASH_SECTOR_SIZE.

(** The loop over [j] that counts the corrupted bytes of a read-back. *)
Definition countErrors (bytesToTransmit : Z) (readBuffer sectorBuffer : list Z)
  : Z :=
  fold_left
    (fun errorCount j =>
       if negb (at_index readBuffer (Z.of_nat j) =? at_index sectorBuffer (Z.of_nat j))
       then errorCount + 1 else errorCount)
    (seq 0 (Z.to_nat bytesToTransmit)) 0.

(** How a run of [while (!success)] ends: by a [return] of the whole
    function, by leaving the loop with the variables [status] and
    [readBuffer], or at a range constructor handed iterators that delimit no
    range of [fileBuffer], from where on the program has no defined
    behaviour. *)
Inductive WhileExit : Type :=
| Returned (status : FT4222_STATUS)
| Left (status : FT4222_STATUS) (readBuffer : list Z)
| Undefined.

(** [while (!success)] for sector [i]; [None] when [fuel] iterations were
    not enough to leave the loop. *)
Fixpoint ProgramFlash_while (fuel : nat) (fileBuffer : list Z)
         (i bufferPointer attempts : Z) (readBuffer : list Z)
  : Op (option WhileExit) :=
  match fuel with
  | O => ret None
  | S fuel' =>
      if negb (valid_range fileBuffer bufferPointer
                           (sectorLast fileBuffer i bufferPointer))
      then ret (Some Undefined) else
      let sectorBuffer := sectorBuffer fileBuffer i bufferPointer in
      let bytesToTransmit := bytesToTransmit fileBuffer i in
      bind (SectorProgramFlash i sectorBuffer) (fun status =>
      if negb (is_ok status) then ret (Some (Returned status)) else
      bind (ReadSectorFlash i readBuffer) (fun '(status, readBuffer) =>
      if negb (is_ok status) then ret (Some (Returned status)) else
      let errorCount := countErrors bytesToTransmit readBuffer sectorBuffer in
      bind (if 0 <? errorCount then EraseSector i else ret status) (fun status =>
      if negb (is_ok status) then ret (Some (Returned status)) else
      let success := errorCount =? 0 in
      let attempts := attempts + 1 in
      if attempts =? MAX_SECTOR_PROGRAM_ATTEMPTS
      then ret (Some (Returned FT4222_CORRUPTED_UPLOAD))
      else if success then ret (Some (Left status readBuffer))
      else ProgramFlash_while fuel' fileBuffer i bufferPointer attempts readBuffer)))
  end.

(** [for (int i = 0; i < sectorCount; i++)] from sector [i] on, with [n]
    sectors left, then the final [return status].  [None]: the call returns
    no status, because [fuel] was not enough for a [while] loop or because
    the run has ended as [Undefined]. *)
Fixpoint ProgramFlash_for (n fuel : nat) (fileBuffer : list Z)
         (i bufferPointer : Z) (status : FT4222_STATUS) (readBuffer : list Z)
  : Op (option FT4222_STATUS) :=
  match n with
  | O => ret (Some status)
  | S n' =>
      bind (ProgramFlash_while fuel fileBuffer i bufferPointer 0 readBuffer)
        (fun exit =>
           match exit with
           | None => ret None
           | Some Undefined => ret None
           | Some (Returned status) => ret (Some status)
           | Some (Left status readBuffer) =>
               ProgramFlash_for n' fuel fileBuffer (i + 1)
                                (bufferPointer + FLASH_SECTOR_SIZE) status readBuffer
           end)
  end.

(** [fuel] bounds the iterations of each [while (!success)] loop. *)
Definition ProgramFlash (fuel : nat) (fileBuffer : list Z)
  : Op (option FT4222_STATUS) :=
  ProgramFlash_for (Z.to_nat (sectorCount fileBuffer)) fuel fileBuffer
                   0 0 FT4222_OK [].

(** ** [ValidateFlash] *)

(** [v[k] = x]; a store outside the vector is dropped. *)
Definition vec_set (v : list Z) (k : Z) (x : Z) : list Z :=
  if (0 <=? k) && (k <? size v)
  then firstn (Z.to_nat k) v ++ x :: skipn (S (Z.to_nat k)) v
  else v.

(** [for (int j = 0; j < bytesToRead; j++) readBuffer[pointer + j] = tempBuffer[j];] *)
Definition copyChunk (readBuffer : list Z) (pointer : Z) (tempBuffer : list Z)
           (bytesToRead : Z) : list Z :=
  fold_left
    (fun readBuffer j =>
       vec_set readBuffer (pointer + Z.of_nat j) (at_index tempBuffer (Z.of_nat j)))
    (seq 0 (Z.to_nat bytesToRead)) readBuffer.

(** The final loop of [ValidateFlash]: is there an [i < fileBuffer.size()]
    with [readBuffer[i] != fileBuffer[i]]? *)
Definition differs (readBuffer fileBuffer : list Z) : bool :=
  existsb
    (fun i => negb (at_index readBuffer (Z.of_nat i) =? at_index fileBuffer (Z.of_nat i)))
    (seq 0 (length fileBuffer)).

(** [n] of [ValidateFlash]. *)
Definition chunkCount (fileBuffer : list Z) : Z :=
  1 + Z.quot (int32 (size fileBuffer) - 1) MAX_READ_SIZE.

Definition bytesToRead (fileBuffer : list Z) (i : Z) : Z :=
  if i =? chunkCount fileBuffer - 1
  then int32 (size fileBuffer) - i * MAX_READ_SIZE
  else MAX_READ_SIZE.

(** The read loop of [ValidateFlash] from chunk [i] on, with [k] chunks
    left, followed by the comparison loop and the final [return status]. *)
Fixpoint ValidateFlash_loop (k : nat) (fileBuffer : list Z) (i pointer : Z)
         (readBuffer : list Z) (status : FT4222_STATUS) : Op FT4222_STATUS :=
  match k with
  | O =>
      if differs readBuffer fileBuffer then ret FT4222_CORRUPTED_UPLOAD
      else ret status
  | S k' =>
      let commandAndAddressBuffer := ReadCmd :: IntToByteVec pointer in
      let bytesToRead := bytesToRead fileBuffer i in
      let tempBuffer := repeat 0 (Z.to_nat bytesToRead) in
      orReturn (WriteSPI commandAndAddressBuffer (size commandAndAddressBuffer) false)
        (fun _ =>
      bind (ReadSPI tempBuffer bytesToRead true) (fun '(status, tempBuffer) =>
      if negb (is_ok status) then ret status else
      let readBuffer := copyChunk readBuffer pointer tempBuffer bytesToRead in
      ValidateFlash_loop k' fileBuffer (i + 1) (pointer + MAX_READ_SIZE)
                         readBuffer status))
  end.

Definition ValidateFlash (fileBuffer : list Z) : Op FT4222_STATUS :=
  ValidateFlash_loop (Z.to_nat (chunkCount fileBuffer)) fileBuffer 0 0
                     (repeat 0 (length fileBuffer)) FT4222_OK.

End Programmer.

(** ** A flash chip on the bench

    A device to run the programmer against: a serial NOR flash behind a bridge
    whose transfers always succeed.  The chip follows the command set the
    header names.  It takes a command when chip select is released, obeys
    program and erase commands only when the write-enable latch is set, clears
    the latch afterwards, and then reports busy for [latency] status reads,
    during which it ignores everything but status reads.  A programmed byte
    replaces the cell's content.  Addresses are 24 bits wide.

    Two knobs make the bench less than ideal: [busyPolls] lets the chip start
    busy, and [glitches] is the number of array reads that will come back with
    their first byte inverted. *)

Record Bench : Type := {
  cells : Z -> Z;
  writeEnabled : bool;
  busyPolls : nat;
  shifted : list Z;
  glitches : nat;
  latency : nat;
  stray : nat -> Z
}.

Definition with_shifted (b : Bench) (s : list Z) : Bench :=
  {| cells := cells b; writeEnabled := writeEnabled b; busyPolls := busyPolls b;
     shifted := s; glitches := glitches b; latency := latency b; stray := stray b |}.

Definition with_latch (b : Bench) (w : bool) : Bench :=
  {| cells := cells b; writeEnabled := w; busyPolls := busyPolls b;
     shifted := shifted b; glitches := glitches b; latency := latency b;
     stray := stray b |}.

(** The array after a program or erase command was obeyed. *)
Definition with_cells (b : Bench) (m : Z -> Z) : Bench :=
  {| cells := m; writeEnabled := false; busyPolls := latency b;
     shifted := shifted b; glitches := glitches b; latency := latency b;
     stray := stray b |}.

Definition after_poll (b : Bench) : Bench :=
  {| cells := cells b; writeEnabled := writeEnabled b;
     busyPolls := Nat.pred (busyPolls b);
     shifted := shifted b; glitches := glitches b; latency := latency b;
     stray := stray b |}.

Definition after_glitch (b : Bench) : Bench :=
  {| cells := cells b; writeEnabled := writeEnabled b; busyPolls := busyPolls b;
     shifted := shifted b; glitches := Nat.pred (glitches b);
     latency := latency b; stray := stray b |}.

(** The bench of [b] with another array, latch, busy count and shift register. *)
Definition chip (m : Z -> Z) (latch : bool) (busy : nat) (sh : list Z) (b : Bench) : Bench :=
  {| cells := m; writeEnabled := latch; busyPolls := busy; shifted := sh;
     glitches := glitches b; latency := latency b; stray := stray b |}.

(** The [count] bytes the bridge clocks out when it is pointed at the storage
    of [buffer]: the vector's bytes, then whatever the host has behind them. *)
Definition wire (b : Bench) (buffer : list Z) (count : Z) : list Z :=
  map (fun k => nth k buffer (stray b (k - length buffer)%nat))
      (seq 0 (Z.to_nat count)).

Definition cell_set (m : Z -> Z) (a x : Z) : Z -> Z :=
  fun a' => if a' =? a then x else m a'.

Definition status_register (b : Bench) : Z :=
  (if (0 <? busyPolls b)%nat then 1 else 0) + (if writeEnabled b then 2 else 0).

Definition invert_first (data : list Z) : list Z :=
  match data with
  | [] => []
  | x :: rest => Z.lxor x 0xFF :: rest
  end.

Section BenchChip.

Context {header : IceBoardHeader}.

(** Page program: byte after byte, the address wrapping inside the page. *)
Fixpoint program_page (m : Z -> Z) (base offset : Z) (data : list Z) : Z -> Z :=
  match data with
  | [] => m
  | x :: data' =>
      program_page (cell_set m (base + offset) x) base
                   ((offset + 1) mod FLASH_PAGE_SIZE) data'
  end.

Definition erase_sector (m : Z -> Z) (address : Z) : Z -> Z :=
  fun a =>
    if a / FLASH_SECTOR_SIZE =? address / FLASH_SECTOR_SIZE then 0xFF else m a.

(** The chip takes [command], the bytes of one transaction. *)
Definition execute (b : Bench) (command : list Z) : Bench :=
  match command with
  | [] => b
  | opcode :: operands =>
      let address := ByteVecToInt (firstn 3 operands) in
      if (0 <? busyPolls b)%nat then b
      else if opcode =? WriteEnableCmd then with_latch b true
      else if negb (writeEnabled b) then b
      else if opcode =? PageProgramCmd then
        with_cells b
          (program_page (cells b) (address - address mod FLASH_PAGE_SIZE)
                        (address mod FLASH_PAGE_SIZE) (skipn 3 operands))
      else if opcode =? SectorEraseCmd then
        with_cells b (erase_sector (cells b) address)
      else if opcode =? ChipEraseCmd then
        with_cells b (fun _ => 0xFF)
      else b
  end.

Definition bench_write (b : Bench) (buffer : list Z) (count : Z)
           (isEndTransaction : bool) : Bench * FT4222_STATUS * Z :=
  let command := shifted b ++ wire b buffer count in
  let b' :=
    if isEndTransaction then execute (with_shifted b []) command
    else with_shifted b command in
  (b', FT4222_OK, count).

Definition array_read (b : Bench) (address : Z) (count : Z) : list Z :=
  map (fun k => cells b ((address + Z.of_nat k) mod 2 ^ 24))
      (seq 0 (Z.to_nat count)).

Definition bench_read (b : Bench) (count : Z) (isEndTransaction : bool)
  : Bench * FT4222_STATUS * list Z * Z :=
  let release (b' : Bench) (continued : list Z) :=
    with_shifted b' (if isEndTransaction then [] else continued) in
  match shifted b with
  | [] => (b, FT4222_OK, repeat 0xFF (Z.to_nat count), count)
  | opcode :: operands =>
      let address := ByteVecToInt (firstn 3 operands) in
      if opcode =? ReadStatusRegisterCmd then
        (release (after_poll b) (shifted b), FT4222_OK,
         repeat (status_register b) (Z.to_nat count), count)
      else if (opcode =? ReadCmd) && (busyPolls b =? 0)%nat then
        let data := array_read b address count in
        let continued := ReadCmd :: IntToByteVec (address + count) in
        if (0 <? glitches b)%nat
        then (release (after_glitch b) continued, FT4222_OK,
              invert_first data, count)
        else (release b continued, FT4222_OK, data, count)
      else (release b (shifted b), FT4222_OK,
            repeat 0xFF (Z.to_nat count), count)
  end.

#[export] Instance bench_driver : SpiMaster Bench := {|
  FT4222_SPIMaster_SingleWrite := bench_write;
  FT4222_SPIMaster_SingleRead := bench_read
|}.

(** What an idealized reader finds at addresses [0 .. n-1]. *)
Definition flash_contents (b : Bench) (n : nat) : list Z :=
  map (fun k => cells b (Z.of_nat k)) (seq 0 n).

End BenchChip.

(** The array [m] holds the image below address [n]. *)
Definition holds_image (fileBuffer : list Z) (m : Z -> Z) (n : Z) : Prop :=
  forall a, 0 <= a < n -> a < size fileBuffer -> m a = at_index fileBuffer a.

(** The chip is selected by nobody, not busy, its latch clear. *)
Definition idleBench (b : Bench) : Prop :=
  writeEnabled b = false /\ busyPolls b = 0%nat /\ shifted b = [].

Section Assumptions.

Context {header : IceBoardHeader}.

(** Pages tile sectors, and a sector can be read in one transfer. *)
Definition geometryFits : Prop :=
  0 < FLASH_PAGE_SIZE /\
  FLASH_SECTOR_SIZE mod FLASH_PAGE_SIZE = 0 /\
  0 < FLASH_SECTOR_SIZE < 65536.

(** The chip can tell the commands of a programming pass apart. *)
Definition opcodesTellApart : Prop :=
  PageProgramCmd <> WriteEnableCmd /\ ReadCmd <> ReadStatusRegisterCmd.

(** An idle chip that stores what it is sent, returns what it stores, and
    finishes every operation within the polling budget. *)
Definition idealBench (b : Bench) : Prop :=
  idleBench b /\ glitches b = 0%nat /\
  (latency b < Z.to_nat MAX_WAIT_TIME_MS)%nat.

End Assumptions.

Section EraseAssumptions.

Context {header : IceBoardHeader}.

(** The chip can tell a sector erase from the commands of a programming
    pass. *)
Definition sectorEraseTellsApart : Prop :=
  SectorEraseCmd <> WriteEnableCmd /\ SectorEraseCmd <> PageProgramCmd.

(** The chip can tell a chip erase from the commands it tests for first. *)
Definition chipEraseTellsApart : Prop :=
  ChipEraseCmd <> WriteEnableCmd /\ ChipEraseCmd <> PageProgramCmd /\
  ChipEraseCmd <> SectorEraseCmd.

End EraseAssumptions.

(** The values [IceBoard.h] gives its constants are not at hand.  The headers
    below are instances to run the programmer with, not the repository's: the
    usual command set of SPI NOR flashes, here with a deliberately small
    geometry. *)
Definition smallHeader : IceBoardHeader := {|
  FLASH_PAGE_SIZE := 4;
  FLASH_SECTOR_SIZE := 8;
  MAX_READ_SIZE := 6;
  MAX_WAIT_TIME_MS := 5;
  MAX_SECTOR_PROGRAM_ATTEMPTS := 3;
  ReadStatusRegisterCmd := 0x05;
  WriteEnableCmd := 0x06;
  PageProgramCmd := 0x02;
  SectorEraseCmd := 0x20;
  ChipEraseCmd := 0xC7;
  ReadCmd := 0x03;
  WakeUpCmd := 0xAB
|}.

(** The same command set with the geometry of a 4 KiB-sector part. *)
Definition usualHeader : IceBoardHeader := {|
  FLASH_PAGE_SIZE := 256;
  FLASH_SECTOR_SIZE := 4096;
  MAX_READ_SIZE := 65535;
  MAX_WAIT_TIME_MS := 1000;
  MAX_SECTOR_PROGRAM_ATTEMPTS := 5;
  ReadStatusRegisterCmd := 0x05;
  WriteEnableCmd := 0x06;
  PageProgramCmd := 0x02;
  SectorEraseCmd := 0x20;
  ChipEraseCmd := 0xC7;
  ReadCmd := 0x03;
  WakeUpCmd := 0xAB
|}.

(** The same command set with sectors of four pages. *)
Definition fourPageHeader : IceBoardHeader := {|
  FLASH_PAGE_SIZE := 256;
  FLASH_SECTOR_SIZE := 1024;
  MAX_READ_SIZE := 65535;
  MAX_WAIT_TIME_MS := 1000;
  MAX_SECTOR_PROGRAM_ATTEMPTS := 5;
  ReadStatusRegisterCmd := 0x05;
  WriteEnableCmd := 0x06;
  PageProgramCmd := 0x02;
  SectorEraseCmd := 0x20;
  ChipEraseCmd := 0xC7;
  ReadCmd := 0x03;
  WakeUpCmd := 0xAB
|}.

(** An erased, idle chip; the host memory behind every vector holds [0xEE]. *)
Definition blankBench (latency glitches : nat) : Bench := {|
  cells := fun _ => 0xFF;
  writeEnabled := false;
  busyPolls := 0;
  shifted := [];
  glitches := glitches;
  latency := latency;
  stray := fun _ => 0xEE
|}.

(** Projections of a run. *)
Definition trace_of {H A : Type} (r : list Event * H * A) : list Event := fst (fst r).
Definition handle_of {H A : Type} (r : list Event * H * A) : H := snd (fst r).
Definition value_of {H A : Type} (r : list Event * H * A) : A := snd r.

(** The small geometry with reads of at most two bytes. *)
Definition shortReadHeader : IceBoardHeader := {|
  FLASH_PAGE_SIZE := 4;
  FLASH_SECTOR_SIZE := 8;
  MAX_READ_SIZE := 2;
  MAX_WAIT_TIME_MS := 5;
  MAX_SECTOR_PROGRAM_ATTEMPTS := 3;
  ReadStatusRegisterCmd := 0x05;
  WriteEnableCmd := 0x06;
  PageProgramCmd := 0x02;
  SectorEraseCmd := 0x20;
  ChipEraseCmd := 0xC7;
  ReadCmd := 0x03;
  WakeUpCmd := 0xAB
|}.

(** Images to run the programmer on. *)
Definition fiveBytes : list Z := [1; 2; 3; 4; 5].
Definition sevenBytes : list Z := [1; 2; 3; 4; 5; 6; 7].
Definition nineBytes : list Z := [1; 2; 3; 4; 5; 6; 7; 8; 9].
Definition fifteenBytes : list Z :=
  [10; 11; 12; 13; 14; 15; 16; 17; 18; 19; 20; 21; 22; 23; 24].

(** The bench after the fifteen bytes were programmed. *)
Definition programmedBench : Bench :=
  handle_of (@ProgramFlash smallHeader Bench (@bench_driver smallHeader) 1
                           fifteenBytes (blankBench 0 0)).

(** The buffers of the reads of [count] bytes in a trace, in order. *)
Definition reads_of (count : Z) (t : list Event) : list (list Z) :=
  flat_map
    (fun e =>
       match e with
       | EvRead c _ readBuffer _ => if c =? count then [readBuffer] else []
       | _ => []
       end) t.

(** The frames sent with the given opcode in a trace, in order. *)
Definition frames_of (opcode : Z) (t : list Event) : list (list Z) :=
  flat_map
    (fun e =>
       match e with
       | EvWrite (op :: operands) _ _ _ =>
           if op =? opcode then [op :: operands] else []
       | _ => []
       end) t.

(** ** Rounding up *)

(** [ceil (a / b)] for positive [b]. *)
Definition ceilDiv (a b : Z) : Z := (a + b - 1) / b.

(** The sizes of the pieces when [len] bytes are cut into pieces of [max]:
    all of size [max] but the last, which takes the rest. *)
Definition pieceSizes (len max : Z) : list Z :=
  repeat max (Z.to_nat (ceilDiv len max - 1))
  ++ [len - (ceilDiv len max - 1) * max].

(** ** Shapes of traces *)

Section Shapes.

Context {header : IceBoardHeader}.

(** Bit 0 of the status register: the chip is busy. *)
Definition is_busy (statusByte : Z) : bool := negb (Z.land statusByte 0x01 =? 0x00).

(** One poll of the status register that went through and read [statusByte]:
    the [ReadStatus] frame with chip select held, then one byte with chip
    select released. *)
Definition pollEvents (statusByte : Z) : list Event :=
  [ EvWrite [ReadStatusRegisterCmd] 1 false FT4222_OK;
    EvRead 1 true [statusByte] FT4222_OK ].

(** Polls that read the given status bytes, each followed by [Sleep(1)]. *)
Definition sleptPolls (statusBytes : list Z) : list Event :=
  flat_map (fun b => pollEvents b ++ [EvSleep 1]) statusBytes.

(** A poll one of whose two transfers failed with [status]. *)
Definition failedPoll (events : list Event) (status : FT4222_STATUS) : Prop :=
  status <> FT4222_OK /\
  (events = [EvWrite [ReadStatusRegisterCmd] 1 false status] \/
   exists readBuffer,
     events = [ EvWrite [ReadStatusRegisterCmd] 1 false FT4222_OK;
                EvRead 1 true readBuffer status ]).

(** A wait for the chip that ended with a "ready" poll. *)
Definition readyWait (events : list Event) : Prop :=
  exists bs b,
    (length bs < Z.to_nat MAX_WAIT_TIME_MS)%nat /\
    forallb is_busy bs = true /\ is_busy b = false /\
    events = sleptPolls bs ++ pollEvents b.

(** The three transfers of a page program that went through: write enable,
    opcode and address with chip select held, then [FLASH_PAGE_SIZE] bytes
    taken from the storage of [payload] with chip select released. *)
Definition pageProgramEvents (address : Z) (payload : list Z) : list Event :=
  [ EvWrite [WriteEnableCmd] 1 true FT4222_OK;
    EvWrite (PageProgramCmd :: IntToByteVec address) 4 false FT4222_OK;
    EvWrite payload FLASH_PAGE_SIZE true FT4222_OK ].

(** Page programs for the pages [i], [i+1], ... counted from page
    [pageStartIndex], one per element of [waits], each followed by its wait;
    page [k] sends [chunk k] to address [(pageStartIndex + k) * FLASH_PAGE_SIZE]. *)
Fixpoint pagesEvents (chunk : Z -> list Z) (pageStartIndex i : Z)
         (waits : list (list Event)) : list Event :=
  match waits with
  | [] => []
  | w :: waits' =>
      pageProgramEvents ((pageStartIndex + i) * FLASH_PAGE_SIZE) (chunk i) ++ w
      ++ pagesEvents chunk pageStartIndex (i + 1) waits'
  end.

(** The [k]-th sector-sized piece of an image; the last one may be shorter. *)
Definition sectorWindow (fileBuffer : list Z) (k : Z) : list Z :=
  firstn (Z.to_nat FLASH_SECTOR_SIZE)
         (skipn (Z.to_nat (k * FLASH_SECTOR_SIZE)) fileBuffer).

(** The [k]-th page-sized piece of a buffer; the last one may be shorter. *)
Definition pageChunk (buffer : list Z) (k : Z) : list Z :=
  firstn (Z.to_nat FLASH_PAGE_SIZE) (skipn (Z.to_nat (k * FLASH_PAGE_SIZE)) buffer).

(** The transfers of a validation pass that went through: for each chunk a
    [Read] frame with the running address, then the chunk read with chip
    select released; the address advances by [MAX_READ_SIZE]. *)
Fixpoint readEvents (pointer : Z) (chunks : list (list Z)) : list Event :=
  match chunks with
  | [] => []
  | chunk :: chunks' =>
      EvWrite (ReadCmd :: IntToByteVec pointer) 4 false FT4222_OK
      :: EvRead (size chunk) true chunk FT4222_OK
      :: readEvents (pointer + MAX_READ_SIZE) chunks'
  end.

(** One pass over sector [i] in which nothing went wrong: the page programs
    of [window], each followed by [wait], then the [Read] frame for the
    sector's address and the read-back of a whole sector. *)
Definition sectorEvents (wait : list Event) (window : list Z) (i : Z)
           (readBack : list Z) : list Event :=
  pagesEvents (pageChunk window) (i * (FLASH_SECTOR_SIZE / FLASH_PAGE_SIZE)) 0
              (repeat wait (Z.to_nat (ceilDiv (size window) FLASH_PAGE_SIZE)))
  ++ [ EvWrite (ReadCmd :: IntToByteVec (i * FLASH_SECTOR_SIZE)) 4 false FT4222_OK;
       EvRead FLASH_SECTOR_SIZE true readBack FT4222_OK ].

(** Such passes over the sectors [i], [i+1], ... of an image, one per
    element of [readBacks]. *)
Fixpoint imageEvents (wait : list Event) (fileBuffer : list Z) (i : Z)
         (readBacks : list (list Z)) : list Event :=
  match readBacks with
  | [] => []
  | readBack :: readBacks' =>
      sectorEvents wait (sectorWindow fileBuffer i) i readBack
      ++ imageEvents wait fileBuffer (i + 1) readBacks'
  end.

(** One pass of [while (!success)] over sector [i] up to its read-back, no
    transfer failing: the page programs of [sectorBuffer], one per element of
    [waits], then the [Read] frame for the sector's address and the read of a
    whole sector into [readBack]. *)
Definition passEvents (sectorBuffer : list Z) (i : Z) (waits : list (list Event))
           (readBack : list Z) : list Event :=
  pagesEvents (pageBuffer sectorBuffer)
              (i * Z.quot FLASH_SECTOR_SIZE FLASH_PAGE_SIZE) 0 waits
  ++ [ EvWrite (ReadCmd :: IntToByteVec (i * FLASH_SECTOR_SIZE)) 4 false FT4222_OK;
       EvRead FLASH_SECTOR_SIZE true readBack FT4222_OK ].

(** The erase of sector [i] that went through: write enable, the
    [SectorErase] frame for the sector's address, and the wait. *)
Definition eraseEvents (i : Z) (wait : list Event) : list Event :=
  [ EvWrite [WriteEnableCmd] 1 true FT4222_OK;
    EvWrite (SectorEraseCmd :: IntToByteVec (i * FLASH_SECTOR_SIZE)) 4 true FT4222_OK ]
  ++ wait.

(** What tells one pass that ended in an erase from another: the waits after
    its page programs, the read-back it found corrupted, and the wait after
    the erase. *)
Record RetriedPass : Type := {
  pageWaits : list (list Event);
  corruptedReadBack : list Z;
  eraseWait : list Event
}.

Definition retriedEvents (sectorBuffer : list Z) (i : Z) (pass : RetriedPass)
  : list Event :=
  passEvents sectorBuffer i (pageWaits pass) (corruptedReadBack pass)
  ++ eraseEvents i (eraseWait pass).

(** One wait per page program of [sectorBuffer], each ended by a "ready"
    poll. *)
Definition pagesWaited (sectorBuffer : list Z) (waits : list (list Event)) : Prop :=
  length waits = Z.to_nat (pageCount sectorBuffer) /\ Forall readyWait waits.

(** What a pass of sector [i] that ended in an erase is known to have been:
    its page programs waited for, its read-back corrupted, its erase waited
    for. *)
Definition retried_ok (fileBuffer : list Z) (i bufferPointer : Z) (pass : RetriedPass)
  : Prop :=
  pagesWaited (sectorBuffer fileBuffer i bufferPointer) (pageWaits pass)
  /\ 0 < countErrors (bytesToTransmit fileBuffer i) (corruptedReadBack pass)
                     (sectorBuffer fileBuffer i bufferPointer)
  /\ readyWait (eraseWait pass).

End Shapes.

(** ** Failures in a trace *)

(** The status an event fails with: a transfer whose wrapper returned
    something else than [FT4222_OK], or the poller giving up. *)
Definition failure_of (e : Event) : option FT4222_STATUS :=
  match e with
  | EvWrite _ _ _ status | EvRead _ _ _ status =>
      if is_ok status then None else Some status
  | EvSleep _ => None
  | EvTimeout => Some FT4222_TIME_OUT_ERROR
  end.

Definition clean (t : list Event) : Prop :=
  Forall (fun e => failure_of e = None) t.

(** A run with trace [t] that returned [result] (if it returned a status at
    all) stopped at its first failure: nothing follows a failing event, and
    the failure's status is what the run returned. *)
Definition stopsAtFirstFailure (t : list Event) (result : option FT4222_STATUS)
  : Prop :=
  forall before e after status,
    t = before ++ e :: after ->
    failure_of e = Some status ->
    after = [] /\ result = Some status.

(** The same, in the form that composes: no failure at all, or exactly one,
    at the very end. *)
Definition failFast (t : list Event) (result : option FT4222_STATUS) : Prop :=
  clean t \/
  exists before e status,
    t = before ++ [e] /\ clean before /\
    failure_of e = Some status /\ result = Some status.

(** The status a run of [while (!success)] made [ProgramFlash] return. *)
Definition returned_by (exit : option WhileExit) : option FT4222_STATUS :=
  match exit with
  | Some (Returned status) => Some status
  | _ => None
  end.

(** ** Opening the board *)

(** The constants of the vendor headers [ftd2xx.h] and [LibFT4222.h] that
    [InitBoard] names.  [FT_STATUS] is an unsigned integer type, and the
    status of [FT4222_SPIMaster_Init] is assigned to a variable of that type:
    statuses are numbers here. *)
Class VendorHeader : Type := {
  FT_OK : Z;
  FT_DEVICE_NOT_FOUND : Z;
  FT_OPEN_BY_SERIAL_NUMBER : Z;
  SPI_IO_SINGLE : Z;
  CLK_DIV_2 : Z;
  CLK_IDLE_HIGH : Z;
  CLK_TRAILING : Z
}.

Record FT_DEVICE_LIST_INFO_NODE : Type := {
  Flags : Z;
  DeviceType : Z;
  ID : Z;
  LocId : Z;
  SerialNumber : string;
  Description : string;
  ftHandle : Z
}.

(** The four vendor calls of [InitBoard], over the state of the host's USB
    stack.  [FT_CreateDeviceInfoList] answers with a status and the value it
    leaves in [*lpdwNumDevs]; [FT_GetDeviceInfoDetail] with a status and the
    node as it is after the call, having been zeroed before; [FT_OpenEx]
    takes the serial number and the flags, and stores the handle in the global
    [IceBoardHandle], which is part of the state; [FT4222_SPIMaster_Init]
    takes the five settings. *)
Class Ftd2xx (Host : Type) : Type := {
  FT_CreateDeviceInfoList : Host -> Host * Z * Z;
  FT_GetDeviceInfoDetail : Host -> Z -> Host * Z * FT_DEVICE_LIST_INFO_NODE;
  FT_OpenEx : Host -> string -> Z -> Host * Z;
  FT4222_SPIMaster_Init : Host -> Z -> Z -> Z -> Z -> Z -> Host * Z
}.

(** The vendor calls as an observer sees them, each with what it answered. *)
Inductive HostCall : Type :=
| CallCreateDeviceInfoList (status numDevs : Z)
| CallGetDeviceInfoDetail (index status : Z) (info : FT_DEVICE_LIST_INFO_NODE)
| CallOpenEx (serialNumber : string) (flags status : Z)
| CallSPIMasterInit (ioLine clock_div cpol cpha ssoMap status : Z).

Section Board.

Context {vendor : VendorHeader}.
Context {Host : Type} {usb : Ftd2xx Host}.

(** [status == FT_OK && (deviceDescription == "FT4222" ||
    deviceDescription == "FT4222 A")] *)
Definition isFT4222 (status : Z) (ftdiDeviceInfo : FT_DEVICE_LIST_INFO_NODE) : bool :=
  (status =? FT_OK)
  && (String.eqb (Description ftdiDeviceInfo) "FT4222"
      || String.eqb (Description ftdiDeviceInfo) "FT4222 A").

(** [for (DWORD i = 0; i < ftdiDdeviceCount; ++i)] from index [i] on, with [n]
    iterations left; returns the vector [ft4222Devices]. *)
Fixpoint InitBoard_loop (n : nat) (i : Z) (ft4222Devices : list FT_DEVICE_LIST_INFO_NODE)
         (host : Host) : list HostCall * Host * list FT_DEVICE_LIST_INFO_NODE :=
  match n with
  | O => ([], host, ft4222Devices)
  | S n' =>
      let '(host1, status, ftdiDeviceInfo) := FT_GetDeviceInfoDetail host i in
      let ft4222Devices :=
        if isFT4222 status ftdiDeviceInfo
        then ft4222Devices ++ [ftdiDeviceInfo]
        else ft4222Devices in
      let '(calls, host2, ft4222Devices) :=
        InitBoard_loop n' (i + 1) ft4222Devices host1 in
      (CallGetDeviceInfoDetail i status ftdiDeviceInfo :: calls, host2, ft4222Devices)
  end.

Definition InitBoard (host : Host) : list HostCall * Host * Z :=
  let '(host1, status, ftdiDdeviceCount) := FT_CreateDeviceInfoList host in
  let '(calls, host2, ft4222Devices) :=
    InitBoard_loop (Z.to_nat ftdiDdeviceCount) 0 [] host1 in
  let enumeration := CallCreateDeviceInfoList status ftdiDdeviceCount :: calls in
  match ft4222Devices with
  | [] => (enumeration, host2, FT_DEVICE_NOT_FOUND)
  | first :: _ =>
      let '(host3, status) :=
        FT_OpenEx host2 (SerialNumber first) FT_OPEN_BY_SERIAL_NUMBER in
      let opened :=
        enumeration ++ [CallOpenEx (SerialNumber first) FT_OPEN_BY_SERIAL_NUMBER status] in
      if negb (status =? FT_OK) then (opened, host3, status)
      else
        let '(host4, status) :=
          FT4222_SPIMaster_Init host3 SPI_IO_SINGLE CLK_DIV_2 CLK_IDLE_HIGH
                                CLK_TRAILING 0x01 in
        (opened ++ [CallSPIMasterInit SPI_IO_SINGLE CLK_DIV_2 CLK_IDLE_HIGH
                                      CLK_TRAILING 0x01 status],
         host4, status)
  end.

End Board.

(** Projections of a run of [InitBoard]. *)
Definition calls_of {H A : Type} (r : list HostCall * H * A) : list HostCall :=
  fst (fst r).
Definition host_of {H A : Type} (r : list HostCall * H * A) : H := snd (fst r).
Definition status_of {H A : Type} (r : list HostCall * H * A) : A := snd r.

(** The answered detail calls of an enumeration, for the indices [i],
    [i+1], ... *)
Fixpoint detailCalls (i : Z) (answers : list (Z * FT_DEVICE_LIST_INFO_NODE))
  : list HostCall :=
  match answers with
  | [] => []
  | (status, info) :: answers' =>
      CallGetDeviceInfoDetail i status info :: detailCalls (i + 1) answers'
  end.

(** A host to try [InitBoard] on: the listed devices with the status of
    their detail call, and the statuses the open and the initialisation
    answer with. *)
Record TestHost : Type := {
  listed : list (Z * FT_DEVICE_LIST_INFO_NODE);
  openStatus : Z;
  initStatus : Z;
  openedSerial : option string
}.

Definition noDevice : FT_DEVICE_LIST_INFO_NODE := {|
  Flags := 0; DeviceType := 0; ID := 0; LocId := 0;
  SerialNumber := ""; Description := ""; ftHandle := 0
|}.

Definition device (description serial : string) : FT_DEVICE_LIST_INFO_NODE := {|
  Flags := 0; DeviceType := 0; ID := 0; LocId := 0;
  SerialNumber := serial; Description := description; ftHandle := 0
|}.

#[export] Instance usualVendorHeader : VendorHeader := {|
  FT_OK := 0;
  FT_DEVICE_NOT_FOUND := 2;
  FT_OPEN_BY_SERIAL_NUMBER := 1;
  SPI_IO_SINGLE := 1;
  CLK_DIV_2 := 1;
  CLK_IDLE_HIGH := 1;
  CLK_TRAILING := 1
|}.

#[export] Instance testHost_usb : Ftd2xx TestHost := {|
  FT_CreateDeviceInfoList h := (h, 0, Z.of_nat (List.length (listed h)));
  FT_GetDeviceInfoDetail h i :=
    let '(status, info) := nth (Z.to_nat i) (listed h) (1, noDevice) in
    (h, status, info);
  FT_OpenEx h serial flags :=
    ({| listed := listed h; openStatus := openStatus h; initStatus := initStatus h;
        openedSerial := Some serial |}, openStatus h);
  FT4222_SPIMaster_Init h ioLine clock_div cpol cpha ssoMap := (h, initStatus h)
|}.

(** * Properties *)

(** ** Conversions *)

Lemma uint16_range (x : Z) : 0 <= uint16 x < 65536.
Proof. unfold uint16. apply Z.mod_pos_bound. lia. Qed.

Lemma uint16_small (x : Z) : 0 <= x < 65536 -> uint16 x = x.
Proof. intros Hx. unfold uint16. apply Z.mod_small. exact Hx. Qed.

Lemma int32_small (x : Z) : - 2 ^ 31 <= x < 2 ^ 31 -> int32 x = x.
Proof. intros Hx. unfold int32. rewrite Z.mod_small by lia. lia. Qed.

(** The size of a vector that fits an [int] is not changed by the cast. *)
Lemma int32_size (v : list Z) : size v < 2 ^ 31 -> int32 (size v) = size v.
Proof. intros Hv. apply int32_small. unfold size in *. lia. Qed.

(** A size from [2^31] on comes out of the cast negative. *)
Lemma int32_wraps (x : Z) : 2 ^ 31 <= x < 2 ^ 32 -> int32 x = x - 2 ^ 32.
Proof.
  intros Hx. unfold int32.
  replace (x + 2 ^ 31) with (x - 2 ^ 31 + 1 * 2 ^ 32) by lia.
  rewrite Z.mod_add by lia. rewrite Z.mod_small by lia. lia.
Qed.

Lemma store_into_length (data old : list Z) :
  length (store_into data old) = length old.
Proof.
  unfold store_into.
  rewrite length_app, length_firstn, length_skipn. lia.
Qed.

Lemma is_ok_true (status : FT4222_STATUS) : is_ok status = true <-> status = FT4222_OK.
Proof. destruct status; simpl; split; congruence. Qed.

Lemma is_ok_false (status : FT4222_STATUS) : is_ok status = false <-> status <> FT4222_OK.
Proof. destruct status; simpl; split; congruence. Qed.

(** The three bytes of [IntToByteVec], as quotients and remainders. *)
Lemma IntToByteVec_bytes (x : Z) :
  IntToByteVec x = [ (x / 65536) mod 256; (x / 256) mod 256; x mod 256 ].
Proof.
  unfold IntToByteVec.
  rewrite !Z.shiftr_land.
  change (Z.shiftr 0x00FF0000 16) with (Z.ones 8).
  change (Z.shiftr 0x0000FF00 8) with (Z.ones 8).
  change 0x000000FF with (Z.ones 8).
  rewrite !Z.land_ones by lia.
  rewrite !Z.shiftr_div_pow2 by lia.
  reflexivity.
Qed.

(** X1.  [IntToByteVec x] is the low 24 bits of [x] as three bytes, most
    significant first: the vector has three elements, each in [0 .. 255], and
    read as a big-endian number they give [x mod 2^24].  So an address below
    [2^24] is encoded exactly, and two addresses get the same bytes exactly
    when they agree modulo [2^24]: bits 24 and up are dropped silently. *)
Theorem IntToByteVec_three_low_bytes (x : Z) :
  length (IntToByteVec x) = 3%nat
  /\ Forall (fun byte => 0 <= byte < 256) (IntToByteVec x)
  /\ ByteVecToInt (IntToByteVec x) = x mod 2 ^ 24
  /\ (forall y, IntToByteVec x = IntToByteVec y <-> x mod 2 ^ 24 = y mod 2 ^ 24).
Proof.
  split; [ reflexivity | ].
  split.
  { rewrite IntToByteVec_bytes.
    repeat constructor; try (apply Z.mod_pos_bound; lia);
      apply Z.mod_pos_bound; lia. }
  assert (Hdecode : forall z, ByteVecToInt (IntToByteVec z) = z mod 2 ^ 24).
  { intros z. rewrite IntToByteVec_bytes. unfold ByteVecToInt.
    change (2 ^ 24) with 16777216.
    Z.div_mod_to_equations. lia. }
  split; [ apply Hdecode | ].
  intros y. split.
  - intros Heq. rewrite <- (Hdecode x), <- (Hdecode y), Heq. reflexivity.
  - intros Heq. rewrite !IntToByteVec_bytes.
    change (2 ^ 24) with 16777216 in Heq.
    f_equal; [ | f_equal; [ | f_equal ] ]; Z.div_mod_to_equations; lia.
Qed.

(** ** Copying and comparing vectors *)

Lemma firstn_snoc (v : list Z) :
  forall m : nat, (m < length v)%nat -> firstn (S m) v = firstn m v ++ [nth m v 0].
Proof.
  induction v as [ | x v IH ]; intros m Hm; cbn in Hm; [ lia | ].
  destruct m as [ | m ]; [ reflexivity | ].
  cbn [firstn nth app]. rewrite <- IH by lia. reflexivity.
Qed.

Lemma copyChunk_prefix (readBuffer tempBuffer : list Z) (pointer : nat) :
  forall m : nat,
    (m <= length tempBuffer)%nat ->
    (pointer + m <= length readBuffer)%nat ->
    fold_left
      (fun readBuffer j =>
         vec_set readBuffer (Z.of_nat pointer + Z.of_nat j) (at_index tempBuffer (Z.of_nat j)))
      (seq 0 m) readBuffer
    = firstn pointer readBuffer ++ firstn m tempBuffer ++ skipn (pointer + m) readBuffer.
Proof.
  induction m as [ | m IH ]; intros Hm Hp.
  - cbn [seq fold_left firstn app]. rewrite Nat.add_0_r. symmetry. apply firstn_skipn.
  - rewrite seq_S, fold_left_app. cbn [fold_left Nat.add].
    rewrite IH by lia. clear IH.
    set (A := firstn pointer readBuffer).
    set (B := firstn m tempBuffer).
    assert (HA : length A = pointer) by (subst A; rewrite length_firstn; lia).
    assert (HB : length B = m) by (subst B; rewrite length_firstn; lia).
    unfold vec_set, size.
    rewrite !length_app, length_skipn, HA, HB.
    replace ((0 <=? Z.of_nat pointer + Z.of_nat m)
             && (Z.of_nat pointer + Z.of_nat m
                 <? Z.of_nat (pointer + (m + (length readBuffer - (pointer + m))))))
      with true
      by (symmetry; apply andb_true_intro; split;
          [ apply Z.leb_le | apply Z.ltb_lt ]; lia).
    replace (Z.to_nat (Z.of_nat pointer + Z.of_nat m)) with (length (A ++ B))
      by (rewrite length_app; lia).
    rewrite (app_assoc A B).
    rewrite firstn_app, firstn_all, Nat.sub_diag. cbn [firstn]. rewrite app_nil_r.
    rewrite skipn_app.
    rewrite (skipn_all2 (A ++ B)) by lia.
    replace (S (length (A ++ B)) - length (A ++ B))%nat with 1%nat by lia.
    cbn [app].
    rewrite skipn_skipn.
    replace (1 + (pointer + m))%nat with (pointer + S m)%nat by lia.
    subst B. unfold at_index. rewrite Nat2Z.id.
    change (match tempBuffer with [] => [] | a :: l => a :: firstn m l end)
      with (firstn (S m) tempBuffer).
    rewrite (firstn_snoc tempBuffer m) by lia.
    rewrite <- !app_assoc. reflexivity.
Qed.

Lemma copyChunk_spec (readBuffer tempBuffer : list Z) (pointer bytesToRead : Z) :
  0 <= pointer -> 0 <= bytesToRead ->
  size tempBuffer = bytesToRead ->
  pointer + bytesToRead <= size readBuffer ->
  copyChunk readBuffer pointer tempBuffer bytesToRead
  = firstn (Z.to_nat pointer) readBuffer ++ tempBuffer
    ++ skipn (Z.to_nat (pointer + bytesToRead)) readBuffer.
Proof.
  intros Hp Hb Ht Hr. unfold copyChunk, size in *.
  assert (Hpointer : pointer = Z.of_nat (Z.to_nat pointer)) by lia.
  revert Hr. rewrite Hpointer. generalize (Z.to_nat pointer). clear Hpointer Hp.
  intros p Hr.
  rewrite copyChunk_prefix by lia.
  rewrite (firstn_all2 tempBuffer) by lia.
  rewrite Nat2Z.id.
  replace (Z.to_nat (Z.of_nat p + bytesToRead)) with (p + Z.to_nat bytesToRead)%nat
    by lia.
  reflexivity.
Qed.

Lemma differs_false (readBuffer fileBuffer : list Z) :
  length readBuffer = length fileBuffer ->
  differs readBuffer fileBuffer = false <-> readBuffer = fileBuffer.
Proof.
  intros Hlen. unfold differs. split.
  - intros Hno. apply (nth_ext _ _ 0 0 Hlen). intros n Hn.
    destruct (Z.eqb_spec (nth n readBuffer 0) (nth n fileBuffer 0)) as [ | Hne ];
      [ assumption | exfalso ].
    assert (Hex : existsb
              (fun i => negb (at_index readBuffer (Z.of_nat i)
                              =? at_index fileBuffer (Z.of_nat i)))
              (seq 0 (length fileBuffer)) = true).
    { apply existsb_exists. exists n. split.
      - apply in_seq. lia.
      - unfold at_index. rewrite Nat2Z.id.
        apply negb_true_iff, Z.eqb_neq. exact Hne. }
    congruence.
  - intros ->. 
    destruct (existsb _ _) eqn:Hex; [ | reflexivity ].
    apply existsb_exists in Hex. destruct Hex as (n & _ & Hn).
    rewrite Z.eqb_refl in Hn. discriminate.
Qed.

(** ** The two transfer wrappers *)

Section Transfers.

Context {Handle : Type} {driver : SpiMaster Handle}.

(** Every call of [WriteSPI] is one event, carrying the status returned; it
    can only return [FT4222_OK] for a count that fits 16 bits. *)
Lemma WriteSPI_run (buffer : list Z) (count : Z) (isEnd : bool) (h : Handle) :
  exists h' status,
    WriteSPI buffer count isEnd h
    = ([EvWrite buffer (uint16 count) isEnd status], h', status)
    /\ (status = FT4222_OK -> uint16 count = count).
Proof.
  unfold WriteSPI.
  destruct (FT4222_SPIMaster_SingleWrite h buffer (uint16 count) isEnd)
    as [[h' status] transferred].
  do 2 eexists. split; [ reflexivity | ].
  intros Hok.
  destruct status; cbn in Hok; try discriminate.
  destruct (uint16 transferred =? count) eqn:Hn; cbn in Hok; try discriminate.
  apply Z.eqb_eq in Hn. subst count.
  apply uint16_small, uint16_range.
Qed.

(** Every call of [ReadSPI] is one event; the buffer keeps its size. *)
Lemma ReadSPI_run (buffer : list Z) (count : Z) (isEnd : bool) (h : Handle) :
  exists h' status buffer',
    length buffer' = length buffer /\
    ReadSPI buffer count isEnd h
    = ([EvRead (uint16 count) isEnd buffer' status], h', (status, buffer'))
    /\ (status = FT4222_OK -> uint16 count = count).
Proof.
  unfold ReadSPI.
  destruct (FT4222_SPIMaster_SingleRead h (uint16 count) isEnd)
    as [[[h' status] data] sizeOfRead].
  do 3 eexists. split; [ apply store_into_length | ].
  split; [ reflexivity | ].
  intros Hok.
  destruct status; cbn in Hok; try discriminate.
  destruct (uint16 sizeOfRead =? count) eqn:Hn; cbn in Hok; try discriminate.
  apply Z.eqb_eq in Hn. subst count.
  apply uint16_small, uint16_range.
Qed.

(** C10. [WriteSPI] and [ReadSPI] hand the driver the requested count cut to
    16 bits, and compare the 16-bit count the driver reports with the request
    itself.  So a request for more than 65535 bytes never returns
    [FT4222_OK]; when the driver itself reports [FT4222_OK], whatever count it
    reports, the result is [FT4222_INORRECT_TRANSFER_SIZE]. *)
Theorem SPI_count_above_uint16_never_succeeds
        (h : Handle) (buffer : list Z) (count : Z) (isEnd : bool) :
  65535 < count ->
  (trace_of (WriteSPI buffer count isEnd h)
   = [EvWrite buffer (count mod 65536) isEnd (value_of (WriteSPI buffer count isEnd h))]
   /\ value_of (WriteSPI buffer count isEnd h) <> FT4222_OK
   /\ (snd (fst (FT4222_SPIMaster_SingleWrite h buffer (count mod 65536) isEnd))
       = FT4222_OK ->
       value_of (WriteSPI buffer count isEnd h) = FT4222_INORRECT_TRANSFER_SIZE))
  /\
  (fst (value_of (ReadSPI buffer count isEnd h)) <> FT4222_OK
   /\ (snd (fst (fst (FT4222_SPIMaster_SingleRead h (count mod 65536) isEnd)))
       = FT4222_OK ->
       fst (value_of (ReadSPI buffer count isEnd h)) = FT4222_INORRECT_TRANSFER_SIZE)).
Proof.
  intros Hbig.
  unfold WriteSPI, ReadSPI, trace_of, value_of.
  change (uint16 count) with (count mod 65536).
  destruct (FT4222_SPIMaster_SingleWrite h buffer (count mod 65536) isEnd)
    as [[hw sw] nw].
  destruct (FT4222_SPIMaster_SingleRead h (count mod 65536) isEnd)
    as [[[hr sr] dr] nr].
  cbn [fst snd].
  assert (Hw : (uint16 nw =? count) = false)
    by (apply Z.eqb_neq; pose proof (uint16_range nw); lia).
  assert (Hr : (uint16 nr =? count) = false)
    by (apply Z.eqb_neq; pose proof (uint16_range nr); lia).
  rewrite Hw, Hr.
  repeat split.
  - destruct sw; cbn; congruence.
  - intros ->. reflexivity.
  - destruct sr; cbn; congruence.
  - intros ->. reflexivity.
Qed.

End Transfers.

(** ** [WaitForFlashReady] *)

Section ReadyPoller.

Context {header : IceBoardHeader}.
Context {Handle : Type} {driver : SpiMaster Handle}.

Lemma one_byte_buffer (buffer : list Z) :
  length buffer = 1%nat -> buffer = [at_index buffer 0].
Proof.
  destruct buffer as [ | b [ | c rest ] ]; simpl; intros Hlen; try discriminate.
  reflexivity.
Qed.

Lemma sleptPolls_cons (b : Z) (bs : list Z) (tail : list Event) :
  sleptPolls (b :: bs) ++ tail
  = EvWrite [ReadStatusRegisterCmd] 1 false FT4222_OK
    :: EvRead 1 true [b] FT4222_OK :: EvSleep 1 :: sleptPolls bs ++ tail.
Proof. reflexivity. Qed.

(** How [n] rounds of the polling loop can go: a poll reads "ready" after
    fewer than [n] busy ones; or all [n] polls read "busy" and the loop gives
    up; or a transfer of some poll fails. *)
Lemma WaitForFlashReady_loop_cases (n : nat) :
  forall (x : Z) (h : Handle),
    let r := WaitForFlashReady_loop n [x] h in
    (exists bs b,
        (length bs < n)%nat /\ forallb is_busy bs = true /\ is_busy b = false /\
        trace_of r = sleptPolls bs ++ pollEvents b /\ value_of r = FT4222_OK)
    \/ (exists bs,
        length bs = n /\ forallb is_busy bs = true /\
        trace_of r = sleptPolls bs ++ [EvTimeout] /\
        value_of r = FT4222_TIME_OUT_ERROR)
    \/ (exists bs failed,
        (length bs < n)%nat /\ forallb is_busy bs = true /\
        trace_of r = sleptPolls bs ++ failed /\ failedPoll failed (value_of r)).
Proof.
  induction n as [ | n IH ]; intros x h r.
  - right; left. exists []. subst r. cbn. auto.
  - subst r. cbn [WaitForFlashReady_loop]. unfold orReturn, bind.
    destruct (WriteSPI_run [ReadStatusRegisterCmd] 1 false h) as (h1 & s1 & Hw & _).
    rewrite Hw. change (uint16 1) with 1.
    destruct (is_ok s1) eqn:Hs1.
    + apply is_ok_true in Hs1. subst s1.
      destruct (ReadSPI_run [x] (size [x]) true h1) as (h2 & s2 & buf & Hlen & Hr & _).
      rewrite Hr. change (uint16 (size [x])) with 1.
      apply one_byte_buffer in Hlen.
      set (b := at_index buf 0) in *.
      destruct (is_ok s2) eqn:Hs2; cbn [negb].
      * apply is_ok_true in Hs2. subst s2.
        destruct (Z.land b 1 =? 0) eqn:Hb.
        -- left. exists [], b. cbn. rewrite Hlen.
           unfold is_busy. rewrite Hb. repeat split; auto. lia.
        -- unfold emit.
           rewrite Hlen.
           assert (Hbusy : is_busy b = true) by (unfold is_busy; rewrite Hb; reflexivity).
           destruct (IH b h2) as
             [ (bs & b' & Hl & Hbs & Hb' & Ht & Hv)
             | [ (bs & Hl & Hbs & Ht & Hv)
               | (bs & failed & Hl & Hbs & Ht & Hf) ] ];
             destruct (WaitForFlashReady_loop n [b] h2) as [[t3 h3] v3];
             unfold trace_of, value_of in *; cbn [fst snd] in *; subst t3.
           ++ left. exists (b :: bs), b'.
              rewrite sleptPolls_cons. cbn [length forallb]. rewrite Hbusy.
              repeat split; auto. lia.
           ++ right; left. exists (b :: bs).
              rewrite sleptPolls_cons. cbn [length forallb]. rewrite Hbusy.
              repeat split; auto.
           ++ right; right. exists (b :: bs), failed.
              rewrite sleptPolls_cons. cbn [length forallb]. rewrite Hbusy.
              split; [ lia | split; [ exact Hbs | split; [ reflexivity | exact Hf ] ] ].
      * apply is_ok_false in Hs2.
        right; right. exists [], [EvWrite [ReadStatusRegisterCmd] 1 false FT4222_OK;
                                  EvRead 1 true buf s2].
        cbn. repeat split; auto; try lia. right. eauto.
    + apply is_ok_false in Hs1.
      right; right. exists [], [EvWrite [ReadStatusRegisterCmd] 1 false s1].
      cbn. repeat split; auto; try lia.
Qed.

Lemma WaitForFlashReady_ok (h : Handle) :
  value_of (WaitForFlashReady h) = FT4222_OK ->
  readyWait (trace_of (WaitForFlashReady h)).
Proof.
  unfold WaitForFlashReady. intros Hok.
  destruct (WaitForFlashReady_loop_cases (Z.to_nat MAX_WAIT_TIME_MS) 0 h)
    as [ (bs & b & Hl & Hbs & Hb & Ht & _)
       | [ (bs & _ & _ & _ & Hv) | (bs & failed & _ & _ & _ & Hne & _) ] ].
  - exists bs, b. auto.
  - congruence.
  - congruence.
Qed.

Lemma sleptPolls_no_timeout (bs : list Z) (tail : list Event) :
  In EvTimeout (sleptPolls bs ++ tail) -> In EvTimeout tail.
Proof.
  induction bs as [ | b bs IH ]; cbn; [ auto | ].
  intros [H | [H | [H | H]]]; try discriminate. auto.
Qed.

(** C7. [WaitForFlashReady] returns [FT4222_OK] exactly when one of its polls
    reads a status byte with bit 0 clear, all earlier polls having read it
    set, and that poll is the last thing it does; there are at most
    [MAX_WAIT_TIME_MS] polls.  A poll is the [ReadStatus] frame sent with chip
    select held, then one byte read with chip select released; a busy poll is
    followed by [Sleep(1)].  A run that does not return [FT4222_OK] either
    made all [MAX_WAIT_TIME_MS] polls, read "busy" every time and returns
    [FT4222_TIME_OUT_ERROR], or stopped at a poll one of whose transfers
    failed, returning that transfer's status. *)
Theorem WaitForFlashReady_polls (h : Handle) :
  let r := WaitForFlashReady h in
  let budget := Z.to_nat MAX_WAIT_TIME_MS in
  (value_of r = FT4222_OK <->
   exists bs b,
     (length bs < budget)%nat /\ forallb is_busy bs = true /\ is_busy b = false /\
     trace_of r = sleptPolls bs ++ pollEvents b)
  /\
  (value_of r <> FT4222_OK ->
   (exists bs,
       length bs = budget /\ forallb is_busy bs = true /\
       trace_of r = sleptPolls bs ++ [EvTimeout] /\
       value_of r = FT4222_TIME_OUT_ERROR)
   \/
   (exists bs failed,
       (length bs < budget)%nat /\ forallb is_busy bs = true /\
       trace_of r = sleptPolls bs ++ failed /\ failedPoll failed (value_of r))).
Proof.
  intros r budget. subst r. unfold WaitForFlashReady. fold budget.
  pose proof (WaitForFlashReady_loop_cases budget 0 h) as Hcases.
  cbv zeta in Hcases.
  set (r := WaitForFlashReady_loop budget [0] h) in *.
  split; [ split | ].
  - intros Hok.
    destruct Hcases as
      [ (bs & b & Hl & Hbs & Hb & Ht & Hv)
      | [ (bs & Hl & Hbs & Ht & Hv) | (bs & failed & Hl & Hbs & Ht & Hne & _) ] ].
    + eauto 8.
    + congruence.
    + congruence.
  - intros (bs & b & Hl & Hbs & Hb & Ht).
    destruct Hcases as
      [ (bs' & b' & _ & _ & _ & _ & Hv)
      | [ (bs' & Hl' & Hbs' & Ht' & Hv') | (bs' & failed & Hl' & Hbs' & Ht' & Hne & Hf) ] ].
    + exact Hv.
    + exfalso.
      assert (Hin : In EvTimeout (trace_of r))
        by (rewrite Ht'; apply in_or_app; right; left; reflexivity).
      rewrite Ht in Hin. apply sleptPolls_no_timeout in Hin.
      cbn in Hin. destruct Hin as [H | [H | H]]; try discriminate; auto.
    + exfalso.
      assert (Hall : forall e, In e (sleptPolls bs ++ pollEvents b) ->
                match e with
                | EvWrite _ _ _ s | EvRead _ _ _ s => s = FT4222_OK
                | _ => True
                end).
      { clear. intros e Hin. apply in_app_or in Hin. destruct Hin as [Hin | Hin].
        - induction bs as [ | b0 bs IH ]; cbn in Hin; [ contradiction | ].
          destruct Hin as [<- | [<- | [<- | Hin]]]; auto. apply IH. exact Hin.
        - cbn in Hin. destruct Hin as [<- | [<- | []]]; auto. }
      rewrite <- Ht in Hall.
      destruct Hf as [Hfailed | (rb & Hfailed)]; subst failed.
      * apply (Hne (Hall (EvWrite [ReadStatusRegisterCmd] 1 false (value_of r))
                         ltac:(rewrite Ht'; apply in_or_app; right; left; reflexivity))).
      * apply (Hne (Hall (EvRead 1 true rb (value_of r))
                         ltac:(rewrite Ht'; apply in_or_app; right; right; left;
                               reflexivity))).
  - intros Hne.
    destruct Hcases as
      [ (bs & b & Hl & Hbs & Hb & Ht & Hv)
      | [ (bs & Hl & Hbs & Ht & Hv) | (bs & failed & Hl & Hbs & Ht & Hf) ] ].
    + contradiction.
    + left. eauto 8.
    + right. eauto 8.
Qed.

End ReadyPoller.

(** ** Failures stop a run *)

Lemma failure_is_not_ok (e : Event) (status : FT4222_STATUS) :
  failure_of e = Some status -> is_ok status = false.
Proof.
  destruct e as [ w c i s | c i d s | ms | ]; cbn; try discriminate.
  - destruct (is_ok s) eqn:Hs; [ discriminate | ]. intros [= <-]. exact Hs.
  - destruct (is_ok s) eqn:Hs; [ discriminate | ]. intros [= <-]. exact Hs.
  - intros [= <-]. reflexivity.
Qed.

Lemma failFast_stops (t : list Event) (result : option FT4222_STATUS) :
  failFast t result -> stopsAtFirstFailure t result.
Proof.
  intros [Hclean | (pre & e' & st & -> & Hpre & He' & ->)]
         before e after status Heq He.
  - exfalso. subst t. unfold clean in Hclean.
    rewrite Forall_app in Hclean. destruct Hclean as [_ Hclean].
    inversion Hclean; subst. congruence.
  - symmetry in Heq. destruct after as [ | a after' ] using rev_ind.
    + apply app_inj_tail in Heq. destruct Heq as [-> ->].
      split; [ reflexivity | congruence ].
    + exfalso. clear IHafter'.
      assert (Heq' : (before ++ e :: after') ++ [a] = pre ++ [e'])
        by (rewrite <- app_assoc; exact Heq).
      apply app_inj_tail in Heq'. destruct Heq' as [<- _].
      unfold clean in Hpre. rewrite Forall_app in Hpre. destruct Hpre as [_ Hpre].
      inversion Hpre; subst. congruence.
Qed.

Section FailFast.

Context {header : IceBoardHeader}.
Context {Handle : Type} {driver : SpiMaster Handle}.

(** Sequencing keeps runs fail-fast, provided the continuation returns at
    once, with the same status, when the first part reports a failure. *)
Lemma failFast_bind {A B : Type} (m : Op A) (k : A -> Op B)
      (sa : A -> option FT4222_STATUS) (sb : B -> option FT4222_STATUS)
      (h : Handle) :
  failFast (trace_of (m h)) (sa (value_of (m h))) ->
  (forall status,
      sa (value_of (m h)) = Some status -> is_ok status = false ->
      trace_of (k (value_of (m h)) (handle_of (m h))) = [] /\
      sb (value_of (k (value_of (m h)) (handle_of (m h)))) = Some status) ->
  failFast (trace_of (k (value_of (m h)) (handle_of (m h))))
           (sb (value_of (k (value_of (m h)) (handle_of (m h))))) ->
  failFast (trace_of (bind m k h)) (sb (value_of (bind m k h))).
Proof.
  unfold bind, trace_of, handle_of, value_of.
  destruct (m h) as [[t1 h1] a]. cbn [fst snd].
  destruct (k a h1) as [[t2 h2] b]. cbn [fst snd].
  intros [Hclean | (pre & e & st & -> & Hpre & He & Hst)] Hstop Hk.
  - destruct Hk as [Hclean2 | (pre & e & st & -> & Hpre & He & Hst)].
    + left. apply Forall_app. split; assumption.
    + right. exists (t1 ++ pre), e, st. rewrite app_assoc.
      repeat split; auto. apply Forall_app. split; assumption.
  - destruct (Hstop st Hst (failure_is_not_ok _ _ He)) as [-> Hb].
    right. exists pre, e, st. rewrite app_nil_r. auto.
Qed.

Lemma failFast_ret {A : Type} (a : A) (result : option FT4222_STATUS) (h : Handle) :
  failFast (trace_of (ret a h)) result.
Proof. left. constructor. Qed.

Lemma failFast_orReturn (m : Op FT4222_STATUS) (k : FT4222_STATUS -> Op FT4222_STATUS)
      (h : Handle) :
  failFast (trace_of (m h)) (Some (value_of (m h))) ->
  (forall status h', failFast (trace_of (k status h')) (Some (value_of (k status h')))) ->
  failFast (trace_of (orReturn m k h)) (Some (value_of (orReturn m k h))).
Proof.
  intros Hm Hk. unfold orReturn.
  apply (failFast_bind m _ Some Some); [ exact Hm | | ].
  - intros status [= ->] Hnot. rewrite Hnot. split; reflexivity.
  - destruct (is_ok (value_of (m h))); [ apply Hk | apply failFast_ret ].
Qed.

Lemma failFast_WriteSPI (buffer : list Z) (count : Z) (isEnd : bool) (h : Handle) :
  failFast (trace_of (WriteSPI buffer count isEnd h))
           (Some (value_of (WriteSPI buffer count isEnd h))).
Proof.
  destruct (WriteSPI_run buffer count isEnd h) as (h' & status & -> & _).
  unfold trace_of, value_of. cbn [fst snd].
  destruct (is_ok status) eqn:Hs.
  - left. constructor; [ cbn; rewrite Hs; reflexivity | constructor ].
  - right. exists [], (EvWrite buffer (uint16 count) isEnd status), status.
    repeat split; [ constructor | cbn; rewrite Hs; reflexivity ].
Qed.

Lemma failFast_ReadSPI (buffer : list Z) (count : Z) (isEnd : bool) (h : Handle) :
  failFast (trace_of (ReadSPI buffer count isEnd h))
           (Some (fst (value_of (ReadSPI buffer count isEnd h)))).
Proof.
  destruct (ReadSPI_run buffer count isEnd h) as (h' & status & buffer' & _ & -> & _).
  unfold trace_of, value_of. cbn [fst snd].
  destruct (is_ok status) eqn:Hs.
  - left. constructor; [ cbn; rewrite Hs; reflexivity | constructor ].
  - right. exists [], (EvRead (uint16 count) isEnd buffer' status), status.
    repeat split; [ constructor | cbn; rewrite Hs; reflexivity ].
Qed.

Lemma failFast_WaitForFlashReady_loop (n : nat) :
  forall (buffer : list Z) (h : Handle),
    failFast (trace_of (WaitForFlashReady_loop n buffer h))
             (Some (value_of (WaitForFlashReady_loop n buffer h))).
Proof.
  induction n as [ | n IH ]; intros buffer h.
  - right. exists [], EvTimeout, FT4222_TIME_OUT_ERROR.
    repeat split. constructor.
  - cbn [WaitForFlashReady_loop].
    apply failFast_orReturn; [ apply failFast_WriteSPI | ].
    intros _ h1.
    apply (failFast_bind _ _ (fun p => Some (fst p)) Some);
      [ apply failFast_ReadSPI | | ].
    + intros status Hstatus Hnot.
      destruct (value_of (ReadSPI buffer (size buffer) true h1)) as [s b].
      cbn [fst] in Hstatus. injection Hstatus as ->. rewrite Hnot.
      split; reflexivity.
    + destruct (value_of (ReadSPI buffer (size buffer) true h1)) as [s b].
      destruct (is_ok s); cbn [negb]; [ | apply failFast_ret ].
      destruct (Z.land (at_index b 0) 1 =? 0); [ apply failFast_ret | ].
      apply (failFast_bind _ _ (fun _ => None) Some).
      * left. constructor; [ reflexivity | constructor ].
      * discriminate.
      * apply IH.
Qed.

Lemma failFast_WaitForFlashReady (h : Handle) :
  failFast (trace_of (WaitForFlashReady h)) (Some (value_of (WaitForFlashReady h))).
Proof. apply failFast_WaitForFlashReady_loop. Qed.

Lemma failFast_WriteEnableFlash (h : Handle) :
  failFast (trace_of (WriteEnableFlash h)) (Some (value_of (WriteEnableFlash h))).
Proof.
  apply failFast_orReturn; [ apply failFast_WriteSPI | intros; apply failFast_ret ].
Qed.

Lemma failFast_EraseSector (sectorIndex : Z) (h : Handle) :
  failFast (trace_of (EraseSector sectorIndex h))
           (Some (value_of (EraseSector sectorIndex h))).
Proof.
  unfold EraseSector.
  apply failFast_orReturn; [ apply failFast_WriteEnableFlash | intros _ h1 ].
  apply failFast_orReturn; [ apply failFast_WriteSPI | intros _ h2 ].
  apply failFast_orReturn; [ apply failFast_WaitForFlashReady | ].
  intros; apply failFast_ret.
Qed.

Lemma failFast_PageProgramFlash (pageIndex : Z) (buffer : list Z) (h : Handle) :
  failFast (trace_of (PageProgramFlash pageIndex buffer h))
           (Some (value_of (PageProgramFlash pageIndex buffer h))).
Proof.
  unfold PageProgramFlash.
  apply failFast_orReturn; [ apply failFast_WriteEnableFlash | intros _ h1 ].
  apply failFast_orReturn; [ apply failFast_WriteSPI | intros _ h2 ].
  apply failFast_orReturn; [ apply failFast_WriteSPI | intros _ h3 ].
  apply failFast_orReturn; [ apply failFast_WaitForFlashReady | ].
  intros; apply failFast_ret.
Qed.

Lemma failFast_SectorProgramFlash_loop (n : nat) :
  forall (start : Z) (buffer : list Z) (i : Z) (status : FT4222_STATUS) (h : Handle),
    failFast (trace_of (SectorProgramFlash_loop n start buffer i status h))
             (Some (value_of (SectorProgramFlash_loop n start buffer i status h))).
Proof.
  induction n as [ | n IH ]; intros start buffer i status h.
  - apply failFast_ret.
  - cbn [SectorProgramFlash_loop].
    apply failFast_orReturn; [ apply failFast_PageProgramFlash | ].
    intros status' h'. apply IH.
Qed.

Lemma failFast_SectorProgramFlash (sectorIndex : Z) (buffer : list Z) (h : Handle) :
  failFast (trace_of (SectorProgramFlash sectorIndex buffer h))
           (Some (value_of (SectorProgramFlash sectorIndex buffer h))).
Proof. apply failFast_SectorProgramFlash_loop. Qed.

Lemma failFast_ReadSectorFlash (sectorIndex : Z) (buffer : list Z) (h : Handle) :
  failFast (trace_of (ReadSectorFlash sectorIndex buffer h))
           (Some (fst (value_of (ReadSectorFlash sectorIndex buffer h)))).
Proof.
  unfold ReadSectorFlash.
  apply (failFast_bind _ _ Some (fun p => Some (fst p)));
    [ apply failFast_WriteSPI | | ].
  - intros status [= ->] Hnot. rewrite Hnot. split; reflexivity.
  - destruct (is_ok _); cbn [negb]; [ apply failFast_ReadSPI | apply failFast_ret ].
Qed.

Lemma failFast_ProgramFlash_while (fuel : nat) :
  forall (fileBuffer : list Z) (i bufferPointer attempts : Z) (readBuffer : list Z)
         (h : Handle),
    failFast
      (trace_of (ProgramFlash_while fuel fileBuffer i bufferPointer attempts readBuffer h))
      (returned_by
         (value_of (ProgramFlash_while fuel fileBuffer i bufferPointer attempts
                                       readBuffer h))).
Proof.
  induction fuel as [ | fuel IH ]; intros fileBuffer i bufferPointer attempts readBuffer h.
  - apply failFast_ret.
  - cbn [ProgramFlash_while].
    destruct (valid_range _ _ _); cbn [negb]; [ | apply failFast_ret ].
    apply (failFast_bind _ _ Some returned_by);
      [ apply failFast_SectorProgramFlash | | ].
    { intros status [= ->] Hnot. rewrite Hnot. split; reflexivity. }
    destruct (is_ok (value_of (SectorProgramFlash _ _ h))); cbn [negb];
      [ | apply failFast_ret ].
    apply (failFast_bind _ _ (fun p => Some (fst p)) returned_by);
      [ apply failFast_ReadSectorFlash | | ].
    { intros status Hstatus Hnot.
      destruct (value_of (ReadSectorFlash i readBuffer _)) as [s b].
      cbn [fst] in Hstatus. injection Hstatus as ->. rewrite Hnot.
      split; reflexivity. }
    destruct (value_of (ReadSectorFlash i readBuffer _)) as [s b].
    destruct (is_ok s); cbn [negb]; [ | apply failFast_ret ].
    apply (failFast_bind _ _ Some returned_by).
    + destruct (0 <? _); [ apply failFast_EraseSector | apply failFast_ret ].
    + intros status [= ->] Hnot. rewrite Hnot. split; reflexivity.
    + destruct (is_ok _); cbn [negb]; [ | apply failFast_ret ].
      destruct (attempts + 1 =? MAX_SECTOR_PROGRAM_ATTEMPTS); [ left; constructor | ].
      destruct (_ =? 0); [ left; constructor | apply IH ].
Qed.

Lemma failFast_ProgramFlash_for (n : nat) :
  forall (fuel : nat) (fileBuffer : list Z) (i bufferPointer : Z)
         (status : FT4222_STATUS) (readBuffer : list Z) (h : Handle),
    failFast
      (trace_of (ProgramFlash_for n fuel fileBuffer i bufferPointer status readBuffer h))
      (value_of (ProgramFlash_for n fuel fileBuffer i bufferPointer status readBuffer h)).
Proof.
  induction n as [ | n IH ]; intros fuel fileBuffer i bufferPointer status readBuffer h.
  - apply failFast_ret.
  - cbn [ProgramFlash_for].
    apply (failFast_bind _ _ returned_by (fun o => o));
      [ apply failFast_ProgramFlash_while | | ].
    + intros st Hst _.
      destruct (value_of (ProgramFlash_while _ _ _ _ _ _ h)) as [ [ s | s b | ] | ];
        cbn in Hst; try discriminate.
      injection Hst as ->. split; reflexivity.
    + destruct (value_of (ProgramFlash_while _ _ _ _ _ _ h)) as [ [ s | s b | ] | ];
        [ apply failFast_ret | apply IH | apply failFast_ret | apply failFast_ret ].
Qed.

Lemma failFast_ValidateFlash_loop (k : nat) :
  forall (fileBuffer : list Z) (i pointer : Z) (readBuffer : list Z)
         (status : FT4222_STATUS) (h : Handle),
    failFast
      (trace_of (ValidateFlash_loop k fileBuffer i pointer readBuffer status h))
      (Some (value_of (ValidateFlash_loop k fileBuffer i pointer readBuffer status h))).
Proof.
  induction k as [ | k IH ]; intros fileBuffer i pointer readBuffer status h.
  - cbn [ValidateFlash_loop]. destruct (differs _ _); apply failFast_ret.
  - cbn [ValidateFlash_loop].
    apply failFast_orReturn; [ apply failFast_WriteSPI | ].
    intros _ h1.
    apply (failFast_bind _ _ (fun p => Some (fst p)) Some);
      [ apply failFast_ReadSPI | | ].
    + intros st Hst Hnot.
      destruct (value_of (ReadSPI _ _ true h1)) as [s b].
      cbn [fst] in Hst. injection Hst as ->. rewrite Hnot. split; reflexivity.
    + destruct (value_of (ReadSPI _ _ true h1)) as [s b].
      destruct (is_ok s); cbn [negb]; [ apply IH | apply failFast_ret ].
Qed.

(** C9. In a run of [WaitForFlashReady], [PageProgramFlash],
    [SectorProgramFlash], [ProgramFlash] or [ValidateFlash] (and of
    [EraseSector] and [ReadSectorFlash], which [ProgramFlash] calls), whenever
    a transfer fails or the ready poll gives up, that event is the last of the
    run (so nothing is sent afterwards and the transfer is not tried again)
    and the function returns its status.  For [ProgramFlash] this includes
    that the function does return, whatever the fuel. *)
Theorem first_failure_is_returned (h : Handle) :
  stopsAtFirstFailure (trace_of (WaitForFlashReady h))
                      (Some (value_of (WaitForFlashReady h)))
  /\ (forall pageIndex writeBuffer,
        stopsAtFirstFailure
          (trace_of (PageProgramFlash pageIndex writeBuffer h))
          (Some (value_of (PageProgramFlash pageIndex writeBuffer h))))
  /\ (forall sectorIndex sectorBuffer,
        stopsAtFirstFailure
          (trace_of (SectorProgramFlash sectorIndex sectorBuffer h))
          (Some (value_of (SectorProgramFlash sectorIndex sectorBuffer h))))
  /\ (forall fuel fileBuffer,
        stopsAtFirstFailure
          (trace_of (ProgramFlash fuel fileBuffer h))
          (value_of (ProgramFlash fuel fileBuffer h)))
  /\ (forall fileBuffer,
        stopsAtFirstFailure
          (trace_of (ValidateFlash fileBuffer h))
          (Some (value_of (ValidateFlash fileBuffer h))))
  /\ (forall sectorIndex,
        stopsAtFirstFailure
          (trace_of (EraseSector sectorIndex h))
          (Some (value_of (EraseSector sectorIndex h))))
  /\ (forall sectorIndex readBuffer,
        stopsAtFirstFailure
          (trace_of (ReadSectorFlash sectorIndex readBuffer h))
          (Some (fst (value_of (ReadSectorFlash sectorIndex readBuffer h))))).
Proof.
  repeat apply conj; intros; apply failFast_stops.
  - apply failFast_WaitForFlashReady.
  - apply failFast_PageProgramFlash.
  - apply failFast_SectorProgramFlash.
  - apply failFast_ProgramFlash_for.
  - apply failFast_ValidateFlash_loop.
  - apply failFast_EraseSector.
  - apply failFast_ReadSectorFlash.
Qed.

End FailFast.

(** ** [PageProgramFlash] and [SectorProgramFlash] *)

Section SectorProgrammer.

Context {header : IceBoardHeader}.
Context {Handle : Type} {driver : SpiMaster Handle}.

Lemma trace_bind {A B : Type} (m : Op A) (k : A -> Op B) (h : Handle) :
  trace_of (bind m k h)
  = trace_of (m h) ++ trace_of (k (value_of (m h)) (handle_of (m h))).
Proof.
  unfold bind, trace_of, value_of, handle_of.
  destruct (m h) as [[t1 h1] a]. cbn [fst snd].
  destruct (k a h1) as [[t2 h2] b]. reflexivity.
Qed.

(** A page program that returns [FT4222_OK] is: write enable, the
    [PageProgram] frame with the page's address, the payload transfer of
    [FLASH_PAGE_SIZE] bytes, and a wait that ends with "ready". *)
Lemma PageProgramFlash_ok (pageIndex : Z) (writeBuffer : list Z) (h : Handle) :
  value_of (PageProgramFlash pageIndex writeBuffer h) = FT4222_OK ->
  exists w,
    readyWait w /\
    trace_of (PageProgramFlash pageIndex writeBuffer h)
    = pageProgramEvents (pageIndex * FLASH_PAGE_SIZE) writeBuffer ++ w.
Proof.
  unfold PageProgramFlash, WriteEnableFlash, orReturn, bind.
  destruct (WriteSPI_run [WriteEnableCmd] 1 true h) as (h1 & s1 & -> & _).
  destruct (is_ok s1) eqn:E1; cbn [ret]; rewrite E1;
    [ apply is_ok_true in E1; subst s1
    | cbn; intros ->; discriminate ].
  destruct (WriteSPI_run (PageProgramCmd :: IntToByteVec (pageIndex * FLASH_PAGE_SIZE))
                         (size (PageProgramCmd :: IntToByteVec (pageIndex * FLASH_PAGE_SIZE)))
                         false h1) as (h2 & s2 & -> & _).
  destruct (is_ok s2) eqn:E2;
    [ apply is_ok_true in E2; subst s2
    | cbn; intros ->; discriminate ].
  destruct (WriteSPI_run writeBuffer FLASH_PAGE_SIZE true h2) as (h3 & s3 & -> & Hsize).
  destruct (is_ok s3) eqn:E3;
    [ apply is_ok_true in E3; subst s3
    | cbn; intros ->; discriminate ].
  rewrite (Hsize eq_refl).
  pose proof (WaitForFlashReady_ok h3) as Hwait.
  destruct (WaitForFlashReady h3) as [[t4 h4] s4].
  unfold value_of, trace_of in *. cbn [fst snd] in *.
  destruct (is_ok s4) eqn:E4; cbn [ret fst snd]; intros Hv; subst s4;
    [ | discriminate ].
  exists t4. split; [ auto | ].
  rewrite !app_nil_r. reflexivity.
Qed.

Lemma SectorProgramFlash_loop_ok (n : nat) :
  forall (start : Z) (buffer : list Z) (i : Z) (status : FT4222_STATUS) (h : Handle),
    value_of (SectorProgramFlash_loop n start buffer i status h) = FT4222_OK ->
    exists waits,
      length waits = n /\ Forall readyWait waits /\
      trace_of (SectorProgramFlash_loop n start buffer i status h)
      = pagesEvents (pageBuffer buffer) start i waits.
Proof.
  induction n as [ | n IH ]; intros start buffer i status h Hok.
  - exists []. repeat split. constructor.
  - cbn [SectorProgramFlash_loop] in *. unfold orReturn, bind in *.
    pose proof (PageProgramFlash_ok (start + i) (pageBuffer buffer i) h) as Hpage.
    destruct (PageProgramFlash (start + i) (pageBuffer buffer i) h) as [[t1 h1] s1].
    unfold value_of, trace_of in Hpage. cbn [fst snd] in Hpage.
    destruct (is_ok s1) eqn:E1.
    + apply is_ok_true in E1. subst s1.
      destruct (Hpage eq_refl) as (w & Hw & ->).
      specialize (IH start buffer (i + 1) FT4222_OK h1).
      destruct (SectorProgramFlash_loop n start buffer (i + 1) FT4222_OK h1)
        as [[t2 h2] s2].
      unfold value_of, trace_of in *. cbn [fst snd] in *.
      destruct (IH Hok) as (waits & Hlen & Hwaits & ->).
      exists (w :: waits). cbn [length pagesEvents].
      split; [ congruence | split; [ constructor; assumption | ] ].
      rewrite <- !app_assoc. reflexivity.
    + cbn in Hok. subst s1. discriminate.
Qed.

Lemma pagesEvents_ext (f g : Z -> list Z) (start : Z) (waits : list (list Event)) :
  forall i,
    (forall k, i <= k < i + Z.of_nat (length waits) -> f k = g k) ->
    pagesEvents f start i waits = pagesEvents g start i waits.
Proof.
  induction waits as [ | w waits IH ]; intros i Hfg; [ reflexivity | ].
  cbn [pagesEvents length] in *.
  rewrite (Hfg i) by lia. rewrite (IH (i + 1)); [ reflexivity | ].
  intros k Hk. apply Hfg. lia.
Qed.

(** For a sector buffer that is neither empty nor too long, [pageCount] is
    the number of pages rounded up. *)
Lemma pageCount_ceil (sectorBuffer : list Z) :
  0 < FLASH_PAGE_SIZE ->
  FLASH_SECTOR_SIZE mod FLASH_PAGE_SIZE = 0 ->
  0 < size sectorBuffer <= FLASH_SECTOR_SIZE ->
  size sectorBuffer < 2 ^ 31 ->
  pageCount sectorBuffer = ceilDiv (size sectorBuffer) FLASH_PAGE_SIZE.
Proof.
  intros HP HS Hlen Hint. unfold pageCount, ceilDiv.
  rewrite (int32_size sectorBuffer Hint).
  destruct (size sectorBuffer <? FLASH_SECTOR_SIZE) eqn:Hlt.
  - rewrite Z.quot_div_nonneg by lia.
    replace (size sectorBuffer + FLASH_PAGE_SIZE - 1)
      with (size sectorBuffer - 1 + 1 * FLASH_PAGE_SIZE) by lia.
    rewrite Z.div_add by lia. lia.
  - apply Z.ltb_ge in Hlt.
    assert (Heq : size sectorBuffer = FLASH_SECTOR_SIZE) by lia.
    rewrite Heq. rewrite Z.quot_div_nonneg by lia.
    apply Z.mod_divide in HS; [ | lia ]. destruct HS as [q Hq].
    rewrite Hq.
    replace (q * FLASH_PAGE_SIZE + FLASH_PAGE_SIZE - 1)
      with (FLASH_PAGE_SIZE - 1 + q * FLASH_PAGE_SIZE) by lia.
    rewrite Z.div_add, Z.div_mul by lia.
    rewrite Z.div_small by lia. lia.
Qed.

Lemma ceilDiv_bounds (a b : Z) :
  0 < b -> 0 < a ->
  0 < ceilDiv a b /\ (ceilDiv a b - 1) * b < a <= ceilDiv a b * b.
Proof.
  intros Hb Ha. unfold ceilDiv.
  pose proof (Z.div_mod (a + b - 1) b ltac:(lia)) as Hdm.
  pose proof (Z.mod_pos_bound (a + b - 1) b Hb) as Hm.
  nia.
Qed.

(** The code's page buffers are the consecutive page-sized pieces. *)
Lemma pageBuffer_chunk (sectorBuffer : list Z) (k : Z) :
  0 < FLASH_PAGE_SIZE ->
  FLASH_SECTOR_SIZE mod FLASH_PAGE_SIZE = 0 ->
  0 < size sectorBuffer <= FLASH_SECTOR_SIZE ->
  size sectorBuffer < 2 ^ 31 ->
  0 <= k < pageCount sectorBuffer ->
  pageBuffer sectorBuffer k = pageChunk sectorBuffer k.
Proof.
  intros HP HS Hlen Hint Hk.
  unfold pageBuffer, pageLast, pageChunk, vec_range.
  pose proof (pageCount_ceil sectorBuffer HP HS Hlen Hint) as Hpc.
  pose proof (ceilDiv_bounds (size sectorBuffer) FLASH_PAGE_SIZE HP ltac:(lia)) as Hb.
  rewrite <- Hpc in Hb.
  destruct (k =? pageCount sectorBuffer - 1) eqn:Hlast.
  - apply Z.eqb_eq in Hlast.
    rewrite !firstn_all2; [ reflexivity | | ];
      rewrite length_skipn; unfold size in *; nia.
  - f_equal. lia.
Qed.

(** Where the pages are as the specification has them.  For a sector buffer
    of [len] bytes with
    [0 < len <= FLASH_SECTOR_SIZE] (a sector size that is a multiple of the
    page size, a length that fits an [int]), a run of [SectorProgramFlash]
    that returns [FT4222_OK] is
    exactly [ceil (len / FLASH_PAGE_SIZE)] page programs over the consecutive
    page-sized pieces of the buffer, the last piece possibly shorter.  Page [k]
    is: write enable, the [PageProgram] frame for address
    [(sectorIndex * (FLASH_SECTOR_SIZE / FLASH_PAGE_SIZE) + k) * FLASH_PAGE_SIZE]
    (which is [sectorIndex * FLASH_SECTOR_SIZE + k * FLASH_PAGE_SIZE]), the
    payload transfer, and a wait that ends with a "ready" poll. *)
Theorem SectorProgramFlash_pages
        (sectorIndex : Z) (sectorBuffer : list Z) (h : Handle) :
  0 < FLASH_PAGE_SIZE ->
  FLASH_SECTOR_SIZE mod FLASH_PAGE_SIZE = 0 ->
  0 < size sectorBuffer <= FLASH_SECTOR_SIZE ->
  size sectorBuffer < 2 ^ 31 ->
  value_of (SectorProgramFlash sectorIndex sectorBuffer h) = FT4222_OK ->
  (exists waits,
      length waits = Z.to_nat (ceilDiv (size sectorBuffer) FLASH_PAGE_SIZE) /\
      Forall readyWait waits /\
      trace_of (SectorProgramFlash sectorIndex sectorBuffer h)
      = pagesEvents (pageChunk sectorBuffer)
                    (sectorIndex * (FLASH_SECTOR_SIZE / FLASH_PAGE_SIZE)) 0 waits)
  /\
  (forall k,
      (sectorIndex * (FLASH_SECTOR_SIZE / FLASH_PAGE_SIZE) + k) * FLASH_PAGE_SIZE
      = sectorIndex * FLASH_SECTOR_SIZE + k * FLASH_PAGE_SIZE).
Proof.
  intros HP HS Hlen Hint Hok. split.
  - unfold SectorProgramFlash in *.
    destruct (SectorProgramFlash_loop_ok _ _ _ _ _ _ Hok)
      as (waits & Hwaits & Hready & Htrace).
    exists waits.
    rewrite <- (pageCount_ceil sectorBuffer HP HS Hlen Hint).
    split; [ exact Hwaits | split; [ exact Hready | ] ].
    rewrite Htrace. rewrite Z.quot_div_nonneg by lia.
    apply pagesEvents_ext. intros k Hk.
    apply pageBuffer_chunk; try assumption.
    rewrite Hwaits in Hk.
    assert (0 <= pageCount sectorBuffer).
    { rewrite (pageCount_ceil sectorBuffer HP HS Hlen Hint).
      pose proof (ceilDiv_bounds (size sectorBuffer) FLASH_PAGE_SIZE HP ltac:(lia)).
      lia. }
    lia.
  - intros k.
    apply Z.mod_divide in HS; [ | lia ]. destruct HS as [q Hq].
    rewrite Hq, Z.div_mul by lia. lia.
Qed.

(** The page count of an empty buffer is one, not zero, when a page has more
    than one byte: [(0 - 1) / FLASH_PAGE_SIZE] is [0] in C++. *)
Lemma pageCount_empty :
  1 < FLASH_PAGE_SIZE -> 0 < FLASH_SECTOR_SIZE -> pageCount [] = 1.
Proof.
  intros HP HS. unfold pageCount.
  change (int32 (size [])) with 0.
  replace (0 <? FLASH_SECTOR_SIZE) with true by (symmetry; apply Z.ltb_lt; lia).
  change (0 - 1) with (- (1)).
  rewrite Z.quot_opp_l by lia. rewrite Z.quot_small by lia. reflexivity.
Qed.

(** Where the cast of the size shows: a buffer of more than [2^31] bytes is
    taken for a short one, and its page count is not positive. *)
Lemma pageCount_beyond_int (sectorBuffer : list Z) :
  0 < FLASH_PAGE_SIZE -> 0 <= FLASH_SECTOR_SIZE ->
  2 ^ 31 < size sectorBuffer -> size sectorBuffer + FLASH_PAGE_SIZE <= 2 ^ 32 ->
  pageCount sectorBuffer = 1 - (2 ^ 32 + 1 - size sectorBuffer) / FLASH_PAGE_SIZE
  /\ pageCount sectorBuffer <= 0.
Proof.
  intros HP HS Hlen Hend. unfold pageCount.
  assert (Hrange : 2 ^ 31 <= size sectorBuffer < 2 ^ 32) by lia.
  rewrite (int32_wraps (size sectorBuffer) Hrange).
  replace (size sectorBuffer - 2 ^ 32 <? FLASH_SECTOR_SIZE) with true
    by (symmetry; apply Z.ltb_lt; lia).
  replace (size sectorBuffer - 2 ^ 32 - 1) with (- (2 ^ 32 + 1 - size sectorBuffer))
    by lia.
  rewrite Z.quot_opp_l by lia. rewrite Z.quot_div_nonneg by lia.
  split; [ lia | ].
  assert (1 <= (2 ^ 32 + 1 - size sectorBuffer) / FLASH_PAGE_SIZE)
    by (apply Z.div_le_lower_bound; lia).
  lia.
Qed.

(** In [SectorProgramFlash] the iterators of every page delimit a range of
    the sector buffer, whatever its size, when a page has a positive size. *)
Lemma pageBuffer_valid_range (sectorBuffer : list Z) (i : Z) :
  0 < FLASH_PAGE_SIZE -> size sectorBuffer < 2 ^ 31 ->
  0 <= i < pageCount sectorBuffer ->
  valid_range sectorBuffer (i * FLASH_PAGE_SIZE) (pageLast sectorBuffer i) = true.
Proof.
  intros HP Hint. unfold valid_range, pageLast, pageCount.
  rewrite (int32_size sectorBuffer Hint).
  assert (Hsize : 0 <= size sectorBuffer) by (unfold size; lia).
  rewrite !andb_true_iff, !Z.leb_le.
  destruct (Z.ltb_spec (size sectorBuffer) FLASH_SECTOR_SIZE) as [Hshort | Hlong].
  - destruct (Z.eq_dec (size sectorBuffer) 0) as [Hempty | Hsome].
    + rewrite Hempty. change (0 - 1) with (- (1)).
      rewrite Z.quot_opp_l by lia.
      destruct (Z.eq_dec FLASH_PAGE_SIZE 1) as [Hone | Hwide].
      * rewrite Hone. change (1 + - Z.quot 1 1) with 0. lia.
      * rewrite Z.quot_small by lia. intros Hi.
        replace i with 0 by lia. cbn. lia.
    + rewrite Z.quot_div_nonneg by lia. intros Hi.
      pose proof (Z.mul_div_le (size sectorBuffer - 1) FLASH_PAGE_SIZE HP) as Hfloor.
      destruct (Z.eqb_spec i (1 + (size sectorBuffer - 1) / FLASH_PAGE_SIZE - 1))
        as [-> | Hinner]; nia.
  - intros Hi.
    assert (HS : 0 < FLASH_SECTOR_SIZE).
    { destruct (Z.lt_ge_cases 0 FLASH_SECTOR_SIZE) as [ | Hneg ]; [ assumption | ].
      exfalso.
      assert (Hnz : FLASH_PAGE_SIZE <> 0) by lia.
      assert (Hpos : 0 <= - FLASH_SECTOR_SIZE) by lia.
      pose proof (Z.quot_opp_l (- FLASH_SECTOR_SIZE) FLASH_PAGE_SIZE Hnz) as Hopp.
      rewrite Z.opp_involutive in Hopp.
      pose proof (Z.quot_pos (- FLASH_SECTOR_SIZE) FLASH_PAGE_SIZE Hpos HP).
      lia. }
    rewrite Z.quot_div_nonneg in * by lia.
    pose proof (Z.mul_div_le FLASH_SECTOR_SIZE FLASH_PAGE_SIZE HP) as Hfloor.
    destruct (Z.eqb_spec i (FLASH_SECTOR_SIZE / FLASH_PAGE_SIZE - 1))
      as [-> | Hinner]; nia.
Qed.

(** C5.  The claim, and the comment above [SectorProgramFlash] ("only the
    bytes actually present in the sectorBuffer are programmed"), fail for
    the buffer of no bytes.  With pages of more than one byte the page
    count [1 + ((int)0 - 1) / FLASH_PAGE_SIZE] is one where
    [ceil (0 / FLASH_PAGE_SIZE)] is zero, and the page buffer of that page
    is empty.  For every driver the run starts with a write enable; when it
    returns [FT4222_OK] it is one whole page program, whose payload
    transfer points the driver at a vector of no bytes and tells it to send
    [FLASH_PAGE_SIZE] of them. *)
Theorem SectorProgramFlash_empty_buffer (sectorIndex : Z) (h : Handle) :
  1 < FLASH_PAGE_SIZE -> 0 < FLASH_SECTOR_SIZE ->
  pageCount [] = 1
  /\ ceilDiv (size []) FLASH_PAGE_SIZE = 0
  /\ pageBuffer [] 0 = []
  /\ (exists status rest,
         trace_of (SectorProgramFlash sectorIndex [] h)
         = EvWrite [WriteEnableCmd] 1 true status :: rest)
  /\ (value_of (SectorProgramFlash sectorIndex [] h) = FT4222_OK ->
      exists wait,
        readyWait wait /\
        trace_of (SectorProgramFlash sectorIndex [] h)
        = [ EvWrite [WriteEnableCmd] 1 true FT4222_OK;
            EvWrite (PageProgramCmd
                     :: IntToByteVec (sectorIndex * (FLASH_SECTOR_SIZE / FLASH_PAGE_SIZE)
                                      * FLASH_PAGE_SIZE))
                    4 false FT4222_OK;
            EvWrite [] FLASH_PAGE_SIZE true FT4222_OK ]
          ++ wait).
Proof.
  intros HP HS.
  pose proof (pageCount_empty HP HS) as Hcount.
  assert (Hbuffer : pageBuffer [] 0 = []).
  { unfold pageBuffer, vec_range. rewrite skipn_nil, firstn_nil. reflexivity. }
  split; [ exact Hcount | ].
  split; [ unfold ceilDiv; cbn [size length Z.of_nat]; apply Z.div_small; lia | ].
  split; [ exact Hbuffer | ].
  split.
  - unfold SectorProgramFlash. rewrite Hcount.
    change (Z.to_nat 1) with 1%nat. cbn [SectorProgramFlash_loop].
    unfold PageProgramFlash, WriteEnableFlash, orReturn.
    rewrite !trace_bind.
    destruct (WriteSPI_run [WriteEnableCmd] 1 true h) as (h1 & s1 & -> & _).
    exists s1. unfold trace_of at 1. cbn [fst app]. eauto.
  - intros Hok. unfold SectorProgramFlash in *.
    destruct (SectorProgramFlash_loop_ok _ _ _ _ _ _ Hok)
      as (waits & Hwaits & Hready & Htrace).
    rewrite Hcount in Hwaits.
    destruct waits as [ | wait [ | ] ]; try discriminate Hwaits.
    exists wait. split; [ inversion Hready; assumption | ].
    rewrite Htrace. cbn [pagesEvents]. rewrite Hbuffer, app_nil_r.
    rewrite Z.quot_div_nonneg by lia. rewrite Z.add_0_r.
    reflexivity.
Qed.

(** A sector buffer longer than a sector: the page count is that of a full
    sector, and the first [FLASH_PAGE_SIZE] bytes of page buffer [k] are the
    [k]-th page-sized piece. *)
Lemma pageBuffer_oversized (sectorBuffer : list Z) (k : Z) :
  0 < FLASH_PAGE_SIZE ->
  FLASH_SECTOR_SIZE < size sectorBuffer < 2 ^ 31 ->
  0 <= k < FLASH_SECTOR_SIZE / FLASH_PAGE_SIZE ->
  firstn (Z.to_nat FLASH_PAGE_SIZE) (pageBuffer sectorBuffer k)
  = pageChunk sectorBuffer k.
Proof.
  intros HP Hlen Hk. unfold pageBuffer, pageLast, pageChunk, vec_range.
  assert (Hpc : pageCount sectorBuffer = FLASH_SECTOR_SIZE / FLASH_PAGE_SIZE).
  { unfold pageCount. rewrite int32_size by lia.
    destruct (size sectorBuffer <? FLASH_SECTOR_SIZE) eqn:Hlt;
      [ apply Z.ltb_lt in Hlt; lia | ].
    assert (0 <= FLASH_SECTOR_SIZE).
    { destruct (Z.le_gt_cases 0 FLASH_SECTOR_SIZE) as [ | Hneg ]; [ assumption | ].
      assert (FLASH_SECTOR_SIZE / FLASH_PAGE_SIZE < 0)
        by (apply Z.div_lt_upper_bound; lia).
      lia. }
    apply Z.quot_div_nonneg; lia. }
  rewrite Hpc.
  assert (Hmul : FLASH_PAGE_SIZE * (FLASH_SECTOR_SIZE / FLASH_PAGE_SIZE)
                 <= FLASH_SECTOR_SIZE)
    by (apply Z.mul_div_le; lia).
  destruct (k =? FLASH_SECTOR_SIZE / FLASH_PAGE_SIZE - 1) eqn:Hlast.
  - rewrite firstn_firstn. f_equal.
    apply Nat.min_l. unfold size in *. nia.
  - rewrite firstn_firstn. f_equal.
    apply Nat.min_l. lia.
Qed.

(** A buffer that is too long is not turned away either.
    [SectorProgramFlash] does not look at the size of its buffer before it
    starts: for a buffer longer than
    [FLASH_SECTOR_SIZE] (of a length that fits an [int]) its first act is
    the write-enable transfer, and a run that returns
    [FT4222_OK] is the [FLASH_SECTOR_SIZE / FLASH_PAGE_SIZE] page programs of
    a full sector, page [k] pointing the payload transfer of
    [FLASH_PAGE_SIZE] bytes at the buffer's [k]-th page-sized piece.  The
    bytes behind [FLASH_SECTOR_SIZE] are not sent. *)
Theorem SectorProgramFlash_oversized_buffer
        (sectorIndex : Z) (sectorBuffer : list Z) (h : Handle) :
  0 < FLASH_PAGE_SIZE <= FLASH_SECTOR_SIZE ->
  FLASH_SECTOR_SIZE < size sectorBuffer < 2 ^ 31 ->
  (exists status rest,
      trace_of (SectorProgramFlash sectorIndex sectorBuffer h)
      = EvWrite [WriteEnableCmd] 1 true status :: rest)
  /\
  (value_of (SectorProgramFlash sectorIndex sectorBuffer h) = FT4222_OK ->
   exists waits,
     length waits = Z.to_nat (FLASH_SECTOR_SIZE / FLASH_PAGE_SIZE) /\
     Forall readyWait waits /\
     trace_of (SectorProgramFlash sectorIndex sectorBuffer h)
     = pagesEvents (pageBuffer sectorBuffer)
                   (sectorIndex * (FLASH_SECTOR_SIZE / FLASH_PAGE_SIZE)) 0 waits /\
     forall k,
       0 <= k < FLASH_SECTOR_SIZE / FLASH_PAGE_SIZE ->
       firstn (Z.to_nat FLASH_PAGE_SIZE) (pageBuffer sectorBuffer k)
       = pageChunk sectorBuffer k).
Proof.
  intros HP Hlen.
  assert (Hpc : pageCount sectorBuffer = FLASH_SECTOR_SIZE / FLASH_PAGE_SIZE).
  { unfold pageCount. rewrite int32_size by lia.
    destruct (size sectorBuffer <? FLASH_SECTOR_SIZE) eqn:Hlt;
      [ apply Z.ltb_lt in Hlt; lia | ].
    apply Z.quot_div_nonneg; lia. }
  assert (Hpos : 1 <= FLASH_SECTOR_SIZE / FLASH_PAGE_SIZE)
    by (apply Z.div_le_lower_bound; lia).
  split.
  - unfold SectorProgramFlash. rewrite Hpc.
    destruct (Z.to_nat (FLASH_SECTOR_SIZE / FLASH_PAGE_SIZE)) as [ | n ] eqn:Hn;
      [ lia | ].
    cbn [SectorProgramFlash_loop].
    unfold PageProgramFlash, WriteEnableFlash, orReturn.
    rewrite !trace_bind.
    destruct (WriteSPI_run [WriteEnableCmd] 1 true h) as (h1 & s1 & -> & _).
    exists s1. unfold trace_of at 1. cbn [fst app]. eauto.
  - intros Hok. unfold SectorProgramFlash in *.
    destruct (SectorProgramFlash_loop_ok _ _ _ _ _ _ Hok)
      as (waits & Hwaits & Hready & Htrace).
    exists waits. rewrite <- Hpc.
    split; [ exact Hwaits | split; [ exact Hready | split ] ].
    + rewrite Htrace. rewrite Hpc. rewrite Z.quot_div_nonneg by lia. reflexivity.
    + rewrite Hpc. intros k Hk. apply pageBuffer_oversized; [ lia | exact Hlen | lia ].
Qed.

(** C3.  The payload transfer of a page program asks the driver for
    [FLASH_PAGE_SIZE] bytes whatever the size of the page buffer: in every run
    that returns [FT4222_OK] the third transfer is
    [WriteSPI(writeBuffer, FLASH_PAGE_SIZE, true)].  For a buffer shorter than
    a page the driver is therefore pointed at fewer bytes than it is told to
    send. *)
Theorem PageProgramFlash_payload_count
        (pageIndex : Z) (writeBuffer : list Z) (h : Handle) :
  value_of (PageProgramFlash pageIndex writeBuffer h) = FT4222_OK ->
  nth_error (trace_of (PageProgramFlash pageIndex writeBuffer h)) 2
  = Some (EvWrite writeBuffer FLASH_PAGE_SIZE true FT4222_OK).
Proof.
  intros Hok. destruct (PageProgramFlash_ok _ _ _ Hok) as (w & _ & ->).
  reflexivity.
Qed.

End SectorProgrammer.

(** ** [ValidateFlash] *)

Section Validator.

Context {header : IceBoardHeader}.
Context {Handle : Type} {driver : SpiMaster Handle}.

Lemma chunkCount_bounds (fileBuffer : list Z) :
  0 < MAX_READ_SIZE -> 0 < size fileBuffer < 2 ^ 31 ->
  chunkCount fileBuffer = ceilDiv (size fileBuffer) MAX_READ_SIZE /\
  (chunkCount fileBuffer - 1) * MAX_READ_SIZE < size fileBuffer
  <= chunkCount fileBuffer * MAX_READ_SIZE.
Proof.
  intros HM Hlen.
  assert (Hc : chunkCount fileBuffer = ceilDiv (size fileBuffer) MAX_READ_SIZE).
  { unfold chunkCount, ceilDiv. rewrite int32_size by lia.
    rewrite Z.quot_div_nonneg by lia.
    replace (size fileBuffer + MAX_READ_SIZE - 1)
      with (size fileBuffer - 1 + 1 * MAX_READ_SIZE) by lia.
    rewrite Z.div_add by lia. lia. }
  split; [ exact Hc | ]. rewrite Hc.
  apply ceilDiv_bounds; [ assumption | lia ].
Qed.

(** Where the cast of the size shows: for an image of [2^31] bytes or more
    the chunk count is no longer the number of chunks.  An image of
    [2^31 + 5] bytes read in chunks of 65535 gives a count of [-32767]. *)
Lemma chunkCount_beyond_int (fileBuffer : list Z) :
  0 < MAX_READ_SIZE -> 2 ^ 31 <= size fileBuffer < 2 ^ 32 ->
  chunkCount fileBuffer = 1 - (2 ^ 32 + 1 - size fileBuffer) / MAX_READ_SIZE.
Proof.
  intros HM Hlen. unfold chunkCount. rewrite int32_wraps by exact Hlen.
  replace (size fileBuffer - 2 ^ 32 - 1) with (- (2 ^ 32 + 1 - size fileBuffer)) by lia.
  rewrite Z.quot_opp_l by lia. rewrite Z.quot_div_nonneg by lia. lia.
Qed.

Lemma clean_cons (e : Event) (t : list Event) :
  clean (e :: t) -> failure_of e = None /\ clean t.
Proof. intros H. inversion H; subst. auto. Qed.

Lemma clean_write_ok (w : list Z) (c : Z) (i : bool) (s : FT4222_STATUS) :
  failure_of (EvWrite w c i s) = None -> s = FT4222_OK.
Proof. cbn. destruct s; cbn; congruence. Qed.

Lemma clean_read_ok (c : Z) (i : bool) (d : list Z) (s : FT4222_STATUS) :
  failure_of (EvRead c i d s) = None -> s = FT4222_OK.
Proof. cbn. destruct s; cbn; congruence. Qed.

Lemma ValidateFlash_loop_clean (k : nat) :
  forall (fileBuffer : list Z) (i : Z) (readBuffer : list Z) (h : Handle),
    0 < MAX_READ_SIZE -> 0 < size fileBuffer < 2 ^ 31 ->
    0 <= i -> Z.of_nat k = chunkCount fileBuffer - i ->
    length readBuffer = length fileBuffer ->
    clean (trace_of (ValidateFlash_loop k fileBuffer i (i * MAX_READ_SIZE)
                                        readBuffer FT4222_OK h)) ->
    exists chunks,
      map size chunks
      = map (fun j => bytesToRead fileBuffer (i + Z.of_nat j)) (seq 0 k) /\
      trace_of (ValidateFlash_loop k fileBuffer i (i * MAX_READ_SIZE)
                                   readBuffer FT4222_OK h)
      = readEvents (i * MAX_READ_SIZE) chunks /\
      value_of (ValidateFlash_loop k fileBuffer i (i * MAX_READ_SIZE)
                                   readBuffer FT4222_OK h)
      = if differs (firstn (Z.to_nat (i * MAX_READ_SIZE)) readBuffer ++ concat chunks)
                   fileBuffer
        then FT4222_CORRUPTED_UPLOAD else FT4222_OK.
Proof.
  induction k as [ | k IH ]; intros fileBuffer i readBuffer h HM Hlen Hi Hk Hrb Hclean;
    destruct (chunkCount_bounds fileBuffer HM Hlen) as [_ Hn].
  - exists []. cbn [map seq readEvents concat ValidateFlash_loop].
    rewrite app_nil_r, firstn_all2 by (unfold size in *; nia).
    destruct (differs readBuffer fileBuffer); auto.
  - cbn [ValidateFlash_loop] in *. unfold orReturn, bind in *.
    remember (bytesToRead fileBuffer i) as b eqn:Eb.
    assert (Hb : 0 < b <= MAX_READ_SIZE /\ i * MAX_READ_SIZE + b <= size fileBuffer
                 /\ (b = MAX_READ_SIZE \/ i * MAX_READ_SIZE + b = size fileBuffer)).
    { rewrite Eb. unfold bytesToRead. rewrite int32_size by lia.
      destruct (i =? chunkCount fileBuffer - 1) eqn:Hlast.
      - apply Z.eqb_eq in Hlast. nia.
      - apply Z.eqb_neq in Hlast. nia. }
    destruct Hb as (Hb1 & Hb2 & Hb3).
    destruct (WriteSPI_run (ReadCmd :: IntToByteVec (i * MAX_READ_SIZE))
                (size (ReadCmd :: IntToByteVec (i * MAX_READ_SIZE))) false h)
      as (h1 & s1 & Hw & _).
    rewrite Hw in *. clear Hw.
    destruct (is_ok s1) eqn:E1.
    2:{ exfalso. unfold trace_of in Hclean. cbn in Hclean.
        apply clean_cons in Hclean. destruct Hclean as [Hs _].
        apply clean_write_ok in Hs. subst s1. discriminate. }
    apply is_ok_true in E1. subst s1.
    destruct (ReadSPI_run (repeat 0 (Z.to_nat b)) b true h1)
      as (h2 & s2 & chunk & Hchunk & Hr & Hsize).
    rewrite Hr in *. clear Hr.
    rewrite repeat_length in Hchunk.
    destruct (is_ok s2) eqn:E2; cbn [negb] in *.
    2:{ exfalso. unfold trace_of in Hclean. cbn in Hclean.
        apply clean_cons in Hclean. destruct Hclean as [_ Hclean].
        apply clean_cons in Hclean. destruct Hclean as [Hs _].
        apply clean_read_ok in Hs. subst s2. discriminate. }
    apply is_ok_true in E2. subst s2.
    rewrite (Hsize eq_refl) in *.
    replace (i * MAX_READ_SIZE + MAX_READ_SIZE) with ((i + 1) * MAX_READ_SIZE) in * by lia.
    specialize (IH fileBuffer (i + 1)
                   (copyChunk readBuffer (i * MAX_READ_SIZE) chunk b) h2 HM Hlen
                   ltac:(lia) ltac:(lia)).
    assert (Hcopy : copyChunk readBuffer (i * MAX_READ_SIZE) chunk b
                    = firstn (Z.to_nat (i * MAX_READ_SIZE)) readBuffer ++ chunk
                      ++ skipn (Z.to_nat (i * MAX_READ_SIZE + b)) readBuffer).
    { apply copyChunk_spec; unfold size in *; lia. }
    assert (Hcopylen : length (copyChunk readBuffer (i * MAX_READ_SIZE) chunk b)
                       = length fileBuffer).
    { rewrite Hcopy, !length_app, length_firstn, length_skipn.
      unfold size in *. lia. }
    destruct (ValidateFlash_loop k fileBuffer (i + 1) ((i + 1) * MAX_READ_SIZE)
                (copyChunk readBuffer (i * MAX_READ_SIZE) chunk b) FT4222_OK h2)
      as [[t3 h3] v3].
    unfold trace_of, value_of in *. cbn [fst snd app] in *.
    apply clean_cons in Hclean. destruct Hclean as [_ Hclean].
    apply clean_cons in Hclean. destruct Hclean as [_ Hclean].
    destruct (IH Hcopylen Hclean) as (chunks & Hsizes & -> & ->).
    exists (chunk :: chunks).
    split; [ | split ].
    + cbn [map seq]. rewrite <- seq_shift, map_map. f_equal.
      * rewrite Z.add_0_r, <- Eb. unfold size. lia.
      * rewrite Hsizes. apply map_ext. intros j. f_equal. lia.
    + cbn [readEvents]. 
      replace (size chunk) with b by (unfold size; lia).
      replace (i * MAX_READ_SIZE + MAX_READ_SIZE) with ((i + 1) * MAX_READ_SIZE) by lia.
      reflexivity.
    + cbn [concat].
      replace (firstn (Z.to_nat ((i + 1) * MAX_READ_SIZE))
                      (copyChunk readBuffer (i * MAX_READ_SIZE) chunk b))
        with (firstn (Z.to_nat (i * MAX_READ_SIZE)) readBuffer ++ chunk);
        [ rewrite <- app_assoc; reflexivity | ].
      rewrite Hcopy, app_assoc, firstn_app.
      rewrite (@firstn_all2 _ (Z.to_nat ((i + 1) * MAX_READ_SIZE))
                            (firstn (Z.to_nat (i * MAX_READ_SIZE)) readBuffer ++ chunk))
        by (rewrite length_app, length_firstn; unfold size in *; lia).
      rewrite length_app, length_firstn.
      destruct Hb3 as [Hfull | Hend].
      * replace (Z.to_nat ((i + 1) * MAX_READ_SIZE)
                 - (Nat.min (Z.to_nat (i * MAX_READ_SIZE)) (length readBuffer)
                    + length chunk))%nat with 0%nat
          by (unfold size in *; lia).
        cbn [firstn]. rewrite app_nil_r. reflexivity.
      * rewrite skipn_all2 by (unfold size in *; lia).
        rewrite firstn_nil, app_nil_r. reflexivity.
Qed.

Lemma map_constant {A : Type} (f : A -> Z) (c : Z) (l : list A) :
  (forall x, In x l -> f x = c) -> map f l = repeat c (length l).
Proof.
  induction l as [ | x l IH ]; intros Hf; [ reflexivity | ].
  cbn [map length repeat]. rewrite (Hf x) by (left; reflexivity).
  rewrite IH; [ reflexivity | ]. intros y Hy. apply Hf. right. exact Hy.
Qed.

Lemma size_concat (chunks : list (list Z)) :
  size (concat chunks) = fold_right Z.add 0 (map size chunks).
Proof.
  induction chunks as [ | c chunks IH ]; [ reflexivity | ].
  cbn [concat map fold_right]. rewrite <- IH. unfold size.
  rewrite length_app. lia.
Qed.

Lemma sum_repeat_snoc (x y : Z) (n : nat) :
  fold_right Z.add 0 (repeat x n ++ [y]) = Z.of_nat n * x + y.
Proof.
  induction n as [ | n IH ]; [ cbn; lia | ].
  cbn [repeat app fold_right]. rewrite IH. lia.
Qed.

Lemma sum_pieceSizes (len max : Z) :
  0 < max -> 0 < len ->
  fold_right Z.add 0 (pieceSizes len max) = len.
Proof.
  intros Hmax Hlen. unfold pieceSizes. rewrite sum_repeat_snoc.
  pose proof (ceilDiv_bounds len max Hmax Hlen).
  rewrite Z2Nat.id by lia. lia.
Qed.

(** The pieces of [len] bytes cut at [max]: their number is
    [ceil (len / max)], and each has between 1 and [max] bytes. *)
Lemma pieceSizes_pieces (len max : Z) :
  0 < max -> 0 < len ->
  Z.of_nat (length (pieceSizes len max)) = ceilDiv len max /\
  Forall (fun piece => 0 < piece <= max) (pieceSizes len max).
Proof.
  intros Hmax Hlen. unfold pieceSizes.
  pose proof (ceilDiv_bounds len max Hmax Hlen) as Hb.
  split.
  - rewrite length_app, repeat_length. cbn [length]. lia.
  - apply Forall_app. split.
    + apply Forall_forall. intros x Hx. apply repeat_spec in Hx. lia.
    + constructor; [ lia | constructor ].
Qed.

(** Two full pieces and three bytes more, when a piece has room for three
    bytes. *)
Lemma pieceSizes_two_and_three (max : Z) :
  3 <= max -> pieceSizes (2 * max + 3) max = [max; max; 3].
Proof.
  intros Hmax. unfold pieceSizes.
  assert (Hc : ceilDiv (2 * max + 3) max = 3).
  { unfold ceilDiv. symmetry. apply (Z.div_unique _ _ _ 2); lia. }
  rewrite Hc.
  replace (2 * max + 3 - (3 - 1) * max) with 3 by lia.
  reflexivity.
Qed.

(** C8, amended.  For a non-empty image (short enough for every [int] of
    the function: [len + MAX_READ_SIZE < 2^31]), a validation pass none of
    whose transfers fails reads the image's length in
    [ceil (len / MAX_READ_SIZE)] chunks of at most [MAX_READ_SIZE] bytes: all
    of [MAX_READ_SIZE] bytes but the last, which takes the rest.  Each chunk
    is a fresh [Read] frame with the running address, sent with chip select
    held, then the chunk's bytes read with chip select released.  For
    [len = 2 * MAX_READ_SIZE + 3] these are the three chunks of sizes
    [MAX_READ_SIZE], [MAX_READ_SIZE], [3], provided a chunk has room for three
    bytes.  The pass returns [FT4222_OK] when the chunks, put end to end, are
    the image, and [FT4222_CORRUPTED_UPLOAD] when they are not. *)
Theorem ValidateFlash_chunks (fileBuffer : list Z) (h : Handle) :
  0 < MAX_READ_SIZE ->
  0 < size fileBuffer ->
  size fileBuffer + MAX_READ_SIZE < 2 ^ 31 ->
  clean (trace_of (ValidateFlash fileBuffer h)) ->
  exists chunks,
    map size chunks = pieceSizes (size fileBuffer) MAX_READ_SIZE /\
    Z.of_nat (length chunks) = ceilDiv (size fileBuffer) MAX_READ_SIZE /\
    Forall (fun chunk => 0 < size chunk <= MAX_READ_SIZE) chunks /\
    (3 <= MAX_READ_SIZE -> size fileBuffer = 2 * MAX_READ_SIZE + 3 ->
     map size chunks = [MAX_READ_SIZE; MAX_READ_SIZE; 3]) /\
    length (concat chunks) = length fileBuffer /\
    trace_of (ValidateFlash fileBuffer h) = readEvents 0 chunks /\
    (concat chunks = fileBuffer ->
     value_of (ValidateFlash fileBuffer h) = FT4222_OK) /\
    (concat chunks <> fileBuffer ->
     value_of (ValidateFlash fileBuffer h) = FT4222_CORRUPTED_UPLOAD).
Proof.
  intros HM Hlen0 Hint Hclean. unfold ValidateFlash in *.
  assert (Hlen : 0 < size fileBuffer < 2 ^ 31) by lia.
  destruct (chunkCount_bounds fileBuffer HM Hlen) as [Hceil Hn].
  destruct (ValidateFlash_loop_clean
              (Z.to_nat (chunkCount fileBuffer)) fileBuffer 0
              (repeat 0 (length fileBuffer)) h HM Hlen ltac:(lia) ltac:(lia)
              (repeat_length _ _) Hclean)
    as (chunks & Hsizes & Htrace & Hvalue).
  change (0 * MAX_READ_SIZE) with 0 in *.
  cbn [Z.to_nat firstn app] in Hvalue.
  exists chunks.
  assert (Hpieces : map size chunks = pieceSizes (size fileBuffer) MAX_READ_SIZE).
  { rewrite Hsizes. unfold pieceSizes. rewrite <- Hceil.
    replace (Z.to_nat (chunkCount fileBuffer))
      with (S (Z.to_nat (chunkCount fileBuffer - 1))) by lia.
    rewrite seq_S, map_app. cbn [map Nat.add]. f_equal.
    - rewrite (map_constant _ MAX_READ_SIZE), length_seq; [ reflexivity | ].
      intros j Hj. apply in_seq in Hj. unfold bytesToRead.
      destruct (0 + Z.of_nat j =? chunkCount fileBuffer - 1) eqn:Hlast;
        [ apply Z.eqb_eq in Hlast; lia | reflexivity ].
    - unfold bytesToRead. rewrite int32_size by lia.
      rewrite Z2Nat.id by lia. cbn [Z.add].
      rewrite Z.eqb_refl. reflexivity. }
  assert (Hconcat : length (concat chunks) = length fileBuffer).
  { pose proof (size_concat chunks) as Hs.
    rewrite Hpieces, sum_pieceSizes in Hs by assumption. unfold size in Hs. lia. }
  destruct (pieceSizes_pieces (size fileBuffer) MAX_READ_SIZE HM Hlen0)
    as [Hnumber Hbounded].
  rewrite <- Hpieces in Hnumber, Hbounded.
  rewrite length_map in Hnumber. rewrite Forall_map in Hbounded.
  split; [ exact Hpieces | ].
  split; [ exact Hnumber | ].
  split; [ exact Hbounded | ].
  split; [ intros Hroom Hsize; rewrite Hpieces, Hsize;
           apply pieceSizes_two_and_three; exact Hroom | ].
  split; [ exact Hconcat | split; [ exact Htrace | ] ].
  rewrite Hvalue.
  pose proof (differs_false (concat chunks) fileBuffer Hconcat) as Hd.
  destruct (differs (concat chunks) fileBuffer).
  - split; [ | reflexivity ].
    intros Heq. apply Hd in Heq. discriminate.
  - split; [ reflexivity | ].
    intros Hne. exfalso. apply Hne, Hd. reflexivity.
Qed.

End Validator.


(** ** The attempt counter of [ProgramFlash] *)

Section Attempts.

Context {header : IceBoardHeader}.
Context {Handle : Type} {driver : SpiMaster Handle}.

(** A pass of [while (!success)] that starts with
    [attempts = MAX_SECTOR_PROGRAM_ATTEMPTS - 1] never leaves the loop with
    the sector done: whatever the verification finds, the function returns
    from inside the loop. *)
Lemma last_attempt_never_leaves_the_loop
      (fuel : nat) (fileBuffer : list Z) (i bufferPointer attempts : Z)
      (readBuffer : list Z) (h : Handle) :
  attempts + 1 = MAX_SECTOR_PROGRAM_ATTEMPTS ->
  forall status readBuffer',
    value_of (ProgramFlash_while fuel fileBuffer i bufferPointer attempts readBuffer h)
    <> Some (Left status readBuffer').
Proof.
  intros Hlast status readBuffer'.
  destruct fuel as [ | fuel ]; [ discriminate | ].
  cbn [ProgramFlash_while].
  destruct (valid_range _ _ _); cbn [negb]; [ | discriminate ].
  unfold bind, value_of.
  destruct (SectorProgramFlash i (sectorBuffer fileBuffer i bufferPointer) h)
    as [[t1 h1] s1].
  destruct (is_ok s1); cbn [negb ret snd]; [ | discriminate ].
  destruct (ReadSectorFlash i readBuffer h1) as [[t2 h2] [s2 rb2]].
  destruct (is_ok s2); cbn [negb ret snd]; [ | discriminate ].
  destruct ((if 0 <? countErrors (bytesToTransmit fileBuffer i) rb2
                                 (sectorBuffer fileBuffer i bufferPointer)
             then EraseSector i else ret s2) h2) as [[t3 h3] s3].
  destruct (is_ok s3); cbn [negb ret snd]; [ | discriminate ].
  rewrite Hlast, Z.eqb_refl. cbn [ret snd]. discriminate.
Qed.

(** With a positive bound on the attempts, [while (!success)] ends within
    that many passes: enough fuel always yields a result. *)
Lemma ProgramFlash_while_ends (fuel : nat) :
  forall (fileBuffer : list Z) (i bufferPointer attempts : Z) (readBuffer : list Z)
         (h : Handle),
    0 <= attempts < MAX_SECTOR_PROGRAM_ATTEMPTS ->
    (Z.to_nat (MAX_SECTOR_PROGRAM_ATTEMPTS - attempts) <= fuel)%nat ->
    value_of (ProgramFlash_while fuel fileBuffer i bufferPointer attempts readBuffer h)
    <> None.
Proof.
  induction fuel as [ | fuel IH ];
    intros fileBuffer i bufferPointer attempts readBuffer h Hattempts Hfuel;
    [ lia | ].
  cbn [ProgramFlash_while].
  destruct (valid_range _ _ _); cbn [negb]; [ | discriminate ].
  unfold bind, value_of.
  destruct (SectorProgramFlash i (sectorBuffer fileBuffer i bufferPointer) h)
    as [[t1 h1] s1].
  destruct (is_ok s1); cbn [negb ret snd]; [ | discriminate ].
  destruct (ReadSectorFlash i readBuffer h1) as [[t2 h2] [s2 rb2]].
  destruct (is_ok s2); cbn [negb ret snd]; [ | discriminate ].
  destruct ((if 0 <? countErrors (bytesToTransmit fileBuffer i) rb2
                                 (sectorBuffer fileBuffer i bufferPointer)
             then EraseSector i else ret s2) h2) as [[t3 h3] s3].
  destruct (is_ok s3); cbn [negb ret snd]; [ | discriminate ].
  destruct (Z.eqb_spec (attempts + 1) MAX_SECTOR_PROGRAM_ATTEMPTS) as [ | Hmore ];
    cbn [ret snd]; [ discriminate | ].
  destruct (countErrors _ _ _ =? 0); cbn [ret snd]; [ discriminate | ].
  specialize (IH fileBuffer i bufferPointer (attempts + 1) rb2 h3
                 ltac:(lia) ltac:(lia)).
  unfold value_of in IH.
  destruct (ProgramFlash_while fuel fileBuffer i bufferPointer (attempts + 1) rb2 h3)
    as [[t4 h4] v4].
  exact IH.
Qed.

End Attempts.

(** ** Sector windows of [ProgramFlash] *)

Section Partition.

Context {header : IceBoardHeader}.

Lemma sectorCount_ceil (fileBuffer : list Z) :
  0 < FLASH_SECTOR_SIZE < 2 ^ 64 -> 0 < size fileBuffer < 2 ^ 64 ->
  sectorCount fileBuffer = ceilDiv (size fileBuffer) FLASH_SECTOR_SIZE.
Proof.
  intros HS Hlen.
  unfold sectorCount, size_t, ceilDiv.
  rewrite (Z.mod_small (size fileBuffer - 1)) by lia.
  rewrite (Z.mod_small FLASH_SECTOR_SIZE) by lia.
  replace (size fileBuffer + FLASH_SECTOR_SIZE - 1)
    with (size fileBuffer - 1 + 1 * FLASH_SECTOR_SIZE) by lia.
  rewrite Z.div_add by lia.
  assert (0 <= (size fileBuffer - 1) / FLASH_SECTOR_SIZE <= size fileBuffer - 1).
  { split; [ apply Z.div_pos; lia | ].
    apply Z.div_le_upper_bound; [ lia | nia ]. }
  rewrite Z.mod_small by lia. lia.
Qed.

Lemma sectorCount_bounds (fileBuffer : list Z) :
  0 < FLASH_SECTOR_SIZE < 2 ^ 64 -> 0 < size fileBuffer < 2 ^ 64 ->
  0 < sectorCount fileBuffer < 2 ^ 64 /\
  (sectorCount fileBuffer - 1) * FLASH_SECTOR_SIZE < size fileBuffer
  <= sectorCount fileBuffer * FLASH_SECTOR_SIZE.
Proof.
  intros HS Hlen. rewrite sectorCount_ceil by assumption.
  destruct HS as [HS0 HS]. destruct Hlen as [Hlen0 Hlen].
  pose proof (ceilDiv_bounds (size fileBuffer) FLASH_SECTOR_SIZE HS0 Hlen0).
  nia.
Qed.

Lemma isLastSector_spec (fileBuffer : list Z) (i : Z) :
  0 < FLASH_SECTOR_SIZE < 2 ^ 64 -> 0 < size fileBuffer < 2 ^ 64 ->
  0 <= i < sectorCount fileBuffer ->
  isLastSector fileBuffer i = (i =? sectorCount fileBuffer - 1).
Proof.
  intros HS Hlen Hi. pose proof (sectorCount_bounds fileBuffer HS Hlen) as Hb.
  unfold isLastSector, size_t. rewrite !Z.mod_small by lia. reflexivity.
Qed.

(** The code's sector buffers are the consecutive sector-sized pieces. *)
Lemma sectorBuffer_window (fileBuffer : list Z) (i : Z) :
  0 < FLASH_SECTOR_SIZE < 2 ^ 64 -> 0 < size fileBuffer < 2 ^ 64 ->
  0 <= i < sectorCount fileBuffer ->
  sectorBuffer fileBuffer i (i * FLASH_SECTOR_SIZE) = sectorWindow fileBuffer i.
Proof.
  intros HS Hlen Hi. pose proof (sectorCount_bounds fileBuffer HS Hlen) as Hb.
  unfold sectorBuffer, sectorLast, sectorWindow, vec_range.
  rewrite isLastSector_spec by assumption.
  destruct (i =? sectorCount fileBuffer - 1) eqn:Hlast.
  - apply Z.eqb_eq in Hlast.
    rewrite !firstn_all2; [ reflexivity | | ];
      rewrite length_skipn; unfold size in *; nia.
  - f_equal. lia.
Qed.

(** For a non-empty image the iterators of every sector delimit a range of
    [fileBuffer]. *)
Lemma sectorLast_valid_range (fileBuffer : list Z) (i : Z) :
  0 < FLASH_SECTOR_SIZE < 2 ^ 64 -> 0 < size fileBuffer < 2 ^ 64 ->
  0 <= i < sectorCount fileBuffer ->
  valid_range fileBuffer (i * FLASH_SECTOR_SIZE)
              (sectorLast fileBuffer i (i * FLASH_SECTOR_SIZE)) = true.
Proof.
  intros HS Hlen Hi. pose proof (sectorCount_bounds fileBuffer HS Hlen) as Hb.
  unfold valid_range, sectorLast.
  rewrite isLastSector_spec by assumption.
  destruct (i =? sectorCount fileBuffer - 1) eqn:Hlast.
  - apply Z.eqb_eq in Hlast.
    rewrite !andb_true_iff, !Z.leb_le. nia.
  - apply Z.eqb_neq in Hlast.
    rewrite !andb_true_iff, !Z.leb_le. nia.
Qed.

Lemma size_sectorWindow (fileBuffer : list Z) (k : Z) :
  0 < FLASH_SECTOR_SIZE -> 0 <= k ->
  size (sectorWindow fileBuffer k)
  = Z.min FLASH_SECTOR_SIZE (Z.max 0 (size fileBuffer - k * FLASH_SECTOR_SIZE)).
Proof.
  intros HS Hk. unfold size, sectorWindow.
  rewrite length_firstn, length_skipn. nia.
Qed.

Lemma bytesToTransmit_window (fileBuffer : list Z) (i : Z) :
  0 < FLASH_SECTOR_SIZE < 2 ^ 64 -> 0 < size fileBuffer < 2 ^ 64 ->
  0 <= i < sectorCount fileBuffer ->
  size fileBuffer < 2 ^ 31 ->
  bytesToTransmit fileBuffer i = size (sectorWindow fileBuffer i).
Proof.
  intros HS Hlen Hi Hint. pose proof (sectorCount_bounds fileBuffer HS Hlen) as Hb.
  unfold bytesToTransmit. rewrite int32_size by exact Hint.
  rewrite isLastSector_spec by assumption.
  rewrite size_sectorWindow by lia.
  destruct (i =? sectorCount fileBuffer - 1) eqn:Hlast.
  - apply Z.eqb_eq in Hlast. nia.
  - apply Z.eqb_neq in Hlast. nia.
Qed.

Lemma at_index_sectorWindow (fileBuffer : list Z) (k j : Z) :
  0 <= k -> 0 <= j < FLASH_SECTOR_SIZE ->
  at_index (sectorWindow fileBuffer k) j
  = at_index fileBuffer (k * FLASH_SECTOR_SIZE + j).
Proof.
  intros Hk Hj. unfold at_index, sectorWindow.
  rewrite nth_firstn, nth_skipn.
  replace (Z.to_nat j <? Z.to_nat FLASH_SECTOR_SIZE)%nat with true
    by (symmetry; apply Nat.ltb_lt; lia).
  f_equal. nia.
Qed.




End Partition.

(** The comparison loop. *)
Lemma countErrors_accumulates (readBuffer window : list Z) (l : list nat) :
  forall acc,
    acc <= fold_left
             (fun errorCount j =>
                if negb (at_index readBuffer (Z.of_nat j) =? at_index window (Z.of_nat j))
                then errorCount + 1 else errorCount) l acc
    /\ (fold_left
          (fun errorCount j =>
             if negb (at_index readBuffer (Z.of_nat j) =? at_index window (Z.of_nat j))
             then errorCount + 1 else errorCount) l acc = acc
        <-> forall j, In j l ->
                      at_index readBuffer (Z.of_nat j) = at_index window (Z.of_nat j)).
Proof.
  induction l as [ | j l IH ]; intros acc; cbn [fold_left].
  - split; [ lia | ]. split; [ intros _ j [] | reflexivity ].
  - destruct (Z.eqb_spec (at_index readBuffer (Z.of_nat j)) (at_index window (Z.of_nat j)))
      as [Heq | Hne]; cbn [negb].
    + destruct (IH acc) as [Hle Hiff]. split; [ exact Hle | ].
      rewrite Hiff. split.
      * intros H j' [<- | Hin]; auto.
      * intros H j' Hin. apply H. right. exact Hin.
    + destruct (IH (acc + 1)) as [Hle _]. split; [ lia | ].
      split; [ lia | ]. intros H. exfalso. apply Hne, H. left. reflexivity.
Qed.

(** The verification finds no error exactly when the first [n] bytes read
    back are the window's. *)
Lemma countErrors_zero (n : Z) (readBuffer window : list Z) :
  countErrors n readBuffer window = 0 <->
  forall j, 0 <= j < n -> at_index readBuffer j = at_index window j.
Proof.
  unfold countErrors.
  destruct (countErrors_accumulates readBuffer window (seq 0 (Z.to_nat n)) 0)
    as [_ Hiff].
  rewrite Hiff. split.
  - intros H j Hj. specialize (H (Z.to_nat j)).
    rewrite Z2Nat.id in H by lia. apply H. apply in_seq. lia.
  - intros H j Hj. apply in_seq in Hj. apply H. lia.
Qed.

Lemma countErrors_nonneg (n : Z) (readBuffer window : list Z) :
  0 <= countErrors n readBuffer window.
Proof.
  unfold countErrors.
  apply (countErrors_accumulates readBuffer window (seq 0 (Z.to_nat n)) 0).
Qed.

(** ** Runs none of whose transfers fails *)

Section Outcomes.

Context {header : IceBoardHeader}.
Context {Handle : Type} {driver : SpiMaster Handle}.

Lemma value_bind {A B : Type} (m : Op A) (k : A -> Op B) (h : Handle) :
  value_of (bind m k h) = value_of (k (value_of (m h)) (handle_of (m h))).
Proof.
  unfold bind, value_of, handle_of.
  destruct (m h) as [[t1 h1] a]. cbn [fst snd].
  destruct (k a h1) as [[t2 h2] b]. reflexivity.
Qed.

Lemma handle_bind {A B : Type} (m : Op A) (k : A -> Op B) (h : Handle) :
  handle_of (bind m k h) = handle_of (k (value_of (m h)) (handle_of (m h))).
Proof.
  unfold bind, value_of, handle_of.
  destruct (m h) as [[t1 h1] a]. cbn [fst snd].
  destruct (k a h1) as [[t2 h2] b]. reflexivity.
Qed.

Lemma clean_bind {A B : Type} (m : Op A) (k : A -> Op B) (h : Handle) :
  clean (trace_of (bind m k h)) ->
  clean (trace_of (m h)) /\ clean (trace_of (k (value_of (m h)) (handle_of (m h)))).
Proof. rewrite trace_bind. unfold clean. apply Forall_app. Qed.

(** A fail-fast run that returns [FT4222_OK] saw no failure. *)
Lemma failFast_ok (t : list Event) (status : FT4222_STATUS) :
  failFast t (Some status) -> status = FT4222_OK -> clean t.
Proof.
  intros [Hclean | (pre & e & st & _ & _ & He & Hst)] Hok; [ exact Hclean | ].
  apply failure_is_not_ok in He. injection Hst as <-. subst status. discriminate.
Qed.

Lemma clean_orReturn (m : Op FT4222_STATUS) (k : FT4222_STATUS -> Op FT4222_STATUS)
      (h : Handle) :
  (clean (trace_of (m h)) -> value_of (m h) = FT4222_OK) ->
  (forall h', clean (trace_of (k FT4222_OK h')) -> value_of (k FT4222_OK h') = FT4222_OK) ->
  clean (trace_of (orReturn m k h)) -> value_of (orReturn m k h) = FT4222_OK.
Proof.
  intros Hm Hk Hclean. unfold orReturn in *.
  apply clean_bind in Hclean. destruct Hclean as [H1 H2].
  rewrite value_bind. specialize (Hm H1). rewrite Hm in *. cbn [is_ok] in *.
  apply Hk. exact H2.
Qed.

Lemma clean_WriteSPI (buffer : list Z) (count : Z) (isEnd : bool) (h : Handle) :
  clean (trace_of (WriteSPI buffer count isEnd h)) ->
  value_of (WriteSPI buffer count isEnd h) = FT4222_OK.
Proof.
  destruct (WriteSPI_run buffer count isEnd h) as (h' & status & -> & _).
  unfold trace_of, value_of. cbn [fst snd]. intros Hclean.
  apply clean_cons in Hclean. destruct Hclean as [Hs _].
  apply clean_write_ok in Hs. exact Hs.
Qed.

Lemma clean_ReadSPI (buffer : list Z) (count : Z) (isEnd : bool) (h : Handle) :
  clean (trace_of (ReadSPI buffer count isEnd h)) ->
  fst (value_of (ReadSPI buffer count isEnd h)) = FT4222_OK.
Proof.
  destruct (ReadSPI_run buffer count isEnd h) as (h' & status & buffer' & _ & -> & _).
  unfold trace_of, value_of. cbn [fst snd]. intros Hclean.
  apply clean_cons in Hclean. destruct Hclean as [Hs _].
  apply clean_read_ok in Hs. exact Hs.
Qed.

Lemma clean_ret (status : FT4222_STATUS) (h : Handle) :
  status = FT4222_OK ->
  clean (trace_of (ret status h)) -> value_of (ret status h) = FT4222_OK.
Proof. intros -> _. reflexivity. Qed.

Lemma clean_WaitForFlashReady_loop (n : nat) :
  forall (buffer : list Z) (h : Handle),
    clean (trace_of (WaitForFlashReady_loop n buffer h)) ->
    value_of (WaitForFlashReady_loop n buffer h) = FT4222_OK.
Proof.
  induction n as [ | n IH ]; intros buffer h.
  - cbn. intros Hclean. apply clean_cons in Hclean.
    destruct Hclean as [Hs _]. discriminate Hs.
  - cbn [WaitForFlashReady_loop].
    apply clean_orReturn; [ apply clean_WriteSPI | ].
    intros h1 Hclean.
    apply clean_bind in Hclean. destruct Hclean as [H1 H2].
    rewrite value_bind.
    apply clean_ReadSPI in H1.
    destruct (value_of (ReadSPI buffer (size buffer) true h1)) as [s b].
    cbn [fst] in H1. subst s. cbn [is_ok negb] in *.
    destruct (Z.land (at_index b 0) 1 =? 0); [ reflexivity | ].
    apply clean_bind in H2. destruct H2 as [_ H2].
    rewrite value_bind. apply IH. exact H2.
Qed.

Lemma clean_WriteEnableFlash (h : Handle) :
  clean (trace_of (WriteEnableFlash h)) -> value_of (WriteEnableFlash h) = FT4222_OK.
Proof.
  apply clean_orReturn; [ apply clean_WriteSPI | ].
  intros h'. apply clean_ret. reflexivity.
Qed.

Lemma clean_WakeUpFlash (h : Handle) :
  clean (trace_of (WakeUpFlash h)) -> value_of (WakeUpFlash h) = FT4222_OK.
Proof.
  apply clean_orReturn; [ apply clean_WriteSPI | ].
  intros h'. apply clean_ret. reflexivity.
Qed.

Lemma clean_EraseFlash (h : Handle) :
  clean (trace_of (EraseFlash h)) -> value_of (EraseFlash h) = FT4222_OK.
Proof.
  unfold EraseFlash.
  apply clean_orReturn; [ apply clean_WriteEnableFlash | intros h1 ].
  apply clean_orReturn; [ apply clean_WriteSPI | intros h2 ].
  apply clean_orReturn; [ apply clean_WaitForFlashReady_loop | intros h3 ].
  apply clean_ret. reflexivity.
Qed.

Lemma clean_EraseSector (sectorIndex : Z) (h : Handle) :
  clean (trace_of (EraseSector sectorIndex h)) ->
  value_of (EraseSector sectorIndex h) = FT4222_OK.
Proof.
  unfold EraseSector.
  apply clean_orReturn; [ apply clean_WriteEnableFlash | intros h1 ].
  apply clean_orReturn; [ apply clean_WriteSPI | intros h2 ].
  apply clean_orReturn; [ apply clean_WaitForFlashReady_loop | intros h3 ].
  apply clean_ret. reflexivity.
Qed.

Lemma clean_PageProgramFlash (pageIndex : Z) (buffer : list Z) (h : Handle) :
  clean (trace_of (PageProgramFlash pageIndex buffer h)) ->
  value_of (PageProgramFlash pageIndex buffer h) = FT4222_OK.
Proof.
  unfold PageProgramFlash.
  apply clean_orReturn; [ apply clean_WriteEnableFlash | intros h1 ].
  apply clean_orReturn; [ apply clean_WriteSPI | intros h2 ].
  apply clean_orReturn; [ apply clean_WriteSPI | intros h3 ].
  apply clean_orReturn; [ apply clean_WaitForFlashReady_loop | intros h4 ].
  apply clean_ret. reflexivity.
Qed.

Lemma clean_SectorProgramFlash_loop (n : nat) :
  forall (start : Z) (buffer : list Z) (i : Z) (h : Handle),
    clean (trace_of (SectorProgramFlash_loop n start buffer i FT4222_OK h)) ->
    value_of (SectorProgramFlash_loop n start buffer i FT4222_OK h) = FT4222_OK.
Proof.
  induction n as [ | n IH ]; intros start buffer i h.
  - reflexivity.
  - cbn [SectorProgramFlash_loop].
    apply clean_orReturn; [ apply clean_PageProgramFlash | ].
    intros h'. apply IH.
Qed.

Lemma clean_ReadSectorFlash (sectorIndex : Z) (buffer : list Z) (h : Handle) :
  clean (trace_of (ReadSectorFlash sectorIndex buffer h)) ->
  fst (value_of (ReadSectorFlash sectorIndex buffer h)) = FT4222_OK.
Proof.
  unfold ReadSectorFlash. intros Hclean.
  apply clean_bind in Hclean. destruct Hclean as [H1 H2].
  rewrite value_bind. apply clean_WriteSPI in H1. rewrite H1 in *.
  cbn [is_ok negb] in *. apply clean_ReadSPI. exact H2.
Qed.

Lemma failFast_WakeUpFlash (h : Handle) :
  failFast (trace_of (WakeUpFlash h)) (Some (value_of (WakeUpFlash h))).
Proof.
  apply failFast_orReturn; [ apply failFast_WriteSPI | intros; apply failFast_ret ].
Qed.

Lemma failFast_EraseFlash (h : Handle) :
  failFast (trace_of (EraseFlash h)) (Some (value_of (EraseFlash h))).
Proof.
  unfold EraseFlash.
  apply failFast_orReturn; [ apply failFast_WriteEnableFlash | intros _ h1 ].
  apply failFast_orReturn; [ apply failFast_WriteSPI | intros _ h2 ].
  apply failFast_orReturn; [ apply failFast_WaitForFlashReady | ].
  intros; apply failFast_ret.
Qed.

(** With every transfer gone through, the read loop of [ValidateFlash] leaves
    the verdict to the comparison. *)
Lemma clean_ValidateFlash_loop (k : nat) :
  forall (fileBuffer : list Z) (i pointer : Z) (readBuffer : list Z) (h : Handle),
    clean (trace_of (ValidateFlash_loop k fileBuffer i pointer readBuffer FT4222_OK h)) ->
    value_of (ValidateFlash_loop k fileBuffer i pointer readBuffer FT4222_OK h)
    = FT4222_OK
    \/ value_of (ValidateFlash_loop k fileBuffer i pointer readBuffer FT4222_OK h)
       = FT4222_CORRUPTED_UPLOAD.
Proof.
  induction k as [ | k IH ]; intros fileBuffer i pointer readBuffer h Hclean.
  - cbn [ValidateFlash_loop]. destruct (differs _ _); [ right | left ]; reflexivity.
  - cbn [ValidateFlash_loop] in *. unfold orReturn in *.
    apply clean_bind in Hclean. destruct Hclean as [H1 H2].
    rewrite value_bind. apply clean_WriteSPI in H1. rewrite H1 in *.
    cbn [is_ok] in *.
    apply clean_bind in H2. destruct H2 as [H2 H3].
    rewrite value_bind. apply clean_ReadSPI in H2.
    destruct (value_of (ReadSPI _ _ true _)) as [s b].
    cbn [fst] in H2. subst s. cbn [is_ok negb] in *.
    apply IH. exact H3.
Qed.

Lemma clean_ProgramFlash_while (fuel : nat) :
  forall (fileBuffer : list Z) (i bufferPointer attempts : Z) (readBuffer : list Z)
         (h : Handle),
    clean (trace_of (ProgramFlash_while fuel fileBuffer i bufferPointer attempts
                                        readBuffer h)) ->
    match value_of (ProgramFlash_while fuel fileBuffer i bufferPointer attempts
                                       readBuffer h) with
    | Some (Returned status) => status = FT4222_CORRUPTED_UPLOAD
    | Some (Left status _) => status = FT4222_OK
    | Some Undefined | None => True
    end.
Proof.
  induction fuel as [ | fuel IH ];
    intros fileBuffer i bufferPointer attempts readBuffer h Hclean.
  - exact I.
  - cbn [ProgramFlash_while] in *.
    destruct (valid_range _ _ _); cbn [negb] in *; [ | exact I ].
    apply clean_bind in Hclean. destruct Hclean as [H1 H2].
    rewrite value_bind.
    apply clean_SectorProgramFlash_loop in H1.
    unfold SectorProgramFlash in *. rewrite H1 in *. cbn [is_ok negb] in *.
    apply clean_bind in H2. destruct H2 as [H2 H3].
    rewrite value_bind.
    apply clean_ReadSectorFlash in H2.
    destruct (value_of (ReadSectorFlash i readBuffer _)) as [s2 rb2].
    cbn [fst] in H2. subst s2. cbn [is_ok negb] in *.
    apply clean_bind in H3. destruct H3 as [H3 H4].
    rewrite value_bind.
    remember (0 <? countErrors (bytesToTransmit fileBuffer i) rb2
                               (sectorBuffer fileBuffer i bufferPointer))
      as erase eqn:Herase.
    destruct erase.
    + apply clean_EraseSector in H3. rewrite H3 in *. cbn [is_ok negb] in *.
      destruct (attempts + 1 =? MAX_SECTOR_PROGRAM_ATTEMPTS); [ reflexivity | ].
      destruct (_ =? 0); [ reflexivity | ].
      apply IH. exact H4.
    + clear H3. unfold ret at 1 2 in H4. unfold ret at 1 2.
      unfold value_of at 1 in H4. unfold value_of at 2. cbn [snd is_ok negb] in *.
      destruct (attempts + 1 =? MAX_SECTOR_PROGRAM_ATTEMPTS); [ reflexivity | ].
      destruct (_ =? 0); [ reflexivity | ].
      apply IH. exact H4.
Qed.

Lemma clean_ProgramFlash_for (n : nat) :
  forall (fuel : nat) (fileBuffer : list Z) (i bufferPointer : Z)
         (readBuffer : list Z) (h : Handle),
    clean (trace_of (ProgramFlash_for n fuel fileBuffer i bufferPointer FT4222_OK
                                      readBuffer h)) ->
    match value_of (ProgramFlash_for n fuel fileBuffer i bufferPointer FT4222_OK
                                     readBuffer h) with
    | Some status => status = FT4222_OK \/ status = FT4222_CORRUPTED_UPLOAD
    | None => True
    end.
Proof.
  induction n as [ | n IH ]; intros fuel fileBuffer i bufferPointer readBuffer h Hclean.
  - left. reflexivity.
  - cbn [ProgramFlash_for] in *.
    apply clean_bind in Hclean. destruct Hclean as [H1 H2].
    rewrite value_bind.
    apply clean_ProgramFlash_while in H1.
    destruct (value_of (ProgramFlash_while _ _ _ _ _ _ h)) as [ [ s | s rb | ] | ].
    + right. exact H1.
    + subst s. apply IH. exact H2.
    + exact I.
    + exact I.
Qed.

(** X4.  No failure goes unreported, and none is made up.
    [WaitForFlashReady], [WakeUpFlash], [WriteEnableFlash], [EraseFlash],
    [EraseSector], [PageProgramFlash], [SectorProgramFlash] and
    [ReadSectorFlash] return [FT4222_OK] exactly when every transfer of the
    run went through and the ready poll never gave up.  [ValidateFlash] and
    [ProgramFlash] return [FT4222_OK] only in such runs; in such a run the
    only other status they can return is [FT4222_CORRUPTED_UPLOAD]. *)
Theorem ok_exactly_when_no_transfer_failed (h : Handle) :
  (value_of (WaitForFlashReady h) = FT4222_OK <-> clean (trace_of (WaitForFlashReady h)))
  /\ (value_of (WakeUpFlash h) = FT4222_OK <-> clean (trace_of (WakeUpFlash h)))
  /\ (value_of (WriteEnableFlash h) = FT4222_OK
      <-> clean (trace_of (WriteEnableFlash h)))
  /\ (value_of (EraseFlash h) = FT4222_OK <-> clean (trace_of (EraseFlash h)))
  /\ (forall sectorIndex,
        value_of (EraseSector sectorIndex h) = FT4222_OK
        <-> clean (trace_of (EraseSector sectorIndex h)))
  /\ (forall pageIndex writeBuffer,
        value_of (PageProgramFlash pageIndex writeBuffer h) = FT4222_OK
        <-> clean (trace_of (PageProgramFlash pageIndex writeBuffer h)))
  /\ (forall sectorIndex sectorBuffer,
        value_of (SectorProgramFlash sectorIndex sectorBuffer h) = FT4222_OK
        <-> clean (trace_of (SectorProgramFlash sectorIndex sectorBuffer h)))
  /\ (forall sectorIndex readBuffer,
        fst (value_of (ReadSectorFlash sectorIndex readBuffer h)) = FT4222_OK
        <-> clean (trace_of (ReadSectorFlash sectorIndex readBuffer h)))
  /\ (forall fileBuffer,
        (value_of (ValidateFlash fileBuffer h) = FT4222_OK ->
         clean (trace_of (ValidateFlash fileBuffer h)))
        /\ (clean (trace_of (ValidateFlash fileBuffer h)) ->
            value_of (ValidateFlash fileBuffer h) = FT4222_OK
            \/ value_of (ValidateFlash fileBuffer h) = FT4222_CORRUPTED_UPLOAD))
  /\ (forall fuel fileBuffer,
        (value_of (ProgramFlash fuel fileBuffer h) = Some FT4222_OK ->
         clean (trace_of (ProgramFlash fuel fileBuffer h)))
        /\ (clean (trace_of (ProgramFlash fuel fileBuffer h)) ->
            forall status,
              value_of (ProgramFlash fuel fileBuffer h) = Some status ->
              status = FT4222_OK \/ status = FT4222_CORRUPTED_UPLOAD)).
Proof.
  repeat match goal with |- _ /\ _ => split end; intros.
  - split; [ apply failFast_ok, failFast_WaitForFlashReady
           | apply clean_WaitForFlashReady_loop ].
  - split; [ apply failFast_ok, failFast_WakeUpFlash | apply clean_WakeUpFlash ].
  - split; [ apply failFast_ok, failFast_WriteEnableFlash
           | apply clean_WriteEnableFlash ].
  - split; [ apply failFast_ok, failFast_EraseFlash | apply clean_EraseFlash ].
  - split; [ apply failFast_ok, failFast_EraseSector | apply clean_EraseSector ].
  - split; [ apply failFast_ok, failFast_PageProgramFlash
           | apply clean_PageProgramFlash ].
  - split; [ apply failFast_ok, failFast_SectorProgramFlash
           | apply clean_SectorProgramFlash_loop ].
  - split; [ apply failFast_ok, failFast_ReadSectorFlash
           | apply clean_ReadSectorFlash ].
  - split; [ apply failFast_ok, failFast_ValidateFlash_loop
           | apply clean_ValidateFlash_loop ].
  - split.
    + intros Hok. apply (failFast_ok _ FT4222_OK); [ | reflexivity ].
      rewrite <- Hok. apply failFast_ProgramFlash_for.
    + intros Hclean status Hstatus. unfold ProgramFlash in *.
      apply clean_ProgramFlash_for in Hclean. rewrite Hstatus in Hclean.
      exact Hclean.
Qed.

End Outcomes.

(** ** Erasing, reading back, and what success means *)

Section Sectors.

Context {header : IceBoardHeader}.
Context {Handle : Type} {driver : SpiMaster Handle}.

(** X5.  An erase that returns [FT4222_OK] is three steps and nothing else:
    the write-enable byte, the erase command sent as one transaction (for
    [EraseSector] the [SectorErase] opcode followed by the three address bytes
    of [sectorIndex * FLASH_SECTOR_SIZE]; for [EraseFlash] the [ChipErase]
    opcode alone), and a wait that ends with a "ready" poll. *)
Theorem erase_runs (h : Handle) :
  (forall sectorIndex,
      value_of (EraseSector sectorIndex h) = FT4222_OK ->
      exists wait,
        readyWait wait /\
        trace_of (EraseSector sectorIndex h)
        = [ EvWrite [WriteEnableCmd] 1 true FT4222_OK;
            EvWrite (SectorEraseCmd :: IntToByteVec (sectorIndex * FLASH_SECTOR_SIZE))
                    4 true FT4222_OK ] ++ wait)
  /\ (value_of (EraseFlash h) = FT4222_OK ->
      exists wait,
        readyWait wait /\
        trace_of (EraseFlash h)
        = [ EvWrite [WriteEnableCmd] 1 true FT4222_OK;
            EvWrite [ChipEraseCmd] 1 true FT4222_OK ] ++ wait).
Proof.
  split; [ intros sectorIndex | ];
    unfold EraseSector, EraseFlash, WriteEnableFlash, orReturn, bind.
  - destruct (WriteSPI_run [WriteEnableCmd] 1 true h) as (h1 & s1 & -> & _).
    destruct (is_ok s1) eqn:E1; cbn [ret]; rewrite E1;
      [ apply is_ok_true in E1; subst s1 | cbn; intros ->; discriminate ].
    destruct (WriteSPI_run
                (SectorEraseCmd :: IntToByteVec (sectorIndex * FLASH_SECTOR_SIZE))
                (size (SectorEraseCmd :: IntToByteVec (sectorIndex * FLASH_SECTOR_SIZE)))
                true h1) as (h2 & s2 & -> & _).
    destruct (is_ok s2) eqn:E2;
      [ apply is_ok_true in E2; subst s2 | cbn; intros ->; discriminate ].
    pose proof (WaitForFlashReady_ok h2) as Hwait.
    destruct (WaitForFlashReady h2) as [[t3 h3] s3].
    unfold value_of, trace_of in *. cbn [fst snd] in *.
    destruct (is_ok s3) eqn:E3; cbn [ret fst snd]; intros Hv; subst s3;
      [ | discriminate ].
    exists t3. split; [ auto | ]. rewrite !app_nil_r. reflexivity.
  - destruct (WriteSPI_run [WriteEnableCmd] 1 true h) as (h1 & s1 & -> & _).
    destruct (is_ok s1) eqn:E1; cbn [ret]; rewrite E1;
      [ apply is_ok_true in E1; subst s1 | cbn; intros ->; discriminate ].
    destruct (WriteSPI_run [ChipEraseCmd] 1 true h1) as (h2 & s2 & -> & _).
    destruct (is_ok s2) eqn:E2;
      [ apply is_ok_true in E2; subst s2 | cbn; intros ->; discriminate ].
    pose proof (WaitForFlashReady_ok h2) as Hwait.
    destruct (WaitForFlashReady h2) as [[t3 h3] s3].
    unfold value_of, trace_of in *. cbn [fst snd] in *.
    destruct (is_ok s3) eqn:E3; cbn [ret fst snd]; intros Hv; subst s3;
      [ | discriminate ].
    exists t3. split; [ auto | ]. rewrite !app_nil_r. reflexivity.
Qed.

(** ** Reading a sector back *)

(** A sector read that returns [FT4222_OK]: the [Read] frame, then one read of
    a whole sector into the buffer it returns. *)
Lemma ReadSectorFlash_ok (sectorIndex : Z) (readBuffer : list Z) (h : Handle) :
  fst (value_of (ReadSectorFlash sectorIndex readBuffer h)) = FT4222_OK ->
  trace_of (ReadSectorFlash sectorIndex readBuffer h)
  = [ EvWrite (ReadCmd :: IntToByteVec (sectorIndex * FLASH_SECTOR_SIZE)) 4 false
              FT4222_OK;
      EvRead FLASH_SECTOR_SIZE true
             (snd (value_of (ReadSectorFlash sectorIndex readBuffer h))) FT4222_OK ]
  /\ length (snd (value_of (ReadSectorFlash sectorIndex readBuffer h)))
     = Z.to_nat FLASH_SECTOR_SIZE.
Proof.
  unfold ReadSectorFlash, bind.
  destruct (WriteSPI_run (ReadCmd :: IntToByteVec (sectorIndex * FLASH_SECTOR_SIZE))
              (size (ReadCmd :: IntToByteVec (sectorIndex * FLASH_SECTOR_SIZE)))
              false h) as (h1 & s1 & -> & _).
  destruct (is_ok s1) eqn:E1; cbn [negb];
    [ apply is_ok_true in E1; subst s1 | cbn; intros ->; discriminate ].
  destruct (ReadSPI_run (resize FLASH_SECTOR_SIZE readBuffer) FLASH_SECTOR_SIZE true h1)
    as (h2 & s2 & buffer & Hlen & -> & Hsize).
  unfold value_of, trace_of. cbn [fst snd app]. intros ->.
  rewrite (Hsize eq_refl). split; [ reflexivity | ].
  rewrite Hlen. unfold resize.
  rewrite length_app, length_firstn, repeat_length. lia.
Qed.

(** X6.  [ReadSectorFlash] first sends the [Read] frame for address
    [sectorIndex * FLASH_SECTOR_SIZE] with chip select held.  If that transfer
    fails it returns its status without reading, and the caller's buffer is
    untouched.  Otherwise the buffer is resized to exactly
    [FLASH_SECTOR_SIZE] bytes, whatever its size was, and one read of
    [FLASH_SECTOR_SIZE] bytes (the count cut to 16 bits) with chip select
    released fills it; that read can only succeed when [FLASH_SECTOR_SIZE]
    fits 16 bits. *)
Theorem ReadSectorFlash_returns_a_sector
        (sectorIndex : Z) (readBuffer : list Z) (h : Handle) :
  let frame := ReadCmd :: IntToByteVec (sectorIndex * FLASH_SECTOR_SIZE) in
  let r := ReadSectorFlash sectorIndex readBuffer h in
  (exists status,
      status <> FT4222_OK /\
      trace_of r = [EvWrite frame 4 false status] /\
      value_of r = (status, readBuffer))
  \/
  (exists status readBack,
      trace_of r = [ EvWrite frame 4 false FT4222_OK;
                     EvRead (FLASH_SECTOR_SIZE mod 65536) true readBack status ] /\
      value_of r = (status, readBack) /\
      length readBack = Z.to_nat FLASH_SECTOR_SIZE /\
      (status = FT4222_OK -> 0 <= FLASH_SECTOR_SIZE < 65536)).
Proof.
  intros frame r. subst frame r. unfold ReadSectorFlash, bind.
  destruct (WriteSPI_run (ReadCmd :: IntToByteVec (sectorIndex * FLASH_SECTOR_SIZE))
              (size (ReadCmd :: IntToByteVec (sectorIndex * FLASH_SECTOR_SIZE)))
              false h) as (h1 & s1 & -> & _).
  destruct (is_ok s1) eqn:E1; cbn [negb].
  - apply is_ok_true in E1. subst s1. right.
    destruct (ReadSPI_run (resize FLASH_SECTOR_SIZE readBuffer) FLASH_SECTOR_SIZE true h1)
      as (h2 & s2 & buffer & Hlen & -> & Hsize).
    exists s2, buffer. unfold value_of, trace_of. cbn [fst snd app].
    split; [ reflexivity | split; [ reflexivity | split ] ].
    + rewrite Hlen. unfold resize.
      rewrite length_app, length_firstn, repeat_length. lia.
    + intros Hok. rewrite <- (Hsize Hok). apply uint16_range.
  - apply is_ok_false in E1. left. exists s1.
    split; [ exact E1 | ]. split; reflexivity.
Qed.

(** ** Success of [ProgramFlash] *)

(** A sector program that returns [FT4222_OK] is the page programs of its
    buffer, each followed by a wait that ended with "ready". *)
Lemma SectorProgramFlash_ok (sectorIndex : Z) (sectorBuffer : list Z) (h : Handle) :
  value_of (SectorProgramFlash sectorIndex sectorBuffer h) = FT4222_OK ->
  exists waits,
    pagesWaited sectorBuffer waits /\
    trace_of (SectorProgramFlash sectorIndex sectorBuffer h)
    = pagesEvents (pageBuffer sectorBuffer)
                  (sectorIndex * Z.quot FLASH_SECTOR_SIZE FLASH_PAGE_SIZE) 0 waits.
Proof.
  unfold SectorProgramFlash. intros Hok.
  destruct (SectorProgramFlash_loop_ok _ _ _ _ _ _ Hok) as (waits & Hlen & Hready & Htrace).
  exists waits. split; [ split; assumption | exact Htrace ].
Qed.

(** A sector erase that returns [FT4222_OK]. *)
Lemma EraseSector_ok (sectorIndex : Z) (h : Handle) :
  value_of (EraseSector sectorIndex h) = FT4222_OK ->
  exists wait,
    readyWait wait /\ trace_of (EraseSector sectorIndex h) = eraseEvents sectorIndex wait.
Proof.
  unfold EraseSector, WriteEnableFlash, orReturn, bind, eraseEvents.
  destruct (WriteSPI_run [WriteEnableCmd] 1 true h) as (h1 & s1 & -> & _).
  destruct (is_ok s1) eqn:E1; cbn [ret]; rewrite E1;
    [ apply is_ok_true in E1; subst s1 | cbn; intros ->; discriminate ].
  destruct (WriteSPI_run
              (SectorEraseCmd :: IntToByteVec (sectorIndex * FLASH_SECTOR_SIZE))
              (size (SectorEraseCmd :: IntToByteVec (sectorIndex * FLASH_SECTOR_SIZE)))
              true h1) as (h2 & s2 & -> & _).
  destruct (is_ok s2) eqn:E2;
    [ apply is_ok_true in E2; subst s2 | cbn; intros ->; discriminate ].
  pose proof (WaitForFlashReady_ok h2) as Hwait.
  destruct (WaitForFlashReady h2) as [[t3 h3] s3].
  unfold value_of, trace_of in *. cbn [fst snd] in *.
  destruct (is_ok s3) eqn:E3; cbn [ret fst snd]; intros Hv; subst s3;
    [ | discriminate ].
  exists t3. split; [ auto | ]. rewrite !app_nil_r. reflexivity.
Qed.

(** Leaving [while (!success)] means: some passes that programmed the
    sector, read it back corrupted and erased it, then one that programmed it
    and read it back without an error; the read-back is the last transfer. *)
Lemma ProgramFlash_while_left (fuel : nat) :
  forall (fileBuffer : list Z) (i bufferPointer attempts : Z) (readBuffer : list Z)
         (h : Handle) (status : FT4222_STATUS) (readBack : list Z),
    value_of (ProgramFlash_while fuel fileBuffer i bufferPointer attempts readBuffer h)
    = Some (Left status readBack) ->
    status = FT4222_OK
    /\ valid_range fileBuffer bufferPointer (sectorLast fileBuffer i bufferPointer) = true
    /\ length readBack = Z.to_nat FLASH_SECTOR_SIZE
    /\ countErrors (bytesToTransmit fileBuffer i) readBack
                   (sectorBuffer fileBuffer i bufferPointer) = 0
    /\ exists retried waits,
         trace_of (ProgramFlash_while fuel fileBuffer i bufferPointer attempts
                                      readBuffer h)
         = concat (map (retriedEvents (sectorBuffer fileBuffer i bufferPointer) i)
                       retried)
           ++ passEvents (sectorBuffer fileBuffer i bufferPointer) i waits readBack
         /\ Forall (retried_ok fileBuffer i bufferPointer) retried
         /\ pagesWaited (sectorBuffer fileBuffer i bufferPointer) waits
         /\ forall j,
              attempts < j <= attempts + Z.of_nat (length retried) + 1 ->
              j <> MAX_SECTOR_PROGRAM_ATTEMPTS.
Proof.
  induction fuel as [ | fuel IH ];
    intros fileBuffer i bufferPointer attempts readBuffer h status readBack;
    [ discriminate | ].
  cbn [ProgramFlash_while].
  destruct (valid_range fileBuffer bufferPointer (sectorLast fileBuffer i bufferPointer))
    eqn:Hrange; cbn [negb]; [ | discriminate ].
  unfold bind, value_of, trace_of.
  pose proof (SectorProgramFlash_ok i (sectorBuffer fileBuffer i bufferPointer) h)
    as Hprogram.
  destruct (SectorProgramFlash i (sectorBuffer fileBuffer i bufferPointer) h)
    as [[t1 h1] s1].
  unfold value_of, trace_of in Hprogram. cbn [fst snd] in Hprogram.
  destruct (is_ok s1) eqn:E1; cbn [negb ret fst snd]; [ | discriminate ].
  apply is_ok_true in E1. subst s1.
  destruct (Hprogram eq_refl) as (waits & Hwaits & ->). clear Hprogram.
  pose proof (ReadSectorFlash_ok i readBuffer h1) as Hread.
  destruct (ReadSectorFlash i readBuffer h1) as [[t2 h2] [s2 rb2]].
  unfold value_of, trace_of in Hread. cbn [fst snd] in Hread.
  destruct (is_ok s2) eqn:E2; cbn [negb ret fst snd]; [ | discriminate ].
  apply is_ok_true in E2. subst s2.
  destruct (Hread eq_refl) as [-> Hlen]. clear Hread.
  pose proof (countErrors_nonneg (bytesToTransmit fileBuffer i) rb2
                                 (sectorBuffer fileBuffer i bufferPointer)) as Hnonneg.
  destruct (Z.ltb_spec 0 (countErrors (bytesToTransmit fileBuffer i) rb2
                                      (sectorBuffer fileBuffer i bufferPointer)))
    as [Hsome | Hnone].
  - pose proof (EraseSector_ok i h2) as Herase.
    destruct (EraseSector i h2) as [[t3 h3] s3].
    unfold value_of, trace_of in Herase. cbn [fst snd] in Herase.
    destruct (is_ok s3) eqn:E3; cbn [negb ret fst snd]; [ | discriminate ].
    apply is_ok_true in E3. subst s3.
    destruct (Herase eq_refl) as (wait & Hwait & ->). clear Herase.
    destruct (Z.eqb_spec (attempts + 1) MAX_SECTOR_PROGRAM_ATTEMPTS) as [ | Hnot ];
      cbn [ret fst snd]; [ discriminate | ].
    destruct (Z.eqb_spec (countErrors (bytesToTransmit fileBuffer i) rb2
                                      (sectorBuffer fileBuffer i bufferPointer)) 0)
      as [Hzero | _]; [ lia | ].
    specialize (IH fileBuffer i bufferPointer (attempts + 1) rb2 h3 status readBack).
    unfold value_of, trace_of in IH.
    destruct (ProgramFlash_while fuel fileBuffer i bufferPointer (attempts + 1) rb2 h3)
      as [[t4 h4] v4].
    cbn [fst snd] in *. intros Hv.
    destruct (IH Hv)
      as (Hs & _ & Hl & Hc & retried & waits' & -> & Hretried & Hwaits' & Hattempts).
    split; [ exact Hs | split; [ reflexivity | split; [ exact Hl | split; [ exact Hc | ] ] ] ].
    exists ({| pageWaits := waits; corruptedReadBack := rb2; eraseWait := wait |}
            :: retried), waits'.
    split; [ | split; [ | split ] ].
    + cbn [map concat]. unfold retriedEvents, passEvents.
      cbn [pageWaits corruptedReadBack eraseWait].
      rewrite <- !app_assoc. reflexivity.
    + constructor; [ | exact Hretried ].
      unfold retried_ok. cbn [pageWaits corruptedReadBack eraseWait]. auto.
    + exact Hwaits'.
    + intros j Hj. cbn [length] in Hj.
      destruct (Z.eq_dec j (attempts + 1)) as [-> | Hother];
        [ exact Hnot | apply Hattempts; lia ].
  - cbn [ret is_ok negb fst snd].
    destruct (Z.eqb_spec (attempts + 1) MAX_SECTOR_PROGRAM_ATTEMPTS) as [ | Hnot ];
      cbn [ret fst snd]; [ discriminate | ].
    destruct (Z.eqb_spec (countErrors (bytesToTransmit fileBuffer i) rb2
                                      (sectorBuffer fileBuffer i bufferPointer)) 0)
      as [Hzero | Hmore]; [ | lia ].
    cbn [ret fst snd]. intros [= <- <-].
    split; [ reflexivity
           | split; [ reflexivity | split; [ exact Hlen | split; [ exact Hzero | ] ] ] ].
    exists [], waits.
    split; [ | split; [ constructor | split; [ exact Hwaits | ] ] ].
    + cbn [map concat app]. unfold passEvents.
      rewrite ?app_nil_r. reflexivity.
    + intros j Hj. cbn [length] in Hj.
      replace j with (attempts + 1) by lia. exact Hnot.
Qed.

(** A [return] from inside [while (!success)] never carries [FT4222_OK]. *)
Lemma ProgramFlash_while_returned (fuel : nat) :
  forall (fileBuffer : list Z) (i bufferPointer attempts : Z) (readBuffer : list Z)
         (h : Handle) (status : FT4222_STATUS),
    value_of (ProgramFlash_while fuel fileBuffer i bufferPointer attempts readBuffer h)
    = Some (Returned status) ->
    status <> FT4222_OK.
Proof.
  induction fuel as [ | fuel IH ];
    intros fileBuffer i bufferPointer attempts readBuffer h status;
    [ discriminate | ].
  cbn [ProgramFlash_while].
  destruct (valid_range _ _ _); cbn [negb]; [ | discriminate ].
  unfold bind, value_of.
  destruct (SectorProgramFlash i (sectorBuffer fileBuffer i bufferPointer) h)
    as [[t1 h1] s1].
  destruct (is_ok s1) eqn:E1; cbn [negb ret snd];
    [ | intros [= <-]; apply is_ok_false; exact E1 ].
  destruct (ReadSectorFlash i readBuffer h1) as [[t2 h2] [s2 rb2]].
  destruct (is_ok s2) eqn:E2; cbn [negb ret snd];
    [ | intros [= <-]; apply is_ok_false; exact E2 ].
  destruct ((if 0 <? countErrors (bytesToTransmit fileBuffer i) rb2
                                 (sectorBuffer fileBuffer i bufferPointer)
             then EraseSector i else ret s2) h2) as [[t3 h3] s3].
  destruct (is_ok s3) eqn:E3; cbn [negb ret snd];
    [ | intros [= <-]; apply is_ok_false; exact E3 ].
  destruct (attempts + 1 =? MAX_SECTOR_PROGRAM_ATTEMPTS);
    cbn [ret snd]; [ intros [= <-]; discriminate | ].
  destruct (_ =? 0); cbn [ret snd]; [ discriminate | ].
  specialize (IH fileBuffer i bufferPointer (attempts + 1) rb2 h3 status).
  unfold value_of in IH.
  destruct (ProgramFlash_while fuel fileBuffer i bufferPointer (attempts + 1) rb2 h3)
    as [[t4 h4] v4].
  exact IH.
Qed.

Lemma ProgramFlash_for_ok (n : nat) :
  forall (fuel : nat) (fileBuffer : list Z) (i bufferPointer : Z)
         (status : FT4222_STATUS) (readBuffer : list Z) (h : Handle),
    value_of (ProgramFlash_for n fuel fileBuffer i bufferPointer status readBuffer h)
    = Some FT4222_OK ->
    exists segments,
      length segments = n /\
      trace_of (ProgramFlash_for n fuel fileBuffer i bufferPointer status readBuffer h)
      = concat segments /\
      forall k, (k < n)%nat ->
        let sector := i + Z.of_nat k in
        let pointer := bufferPointer + Z.of_nat k * FLASH_SECTOR_SIZE in
        exists retried waits readBack,
          nth k segments []
          = concat (map (retriedEvents (sectorBuffer fileBuffer sector pointer) sector)
                        retried)
            ++ passEvents (sectorBuffer fileBuffer sector pointer) sector waits readBack
          /\ Forall (retried_ok fileBuffer sector pointer) retried
          /\ pagesWaited (sectorBuffer fileBuffer sector pointer) waits
          /\ valid_range fileBuffer pointer (sectorLast fileBuffer sector pointer) = true
          /\ length readBack = Z.to_nat FLASH_SECTOR_SIZE
          /\ countErrors (bytesToTransmit fileBuffer sector) readBack
                         (sectorBuffer fileBuffer sector pointer) = 0
          /\ forall j,
               0 < j <= Z.of_nat (length retried) + 1 ->
               j <> MAX_SECTOR_PROGRAM_ATTEMPTS.
Proof.
  induction n as [ | n IH ];
    intros fuel fileBuffer i bufferPointer status readBuffer h Hok.
  - exists []. repeat split. intros k Hk. lia.
  - cbn [ProgramFlash_for] in *. unfold bind, value_of, trace_of in *.
    pose proof (ProgramFlash_while_left fuel fileBuffer i bufferPointer 0 readBuffer h)
      as Hleft.
    pose proof (ProgramFlash_while_returned fuel fileBuffer i bufferPointer 0
                                            readBuffer h) as Hreturned.
    unfold value_of, trace_of in Hleft, Hreturned.
    destruct (ProgramFlash_while fuel fileBuffer i bufferPointer 0 readBuffer h)
      as [[t1 h1] [ [ s | s rb | ] | ]]; cbn [fst snd] in *.
    + exfalso. cbn [ret snd] in Hok. injection Hok as ->.
      apply (Hreturned FT4222_OK); reflexivity.
    + destruct (Hleft s rb eq_refl)
        as (-> & Hrange & Hlen & Hzero & retried & waits & -> & Hretried & Hwaits
            & Hattempts).
      specialize (IH fuel fileBuffer (i + 1) (bufferPointer + FLASH_SECTOR_SIZE)
                     FT4222_OK rb h1).
      destruct (ProgramFlash_for n fuel fileBuffer (i + 1)
                                 (bufferPointer + FLASH_SECTOR_SIZE) FT4222_OK rb h1)
        as [[t2 h2] v2].
      cbn [fst snd] in *.
      destruct (IH Hok) as (segments & Hsegs & -> & Hall).
      eexists (_ :: segments).
      split; [ cbn [length]; congruence | split; [ reflexivity | ] ].
      intros [ | k ] Hk; cbn [nth]; cbn zeta.
      * exists retried, waits, rb. change (Z.of_nat 0) with 0.
        rewrite Z.mul_0_l, !Z.add_0_r.
        repeat (split; [ assumption || reflexivity | ]).
        intros j Hj. apply Hattempts. lia.
      * specialize (Hall k ltac:(lia)). cbn zeta in Hall.
        replace (i + Z.of_nat (S k)) with (i + 1 + Z.of_nat k) by lia.
        replace (bufferPointer + Z.of_nat (S k) * FLASH_SECTOR_SIZE)
          with (bufferPointer + FLASH_SECTOR_SIZE + Z.of_nat k * FLASH_SECTOR_SIZE)
          by lia.
        exact Hall.
    + discriminate.
    + discriminate.
Qed.

(** X2.  [ProgramFlash] reports success only for an image it has seen in the
    flash, and it leaves a verified sector alone.  For every driver: when
    [ProgramFlash] returns [FT4222_OK], its trace is one segment per sector,
    in ascending order.  The segment of sector [k] is made of passes over
    sector [k] and of nothing else: first the passes that were retried, each
    the page programs of the sector's buffer, the read-back of the sector
    (found corrupted) and the erase of the sector; then one pass that is the
    page programs and a read-back of [FLASH_SECTOR_SIZE] bytes which agrees
    with the sector's buffer on all [bytesToTransmit] bytes compared.  That
    read-back is the segment's last transfer: no erase and no page program of
    the sector follows it.  The passes of a sector are fewer than
    [MAX_SECTOR_PROGRAM_ATTEMPTS]. *)
Theorem ProgramFlash_ok_means_verified
        (fuel : nat) (fileBuffer : list Z) (h : Handle) :
  value_of (ProgramFlash fuel fileBuffer h) = Some FT4222_OK ->
  exists segments,
    length segments = Z.to_nat (sectorCount fileBuffer) /\
    trace_of (ProgramFlash fuel fileBuffer h) = concat segments /\
    forall k,
      0 <= k < sectorCount fileBuffer ->
      exists retried waits readBack,
        nth (Z.to_nat k) segments []
        = concat (map (retriedEvents
                         (sectorBuffer fileBuffer k (k * FLASH_SECTOR_SIZE)) k)
                      retried)
          ++ passEvents (sectorBuffer fileBuffer k (k * FLASH_SECTOR_SIZE)) k
                        waits readBack /\
        Forall
          (fun pass =>
             pagesWaited (sectorBuffer fileBuffer k (k * FLASH_SECTOR_SIZE))
                         (pageWaits pass) /\
             0 < countErrors (bytesToTransmit fileBuffer k) (corruptedReadBack pass)
                             (sectorBuffer fileBuffer k (k * FLASH_SECTOR_SIZE)) /\
             readyWait (eraseWait pass))
          retried /\
        pagesWaited (sectorBuffer fileBuffer k (k * FLASH_SECTOR_SIZE)) waits /\
        length readBack = Z.to_nat FLASH_SECTOR_SIZE /\
        (forall j,
            0 <= j < bytesToTransmit fileBuffer k ->
            at_index readBack j
            = at_index (sectorBuffer fileBuffer k (k * FLASH_SECTOR_SIZE)) j) /\
        (0 < MAX_SECTOR_PROGRAM_ATTEMPTS ->
         Z.of_nat (length retried) + 1 < MAX_SECTOR_PROGRAM_ATTEMPTS).
Proof.
  intros Hok. unfold ProgramFlash in *.
  destruct (ProgramFlash_for_ok _ _ _ _ _ _ _ _ Hok) as (segments & Hlen & Htrace & Hall).
  exists segments. split; [ exact Hlen | split; [ exact Htrace | ] ].
  intros k Hk.
  specialize (Hall (Z.to_nat k) ltac:(lia)). cbn zeta in Hall.
  rewrite Z2Nat.id, !Z.add_0_l in Hall by lia.
  destruct Hall
    as (retried & waits & readBack & Hnth & Hretried & Hwaits & _ & Hrb & Hzero
        & Hattempts).
  exists retried, waits, readBack.
  split; [ exact Hnth | ].
  split; [ exact Hretried | ].
  split; [ exact Hwaits | ].
  split; [ exact Hrb | ].
  split; [ apply countErrors_zero; exact Hzero | ].
  intros Hmax.
  destruct (Z.lt_ge_cases (Z.of_nat (length retried) + 1) MAX_SECTOR_PROGRAM_ATTEMPTS)
    as [ | Hreached ]; [ assumption | ].
  exfalso. apply (Hattempts MAX_SECTOR_PROGRAM_ATTEMPTS); [ lia | reflexivity ].
Qed.

(** ** An empty image *)

(** X7.  An empty image is validated without complaint.  With
    [MAX_READ_SIZE > 1], [ValidateFlash] on an empty image sends one [Read]
    frame for address 0 and, if that went through, reads zero bytes with chip
    select released.  It returns the status of the transfer that failed, or
    else that of the read: the comparison loop has nothing to compare and
    never turns the result into [FT4222_CORRUPTED_UPLOAD].  (For that read
    the source hands the vendor call the address of element 0 of an empty
    vector; here the call receives the empty buffer and a count of 0.) *)
Theorem ValidateFlash_empty_image (h : Handle) :
  1 < MAX_READ_SIZE ->
  let r := ValidateFlash [] h in
  (exists status,
      status <> FT4222_OK /\
      trace_of r = [EvWrite (ReadCmd :: IntToByteVec 0) 4 false status] /\
      value_of r = status)
  \/
  (exists status,
      trace_of r = [ EvWrite (ReadCmd :: IntToByteVec 0) 4 false FT4222_OK;
                     EvRead 0 true [] status ] /\
      value_of r = status).
Proof.
  intros Hmax r. subst r. unfold ValidateFlash.
  assert (Hcount : Z.to_nat (chunkCount []) = 1%nat).
  { unfold chunkCount. cbn [size length Z.of_nat].
    change (0 - 1) with (- (1)).
    rewrite Z.quot_opp_l by lia. rewrite Z.quot_small by lia. reflexivity. }
  rewrite Hcount. cbn [ValidateFlash_loop].
  assert (Hbytes : bytesToRead [] 0 = 0).
  { unfold bytesToRead, chunkCount. cbn [size length Z.of_nat].
    change (0 - 1) with (- (1)).
    rewrite Z.quot_opp_l by lia. rewrite Z.quot_small by lia. reflexivity. }
  rewrite Hbytes. cbn [Z.to_nat repeat length].
  unfold orReturn, bind.
  destruct (WriteSPI_run (ReadCmd :: IntToByteVec 0)
                         (size (ReadCmd :: IntToByteVec 0)) false h)
    as (h1 & s1 & -> & _).
  destruct (is_ok s1) eqn:E1.
  - apply is_ok_true in E1. subst s1. right.
    destruct (ReadSPI_run [] 0 true h1) as (h2 & s2 & buffer & Hlen & -> & _).
    destruct buffer as [ | x buffer ]; [ | discriminate Hlen ].
    exists s2. unfold trace_of, value_of.
    destruct (is_ok s2) eqn:E2; cbn [negb ret fst snd app].
    + apply is_ok_true in E2. subst s2.
      split; reflexivity.
    + split; reflexivity.
  - apply is_ok_false in E1. left. exists s1.
    unfold trace_of, value_of. cbn [ret fst snd app].
    split; [ exact E1 | split; reflexivity ].
Qed.

End Sectors.


(** ** The retry loop ends *)

Section Termination.

Context {header : IceBoardHeader}.
Context {Handle : Type} {driver : SpiMaster Handle}.

(** Where the iterators of the sector delimit a range of the image, a run of
    [while (!success)] does not end as [Undefined]. *)
Lemma ProgramFlash_while_defined (fuel : nat) :
  forall (fileBuffer : list Z) (i bufferPointer attempts : Z) (readBuffer : list Z)
         (h : Handle),
    valid_range fileBuffer bufferPointer (sectorLast fileBuffer i bufferPointer) = true ->
    value_of (ProgramFlash_while fuel fileBuffer i bufferPointer attempts readBuffer h)
    <> Some Undefined.
Proof.
  induction fuel as [ | fuel IH ];
    intros fileBuffer i bufferPointer attempts readBuffer h Hrange;
    [ discriminate | ].
  cbn [ProgramFlash_while]. rewrite Hrange. cbn [negb].
  unfold bind, value_of.
  destruct (SectorProgramFlash i (sectorBuffer fileBuffer i bufferPointer) h)
    as [[t1 h1] s1].
  destruct (is_ok s1); cbn [negb ret snd]; [ | discriminate ].
  destruct (ReadSectorFlash i readBuffer h1) as [[t2 h2] [s2 rb2]].
  destruct (is_ok s2); cbn [negb ret snd]; [ | discriminate ].
  destruct ((if 0 <? countErrors (bytesToTransmit fileBuffer i) rb2
                                 (sectorBuffer fileBuffer i bufferPointer)
             then EraseSector i else ret s2) h2) as [[t3 h3] s3].
  destruct (is_ok s3); cbn [negb ret snd]; [ | discriminate ].
  destruct (attempts + 1 =? MAX_SECTOR_PROGRAM_ATTEMPTS);
    cbn [ret snd]; [ discriminate | ].
  destruct (countErrors _ _ _ =? 0); cbn [ret snd]; [ discriminate | ].
  specialize (IH fileBuffer i bufferPointer (attempts + 1) rb2 h3 Hrange).
  unfold value_of in IH.
  destruct (ProgramFlash_while fuel fileBuffer i bufferPointer (attempts + 1) rb2 h3)
    as [[t4 h4] v4].
  exact IH.
Qed.

(** For a non-empty image the [for] loop returns a status once the fuel
    covers [MAX_SECTOR_PROGRAM_ATTEMPTS] passes per sector. *)
Lemma ProgramFlash_for_ends (n : nat) :
  forall (fuel : nat) (fileBuffer : list Z) (i : Z)
         (status : FT4222_STATUS) (readBuffer : list Z) (h : Handle),
    0 < MAX_SECTOR_PROGRAM_ATTEMPTS ->
    (Z.to_nat MAX_SECTOR_PROGRAM_ATTEMPTS <= fuel)%nat ->
    0 < FLASH_SECTOR_SIZE < 2 ^ 64 -> 0 < size fileBuffer < 2 ^ 64 ->
    0 <= i -> i + Z.of_nat n <= sectorCount fileBuffer ->
    value_of (ProgramFlash_for n fuel fileBuffer i (i * FLASH_SECTOR_SIZE) status
                               readBuffer h)
    <> None.
Proof.
  induction n as [ | n IH ];
    intros fuel fileBuffer i status readBuffer h Hmax Hfuel HS Hlen Hi Hn.
  - discriminate.
  - cbn [ProgramFlash_for]. unfold bind, value_of.
    assert (Hattempts : 0 <= 0 < MAX_SECTOR_PROGRAM_ATTEMPTS) by lia.
    pose proof (ProgramFlash_while_ends fuel fileBuffer i (i * FLASH_SECTOR_SIZE) 0
                                        readBuffer h Hattempts) as Hwhile.
    rewrite Z.sub_0_r in Hwhile. specialize (Hwhile Hfuel).
    assert (Hsector : 0 <= i < sectorCount fileBuffer) by lia.
    pose proof (ProgramFlash_while_defined fuel fileBuffer i (i * FLASH_SECTOR_SIZE) 0
                  readBuffer h (sectorLast_valid_range fileBuffer i HS Hlen Hsector))
      as Hdefined.
    unfold value_of in Hwhile, Hdefined.
    destruct (ProgramFlash_while fuel fileBuffer i (i * FLASH_SECTOR_SIZE) 0 readBuffer h)
      as [[t1 h1] [ [ s | s rb | ] | ]]; cbn [snd] in *.
    + discriminate.
    + replace (i * FLASH_SECTOR_SIZE + FLASH_SECTOR_SIZE)
        with ((i + 1) * FLASH_SECTOR_SIZE) by lia.
      assert (Hi' : 0 <= i + 1) by lia.
      assert (Hn' : i + 1 + Z.of_nat n <= sectorCount fileBuffer) by lia.
      specialize (IH fuel fileBuffer (i + 1) s rb h1 Hmax Hfuel HS Hlen Hi' Hn').
      unfold value_of in IH.
      destruct (ProgramFlash_for n fuel fileBuffer (i + 1)
                                 ((i + 1) * FLASH_SECTOR_SIZE) s rb h1)
        as [[t2 h2] v2].
      exact IH.
    + exfalso. apply Hdefined. reflexivity.
    + contradiction.
Qed.

(** [ProgramFlash] returns, for every driver and every non-empty image, once
    the fuel covers [MAX_SECTOR_PROGRAM_ATTEMPTS] passes per sector. *)
Lemma ProgramFlash_returns (fuel : nat) (fileBuffer : list Z) (h : Handle) :
  0 < MAX_SECTOR_PROGRAM_ATTEMPTS ->
  (Z.to_nat MAX_SECTOR_PROGRAM_ATTEMPTS <= fuel)%nat ->
  0 < FLASH_SECTOR_SIZE < 2 ^ 64 -> 0 < size fileBuffer < 2 ^ 64 ->
  exists status, value_of (ProgramFlash fuel fileBuffer h) = Some status.
Proof.
  intros Hmax Hfuel HS Hlen.
  pose proof (sectorCount_bounds fileBuffer HS Hlen) as [Hcount _].
  assert (Hn : 0 + Z.of_nat (Z.to_nat (sectorCount fileBuffer)) <= sectorCount fileBuffer)
    by lia.
  pose proof (ProgramFlash_for_ends (Z.to_nat (sectorCount fileBuffer)) fuel fileBuffer
                                    0 FT4222_OK [] h Hmax Hfuel HS Hlen (Z.le_refl 0) Hn)
    as Hends.
  change (0 * FLASH_SECTOR_SIZE) with 0 in Hends.
  unfold ProgramFlash.
  destruct (value_of (ProgramFlash_for _ fuel fileBuffer 0 0 FT4222_OK [] h))
    as [ status | ]; [ eauto | contradiction ].
Qed.

(** Once [while (!success)] has ended within some fuel, more fuel changes
    nothing. *)
Lemma ProgramFlash_while_more_fuel (fuel : nat) :
  forall (fuel' : nat) (fileBuffer : list Z) (i bufferPointer attempts : Z)
         (readBuffer : list Z) (h : Handle),
    (fuel <= fuel')%nat ->
    value_of (ProgramFlash_while fuel fileBuffer i bufferPointer attempts readBuffer h)
    <> None ->
    ProgramFlash_while fuel' fileBuffer i bufferPointer attempts readBuffer h
    = ProgramFlash_while fuel fileBuffer i bufferPointer attempts readBuffer h.
Proof.
  induction fuel as [ | fuel IH ];
    intros fuel' fileBuffer i bufferPointer attempts readBuffer h Hle Hends.
  - exfalso. apply Hends. reflexivity.
  - destruct fuel' as [ | fuel' ]; [ lia | ].
    cbn [ProgramFlash_while] in *.
    destruct (valid_range _ _ _); cbn [negb] in *; [ | reflexivity ].
    unfold bind, value_of in *.
    destruct (SectorProgramFlash i (sectorBuffer fileBuffer i bufferPointer) h)
      as [[t1 h1] s1].
    destruct (is_ok s1); cbn [negb] in *; [ | reflexivity ].
    destruct (ReadSectorFlash i readBuffer h1) as [[t2 h2] [s2 rb2]].
    destruct (is_ok s2); cbn [negb] in *; [ | reflexivity ].
    destruct ((if 0 <? countErrors (bytesToTransmit fileBuffer i) rb2
                                   (sectorBuffer fileBuffer i bufferPointer)
               then EraseSector i else ret s2) h2) as [[t3 h3] s3].
    destruct (is_ok s3); cbn [negb] in *; [ | reflexivity ].
    destruct (attempts + 1 =? MAX_SECTOR_PROGRAM_ATTEMPTS); [ reflexivity | ].
    destruct (_ =? 0); [ reflexivity | ].
    rewrite (IH fuel' fileBuffer i bufferPointer (attempts + 1) rb2 h3);
      [ reflexivity | lia | ].
    unfold value_of.
    destruct (ProgramFlash_while fuel fileBuffer i bufferPointer (attempts + 1) rb2 h3)
      as [[t4 h4] v4].
    exact Hends.
Qed.

Lemma ProgramFlash_for_more_fuel (n : nat) :
  forall (fuel fuel' : nat) (fileBuffer : list Z) (i bufferPointer : Z)
         (status : FT4222_STATUS) (readBuffer : list Z) (h : Handle),
    0 < MAX_SECTOR_PROGRAM_ATTEMPTS ->
    (Z.to_nat MAX_SECTOR_PROGRAM_ATTEMPTS <= fuel)%nat -> (fuel <= fuel')%nat ->
    ProgramFlash_for n fuel' fileBuffer i bufferPointer status readBuffer h
    = ProgramFlash_for n fuel fileBuffer i bufferPointer status readBuffer h.
Proof.
  induction n as [ | n IH ];
    intros fuel fuel' fileBuffer i bufferPointer status readBuffer h Hmax Hfuel Hle.
  - reflexivity.
  - cbn [ProgramFlash_for].
    assert (Hattempts : 0 <= 0 < MAX_SECTOR_PROGRAM_ATTEMPTS) by lia.
    pose proof (ProgramFlash_while_ends fuel fileBuffer i bufferPointer 0 readBuffer h
                                        Hattempts) as Hends.
    rewrite Z.sub_0_r in Hends. specialize (Hends Hfuel).
    unfold bind.
    rewrite (ProgramFlash_while_more_fuel fuel fuel' fileBuffer i bufferPointer 0
                                          readBuffer h Hle Hends).
    destruct (ProgramFlash_while fuel fileBuffer i bufferPointer 0 readBuffer h)
      as [[t1 h1] [ [ s | s rb | ] | ]]; try reflexivity.
    rewrite (IH fuel fuel' fileBuffer (i + 1) (bufferPointer + FLASH_SECTOR_SIZE)
                s rb h1 Hmax Hfuel Hle).
    reflexivity.
Qed.

(** X3.  The retry loop cannot run forever.  With a positive
    [MAX_SECTOR_PROGRAM_ATTEMPTS], for every driver and every non-empty image
    that keeps the [int]s of the function in range
    ([len + FLASH_SECTOR_SIZE < 2^31]), [ProgramFlash] returns a status, and
    each [while (!success)] loop ends within [MAX_SECTOR_PROGRAM_ATTEMPTS]
    passes: a run that is allowed more passes is the same run.  (The empty
    image is another matter: there no status is returned, see C4.) *)
Theorem ProgramFlash_ends_within_the_attempts
        (fuel : nat) (fileBuffer : list Z) (h : Handle) :
  0 < MAX_SECTOR_PROGRAM_ATTEMPTS ->
  (Z.to_nat MAX_SECTOR_PROGRAM_ATTEMPTS <= fuel)%nat ->
  0 < FLASH_SECTOR_SIZE ->
  0 < size fileBuffer ->
  size fileBuffer + FLASH_SECTOR_SIZE < 2 ^ 31 ->
  (exists status, value_of (ProgramFlash fuel fileBuffer h) = Some status)
  /\ ProgramFlash fuel fileBuffer h
     = ProgramFlash (Z.to_nat MAX_SECTOR_PROGRAM_ATTEMPTS) fileBuffer h.
Proof.
  intros Hmax Hfuel HS0 Hlen0 Hint. split.
  - assert (HS : 0 < FLASH_SECTOR_SIZE < 2 ^ 64) by lia.
    assert (Hlen : 0 < size fileBuffer < 2 ^ 64) by lia.
    pose proof (sectorCount_bounds fileBuffer HS Hlen) as [Hcount _].
    assert (Hn : 0 + Z.of_nat (Z.to_nat (sectorCount fileBuffer))
                 <= sectorCount fileBuffer) by lia.
    pose proof (ProgramFlash_for_ends (Z.to_nat (sectorCount fileBuffer)) fuel fileBuffer
                  0 FT4222_OK [] h Hmax Hfuel HS Hlen (Z.le_refl 0) Hn) as Hends.
    change (0 * FLASH_SECTOR_SIZE) with 0 in Hends.
    unfold ProgramFlash.
    destruct (value_of (ProgramFlash_for _ fuel fileBuffer 0 0 FT4222_OK [] h))
      as [ status | ]; [ eauto | contradiction ].
  - unfold ProgramFlash.
    apply ProgramFlash_for_more_fuel; [ exact Hmax | apply Nat.le_refl | exact Hfuel ].
Qed.

(** ** An image of no bytes *)

(** C4.  [ProgramFlash] does not turn an empty image away, and it has no
    status to do so with.  For an empty image [fileBuffer.size() - 1] wraps
    around in [size_t], so that with a sector of more than one byte the
    sector count is [1 + (2^64 - 1) / FLASH_SECTOR_SIZE], not zero.  The first
    pass over sector 0 then asks the range constructor for the bytes from
    [fileBuffer.begin()] to [fileBuffer.begin() + FLASH_SECTOR_SIZE] of a
    vector of no bytes: the iterators delimit no range of it, and the run
    ends there as [Undefined], before any transfer and without a status,
    however many passes are allowed. *)
Theorem ProgramFlash_empty_image_is_undefined (fuel : nat) (h : Handle) :
  1 < FLASH_SECTOR_SIZE < 2 ^ 64 ->
  sectorCount [] = 1 + (2 ^ 64 - 1) / FLASH_SECTOR_SIZE
  /\ 1 < sectorCount []
  /\ isLastSector [] 0 = false
  /\ sectorLast [] 0 0 = FLASH_SECTOR_SIZE
  /\ valid_range [] 0 (sectorLast [] 0 0) = false
  /\ (forall passes,
        ProgramFlash_while (S passes) [] 0 0 0 [] h = ([], h, Some Undefined))
  /\ ProgramFlash fuel [] h = ([], h, None).
Proof.
  intros HS.
  assert (Hquot : 1 <= (2 ^ 64 - 1) / FLASH_SECTOR_SIZE < 2 ^ 63).
  { split; [ apply Z.div_le_lower_bound; lia | apply Z.div_lt_upper_bound; lia ]. }
  assert (Hcount : sectorCount [] = 1 + (2 ^ 64 - 1) / FLASH_SECTOR_SIZE).
  { unfold sectorCount, size_t. cbn [size length Z.of_nat].
    change ((0 - 1) mod 2 ^ 64) with (2 ^ 64 - 1).
    rewrite (Z.mod_small FLASH_SECTOR_SIZE) by lia.
    rewrite Z.mod_small by lia. reflexivity. }
  assert (Hlast : isLastSector [] 0 = false).
  { unfold isLastSector, size_t. rewrite Hcount.
    rewrite (Z.mod_small (1 + (2 ^ 64 - 1) / FLASH_SECTOR_SIZE - 1)) by lia.
    apply Z.eqb_neq. change (0 mod 2 ^ 64) with 0. lia. }
  assert (Hend : sectorLast [] 0 0 = FLASH_SECTOR_SIZE).
  { unfold sectorLast. rewrite Hlast. reflexivity. }
  assert (Hrange : valid_range [] 0 (sectorLast [] 0 0) = false).
  { rewrite Hend. unfold valid_range. cbn [size length Z.of_nat].
    replace (FLASH_SECTOR_SIZE <=? 0) with false
      by (symmetry; apply Z.leb_gt; lia).
    apply andb_false_r. }
  assert (Hwhile : forall fuel', ProgramFlash_while (S fuel') [] 0 0 0 [] h
                                 = ([], h, Some Undefined)).
  { intros fuel'. cbn [ProgramFlash_while]. rewrite Hrange. reflexivity. }
  split; [ exact Hcount | ].
  split; [ lia | ].
  split; [ exact Hlast | ].
  split; [ exact Hend | ].
  split; [ exact Hrange | ].
  split; [ exact Hwhile | ].
  unfold ProgramFlash.
  destruct (Z.to_nat (sectorCount [])) as [ | n ] eqn:Hn; [ lia | ].
  cbn [ProgramFlash_for]. unfold bind.
  destruct fuel as [ | fuel' ]; [ reflexivity | ].
  rewrite Hwhile. reflexivity.
Qed.

(** With sectors of one byte the count of an empty image wraps around to
    zero, and the call returns [FT4222_OK] at once. *)
Lemma ProgramFlash_empty_image_one_byte_sectors (fuel : nat) (h : Handle) :
  FLASH_SECTOR_SIZE = 1 ->
  sectorCount [] = 0 /\ ProgramFlash fuel [] h = ([], h, Some FT4222_OK).
Proof.
  intros HS.
  assert (Hcount : sectorCount [] = 0).
  { unfold sectorCount, size_t. rewrite HS. reflexivity. }
  split; [ exact Hcount | ].
  unfold ProgramFlash. rewrite Hcount. reflexivity.
Qed.

End Termination.

(** ** Opening the board *)

Section BoardProperties.

Context {vendor : VendorHeader}.
Context {Host : Type} {usb : Ftd2xx Host}.

(** The loop collects, in order, the devices whose detail call succeeded
    with one of the two descriptions. *)
Lemma InitBoard_loop_collects (n : nat) :
  forall (i : Z) (ft4222Devices : list FT_DEVICE_LIST_INFO_NODE) (host : Host),
  exists answers,
    length answers = n /\
    fst (fst (InitBoard_loop n i ft4222Devices host)) = detailCalls i answers /\
    snd (InitBoard_loop n i ft4222Devices host)
    = ft4222Devices
      ++ map snd (filter (fun answer => isFT4222 (fst answer) (snd answer)) answers).
Proof.
  induction n as [ | n IH ]; intros i ft4222Devices host.
  - exists []. cbn. rewrite app_nil_r. auto.
  - cbn [InitBoard_loop].
    destruct (FT_GetDeviceInfoDetail host i) as [[host1 status] info].
    specialize (IH (i + 1)
                   (if isFT4222 status info then ft4222Devices ++ [info]
                    else ft4222Devices) host1).
    destruct IH as (answers & Hlen & Hcalls & Hdevices).
    destruct (InitBoard_loop n (i + 1)
                (if isFT4222 status info then ft4222Devices ++ [info]
                 else ft4222Devices) host1) as [[calls host2] devices].
    cbn [fst snd] in *.
    exists ((status, info) :: answers).
    split; [ cbn [length]; congruence | split ].
    + cbn [detailCalls]. congruence.
    + rewrite Hdevices. cbn [filter fst snd].
      destruct (isFT4222 status info); cbn [map snd].
      * rewrite <- app_assoc. reflexivity.
      * reflexivity.
Qed.

Lemma first_of_the_filtered {A : Type} (p : A -> bool) (l : list A) :
  match filter p l with
  | [] => find p l = None
  | x :: _ => find p l = Some x
  end.
Proof.
  induction l as [ | a l IH ]; [ reflexivity | ].
  cbn [filter find]. destruct (p a); [ reflexivity | exact IH ].
Qed.

(** X15.  [InitBoard] opens the first FT4222 it finds, and nothing else.  It
    lists the devices once and asks for the details of each, in index order,
    whatever status the listing itself returned.  If no device answered
    [FT_OK] with the description FT4222 or FT4222 A, it returns
    [FT_DEVICE_NOT_FOUND] without opening anything.  Otherwise it opens, by
    serial number, the first such device in index order.  If the open fails
    it returns that status and initialises nothing; if it succeeds it
    initialises the SPI master (single I/O, clock divided by 2, idle high,
    trailing edge, slave select map 0x01) and returns the status of the
    initialisation. *)
Theorem InitBoard_opens_the_first_FT4222 (host : Host) :
  exists createStatus ftdiDdeviceCount answers,
    length answers = Z.to_nat ftdiDdeviceCount /\
    let enumeration :=
      CallCreateDeviceInfoList createStatus ftdiDdeviceCount :: detailCalls 0 answers in
    match find (fun answer => isFT4222 (fst answer) (snd answer)) answers with
    | None =>
        calls_of (InitBoard host) = enumeration /\
        status_of (InitBoard host) = FT_DEVICE_NOT_FOUND
    | Some (_, first) =>
        (exists status,
            status <> FT_OK /\
            calls_of (InitBoard host)
            = enumeration
              ++ [CallOpenEx (SerialNumber first) FT_OPEN_BY_SERIAL_NUMBER status] /\
            status_of (InitBoard host) = status)
        \/
        (exists status,
            calls_of (InitBoard host)
            = enumeration
              ++ [ CallOpenEx (SerialNumber first) FT_OPEN_BY_SERIAL_NUMBER FT_OK;
                   CallSPIMasterInit SPI_IO_SINGLE CLK_DIV_2 CLK_IDLE_HIGH CLK_TRAILING
                                     0x01 status ] /\
            status_of (InitBoard host) = status)
    end.
Proof.
  unfold InitBoard.
  destruct (FT_CreateDeviceInfoList host) as [[host1 createStatus] count].
  destruct (InitBoard_loop_collects (Z.to_nat count) 0 [] host1)
    as (answers & Hlen & Hcalls & Hdevices).
  destruct (InitBoard_loop (Z.to_nat count) 0 [] host1) as [[calls host2] devices].
  cbn [fst snd app] in *. subst calls devices.
  exists createStatus, count, answers.
  split; [ exact Hlen | ]. cbv zeta.
  pose proof (first_of_the_filtered (fun answer => isFT4222 (fst answer) (snd answer))
                                    answers) as Hfirst.
  destruct (filter (fun answer => isFT4222 (fst answer) (snd answer)) answers)
    as [ | [s first] rest ]; rewrite Hfirst; cbn [map snd].
  - split; reflexivity.
  - destruct (FT_OpenEx host2 (SerialNumber first) FT_OPEN_BY_SERIAL_NUMBER)
      as [host3 status].
    destruct (Z.eqb_spec status FT_OK) as [-> | Hne]; cbn [negb].
    + right.
      destruct (FT4222_SPIMaster_Init host3 SPI_IO_SINGLE CLK_DIV_2 CLK_IDLE_HIGH
                                      CLK_TRAILING 1) as [host4 status].
      exists status. unfold calls_of, status_of. cbn [fst snd].
      rewrite <- app_assoc. split; reflexivity.
    + left. exists status. unfold calls_of, status_of. cbn [fst snd].
      split; [ exact Hne | split; reflexivity ].
Qed.

End BoardProperties.


(** * Runs on the bench *)

(** ** The chip model at work *)

Section BenchRun.

Context {header : IceBoardHeader}.

Lemma bench_WriteSPI (buffer : list Z) (count : Z) (isEnd : bool) (b : Bench) :
  0 <= count < 65536 ->
  @WriteSPI Bench bench_driver buffer count isEnd b
  = ([EvWrite buffer count isEnd FT4222_OK],
     (if isEnd then execute (with_shifted b []) (shifted b ++ wire b buffer count)
      else with_shifted b (shifted b ++ wire b buffer count)),
     FT4222_OK).
Proof.
  intros Hc. unfold WriteSPI. cbn [FT4222_SPIMaster_SingleWrite bench_driver].
  unfold bench_write. rewrite !uint16_small by lia.
  rewrite Z.eqb_refl. reflexivity.
Qed.

Lemma wire_exact (b : Bench) (buffer : list Z) :
  wire b buffer (size buffer) = buffer.
Proof.
  unfold wire, size. rewrite Nat2Z.id.
  apply (nth_ext _ _ 0 0).
  - rewrite length_map, length_seq. reflexivity.
  - intros n Hn. rewrite length_map, length_seq in Hn.
    rewrite (nth_indep _ 0 (nth 0%nat buffer (stray b (0 - length buffer)%nat)))
      by (rewrite length_map, length_seq; exact Hn).
    rewrite (map_nth (fun k => nth k buffer (stray b (k - length buffer)%nat))).
    rewrite seq_nth by exact Hn. cbn [Nat.add].
    apply nth_indep. exact Hn.
Qed.

Lemma wire_length (b : Bench) (buffer : list Z) (count : Z) :
  length (wire b buffer count) = Z.to_nat count.
Proof. unfold wire. rewrite length_map, length_seq. reflexivity. Qed.

(** Within the buffer, the wire carries the buffer's bytes. *)
Lemma wire_nth (b : Bench) (buffer : list Z) (count : Z) (j : nat) :
  (j < Z.to_nat count)%nat -> (j < length buffer)%nat ->
  nth j (wire b buffer count) 0 = nth j buffer 0.
Proof.
  intros Hj Hb. unfold wire.
  rewrite (nth_indep _ 0 (nth 0%nat buffer (stray b (0 - length buffer)%nat)))
    by (rewrite length_map, length_seq; exact Hj).
  rewrite (map_nth (fun k => nth k buffer (stray b (k - length buffer)%nat))).
  rewrite seq_nth by exact Hj. cbn [Nat.add].
  apply nth_indep. exact Hb.
Qed.

Lemma bench_status_poll (x : Z) (m : Z -> Z) (latch : bool) (busy : nat) (b : Bench) :
  @ReadSPI Bench bench_driver [x] 1 true
           (chip m latch busy [ReadStatusRegisterCmd] b)
  = ([EvRead 1 true [status_register (chip m latch busy [] b)] FT4222_OK],
     chip m latch (Nat.pred busy) [] b,
     (FT4222_OK, [status_register (chip m latch busy [] b)])).
Proof.
  unfold ReadSPI. cbn [FT4222_SPIMaster_SingleRead bench_driver].
  unfold bench_read. cbn [shifted chip].
  rewrite Z.eqb_refl. reflexivity.
Qed.

Lemma bench_wait (busy : nat) :
  forall (n : nat) (x : Z) (m : Z -> Z) (b : Bench),
    (busy < n)%nat ->
    @WaitForFlashReady_loop header Bench bench_driver n [x] (chip m false busy [] b)
    = (sleptPolls (repeat 1 busy) ++ pollEvents 0, chip m false 0 [] b, FT4222_OK).
Proof.
  induction busy as [ | busy IH ]; intros n x m b Hn;
    (destruct n as [ | n ]; [ lia | ]).
  - cbn [WaitForFlashReady_loop]. unfold orReturn, bind.
    rewrite bench_WriteSPI by lia.
    change (with_shifted (chip m false 0 [] b)
              (shifted (chip m false 0 [] b)
               ++ wire (chip m false 0 [] b) [ReadStatusRegisterCmd] 1))
      with (chip m false 0 [ReadStatusRegisterCmd] b).
    change (size [x]) with 1. cbn [is_ok].
    rewrite bench_status_poll. reflexivity.
  - cbn [WaitForFlashReady_loop]. unfold orReturn, bind.
    rewrite bench_WriteSPI by lia.
    change (with_shifted (chip m false (S busy) [] b)
              (shifted (chip m false (S busy) [] b)
               ++ wire (chip m false (S busy) [] b) [ReadStatusRegisterCmd] 1))
      with (chip m false (S busy) [ReadStatusRegisterCmd] b).
    change (size [x]) with 1. cbn [is_ok].
    rewrite bench_status_poll.
    cbn [negb is_ok status_register chip busyPolls writeEnabled Nat.ltb Nat.leb
         Z.add at_index Z.to_nat nth Z.land Pos.land Z.of_N Z.eqb Nat.pred emit].
    rewrite IH by lia. reflexivity.
Qed.

Lemma IntToByteVec_decode (x : Z) :
  ByteVecToInt (IntToByteVec x) = x mod 2 ^ 24.
Proof.
  unfold ByteVecToInt, IntToByteVec.
  rewrite !Z.shiftr_land.
  change (Z.shiftr 0x00FF0000 16) with (Z.ones 8).
  change (Z.shiftr 0x0000FF00 8) with (Z.ones 8).
  change 0x000000FF with (Z.ones 8).
  rewrite !Z.land_ones by lia.
  rewrite !Z.shiftr_div_pow2 by lia.
  change (2 ^ 8) with 256. change (2 ^ 16) with 65536. change (2 ^ 24) with 16777216.
  Z.div_mod_to_equations. lia.
Qed.

Lemma program_page_aligned (data : list Z) :
  forall (m : Z -> Z) (base offset a : Z),
    0 <= offset -> offset + size data <= FLASH_PAGE_SIZE ->
    program_page m base offset data a
    = if (base + offset <=? a) && (a <? base + offset + size data)
      then at_index data (a - base - offset)
      else m a.
Proof.
  induction data as [ | x data IH ]; intros m base offset a Hoff Hfit.
  - cbn [program_page]. unfold size. cbn [length Z.of_nat].
    destruct (base + offset <=? a) eqn:H1; destruct (a <? base + offset + 0) eqn:H2;
      try reflexivity.
    apply Z.leb_le in H1. apply Z.ltb_lt in H2. lia.
  - cbn [program_page]. unfold size in *. cbn [length] in *.
    rewrite Nat2Z.inj_succ in *.
    destruct (Z.eq_dec (offset + 1) FLASH_PAGE_SIZE) as [Hlast | Hmore].
    + assert (Hnil : data = []) by (destruct data; [ reflexivity | cbn in Hfit; lia ]).
      subst data. cbn [program_page length Z.of_nat]. unfold cell_set.
      destruct (Z.eqb_spec a (base + offset)) as [-> | Hne].
      * replace ((base + offset <=? base + offset)
                 && (base + offset <? base + offset + Z.succ 0)) with true
          by (symmetry; apply andb_true_intro; split;
              [ apply Z.leb_le | apply Z.ltb_lt ]; lia).
        unfold at_index. replace (base + offset - base - offset) with 0 by lia.
        reflexivity.
      * destruct (base + offset <=? a) eqn:H1;
          destruct (a <? base + offset + Z.succ 0) eqn:H2; try reflexivity.
        apply Z.leb_le in H1. apply Z.ltb_lt in H2. lia.
    + rewrite Z.mod_small by lia.
      rewrite IH by lia. unfold cell_set.
      destruct (Z.eqb_spec a (base + offset)) as [-> | Hne].
      * replace ((base + (offset + 1) <=? base + offset)
                 && (base + offset <? base + (offset + 1) + Z.of_nat (length data)))
          with false
          by (symmetry; apply andb_false_intro1, Z.leb_gt; lia).
        replace ((base + offset <=? base + offset)
                 && (base + offset <? base + offset + Z.succ (Z.of_nat (length data))))
          with true
          by (symmetry; apply andb_true_intro; split;
              [ apply Z.leb_le | apply Z.ltb_lt ]; lia).
        unfold at_index. replace (base + offset - base - offset) with 0 by lia.
        reflexivity.
      * destruct (base + (offset + 1) <=? a) eqn:H1;
          destruct (a <? base + (offset + 1) + Z.of_nat (length data)) eqn:H2;
          destruct (base + offset <=? a) eqn:H3;
          destruct (a <? base + offset + Z.succ (Z.of_nat (length data))) eqn:H4;
          cbn [andb]; try reflexivity;
          repeat match goal with
                 | H : (_ <=? _) = true |- _ => apply Z.leb_le in H
                 | H : (_ <=? _) = false |- _ => apply Z.leb_gt in H
                 | H : (_ <? _) = true |- _ => apply Z.ltb_lt in H
                 | H : (_ <? _) = false |- _ => apply Z.ltb_ge in H
                 end; try lia.
        unfold at_index.
        replace (Z.to_nat (a - base - offset))
          with (S (Z.to_nat (a - base - (offset + 1)))) by lia.
        reflexivity.
Qed.

Lemma execute_write_enable (m : Z -> Z) (latch : bool) (b : Bench) :
  execute (chip m latch 0 [] b) [WriteEnableCmd] = chip m true 0 [] b.
Proof.
  unfold execute. cbn [busyPolls chip Nat.ltb Nat.leb].
  rewrite Z.eqb_refl. reflexivity.
Qed.

Lemma execute_page_program (m : Z -> Z) (b : Bench) (address : Z) (data : list Z) :
  PageProgramCmd <> WriteEnableCmd ->
  execute (chip m true 0 [] b) (PageProgramCmd :: IntToByteVec address ++ data)
  = chip (program_page m (address mod 2 ^ 24 - (address mod 2 ^ 24) mod FLASH_PAGE_SIZE)
                       ((address mod 2 ^ 24) mod FLASH_PAGE_SIZE) data)
         false (latency b) [] b.
Proof.
  intros Hop. unfold execute. cbn [busyPolls chip Nat.ltb Nat.leb writeEnabled negb].
  destruct (Z.eqb_spec PageProgramCmd WriteEnableCmd) as [ | _ ]; [ contradiction | ].
  rewrite Z.eqb_refl.
  change (firstn 3 (IntToByteVec address ++ data)) with (IntToByteVec address).
  change (skipn 3 (IntToByteVec address ++ data)) with data.
  rewrite IntToByteVec_decode. reflexivity.
Qed.

Section Ideal.

Hypothesis page_positive : 0 < FLASH_PAGE_SIZE.
Hypothesis page_fits_uint16 : FLASH_PAGE_SIZE < 65536.
Hypothesis program_is_not_enable : PageProgramCmd <> WriteEnableCmd.

Lemma bench_PageProgramFlash (pageIndex : Z) (writeBuffer : list Z)
      (m : Z -> Z) (b : Bench) :
  0 <= pageIndex * FLASH_PAGE_SIZE < 2 ^ 24 ->
  (latency b < Z.to_nat MAX_WAIT_TIME_MS)%nat ->
  @PageProgramFlash header Bench bench_driver pageIndex writeBuffer (chip m false 0 [] b)
  = (pageProgramEvents (pageIndex * FLASH_PAGE_SIZE) writeBuffer
     ++ sleptPolls (repeat 1 (latency b)) ++ pollEvents 0,
     chip (program_page m (pageIndex * FLASH_PAGE_SIZE) 0
                        (wire b writeBuffer FLASH_PAGE_SIZE))
          false 0 [] b,
     FT4222_OK).
Proof.
  intros Haddr Hlat.
  unfold PageProgramFlash, WriteEnableFlash, orReturn, bind.
  rewrite bench_WriteSPI by lia. cbn [is_ok ret].
  change (execute (with_shifted (chip m false 0 [] b) [])
            (shifted (chip m false 0 [] b)
             ++ wire (chip m false 0 [] b) [WriteEnableCmd] 1))
    with (execute (chip m false 0 [] b) [WriteEnableCmd]).
  rewrite execute_write_enable.
  rewrite bench_WriteSPI by (cbn; lia). cbn [is_ok].
  rewrite wire_exact.
  change (with_shifted (chip m true 0 [] b)
            (shifted (chip m true 0 [] b)
             ++ PageProgramCmd :: IntToByteVec (pageIndex * FLASH_PAGE_SIZE)))
    with (chip m true 0 (PageProgramCmd :: IntToByteVec (pageIndex * FLASH_PAGE_SIZE)) b).
  rewrite bench_WriteSPI by lia. cbn [is_ok].
  change (execute
            (with_shifted
               (chip m true 0 (PageProgramCmd :: IntToByteVec (pageIndex * FLASH_PAGE_SIZE)) b)
               [])
            (shifted
               (chip m true 0
                     (PageProgramCmd :: IntToByteVec (pageIndex * FLASH_PAGE_SIZE)) b)
             ++ wire (chip m true 0
                           (PageProgramCmd :: IntToByteVec (pageIndex * FLASH_PAGE_SIZE)) b)
                     writeBuffer FLASH_PAGE_SIZE))
    with (execute (chip m true 0 [] b)
                  (PageProgramCmd :: IntToByteVec (pageIndex * FLASH_PAGE_SIZE)
                                  ++ wire b writeBuffer FLASH_PAGE_SIZE)).
  rewrite execute_page_program by assumption.
  rewrite (Z.mod_small (pageIndex * FLASH_PAGE_SIZE)) by lia.
  rewrite Z.mod_mul by lia. rewrite Z.sub_0_r.
  unfold WaitForFlashReady.
  rewrite bench_wait by exact Hlat.
  cbn [is_ok ret app]. rewrite !app_nil_r. reflexivity.
Qed.

Lemma at_index_pageChunk (window : list Z) (k j : Z) :
  0 <= k -> 0 <= j < FLASH_PAGE_SIZE ->
  at_index (pageChunk window k) j = at_index window (k * FLASH_PAGE_SIZE + j).
Proof.
  intros Hk Hj. unfold at_index, pageChunk.
  rewrite nth_firstn, nth_skipn.
  replace (Z.to_nat j <? Z.to_nat FLASH_PAGE_SIZE)%nat with true
    by (symmetry; apply Nat.ltb_lt; lia).
  f_equal. nia.
Qed.

Lemma size_pageChunk (window : list Z) (k : Z) :
  0 <= k ->
  size (pageChunk window k)
  = Z.min FLASH_PAGE_SIZE (Z.max 0 (size window - k * FLASH_PAGE_SIZE)).
Proof.
  intros Hk. unfold size, pageChunk.
  rewrite length_firstn, length_skipn. nia.
Qed.

(** The pages of a sector window on the bench: the page programs go through,
    the cells below the sector keep their content, and the window's bytes
    are in place as far as the pages reach. *)
Lemma bench_pages (window : list Z) (start : Z) (b : Bench) (m0 : Z -> Z) (n : nat) :
  (latency b < Z.to_nat MAX_WAIT_TIME_MS)%nat ->
  forall (k : Z) (m : Z -> Z) (status : FT4222_STATUS),
    0 <= k ->
    (forall j, k <= j < k + Z.of_nat n ->
               0 <= (start + j) * FLASH_PAGE_SIZE < 2 ^ 24 /\
               pageBuffer window j = pageChunk window j) ->
    (forall a, a < start * FLASH_PAGE_SIZE -> m a = m0 a) ->
    (forall j, 0 <= j < k * FLASH_PAGE_SIZE -> j < size window ->
               m (start * FLASH_PAGE_SIZE + j) = at_index window j) ->
    exists m',
      @SectorProgramFlash_loop header Bench bench_driver n start window k status
                               (chip m false 0 [] b)
      = (pagesEvents (pageBuffer window) start k
                     (repeat (sleptPolls (repeat 1 (latency b)) ++ pollEvents 0) n),
         chip m' false 0 [] b,
         match n with O => status | S _ => FT4222_OK end)
      /\ (forall a, a < start * FLASH_PAGE_SIZE -> m' a = m0 a)
      /\ (forall j, 0 <= j < (k + Z.of_nat n) * FLASH_PAGE_SIZE -> j < size window ->
                    m' (start * FLASH_PAGE_SIZE + j) = at_index window j).
Proof.
  intros Hlat. induction n as [ | n IH ]; intros k m status Hk Hpages Hframe Hdone.
  - exists m. cbn [SectorProgramFlash_loop repeat pagesEvents].
    split; [ reflexivity | split; [ exact Hframe | ] ].
    intros j Hj Hw. apply Hdone; lia.
  - cbn [SectorProgramFlash_loop]. unfold orReturn, bind.
    destruct (Hpages k ltac:(lia)) as [Haddr Hchunk].
    rewrite bench_PageProgramFlash by assumption.
    cbn [is_ok].
    set (m1 := program_page m ((start + k) * FLASH_PAGE_SIZE) 0
                            (wire b (pageBuffer window k) FLASH_PAGE_SIZE)).
    assert (Hm1 : forall a,
               m1 a = if ((start + k) * FLASH_PAGE_SIZE <=? a)
                         && (a <? (start + k) * FLASH_PAGE_SIZE + FLASH_PAGE_SIZE)
                      then at_index (wire b (pageBuffer window k) FLASH_PAGE_SIZE)
                                    (a - (start + k) * FLASH_PAGE_SIZE)
                      else m a).
    { intros a. subst m1. rewrite program_page_aligned.
      - unfold size. rewrite wire_length. rewrite Z2Nat.id by lia.
        rewrite !Z.add_0_r, Z.sub_0_r. reflexivity.
      - lia.
      - unfold size. rewrite wire_length. lia. }
    destruct (IH (k + 1) m1 FT4222_OK) as (m' & Hrun & Hframe' & Hdone').
    + lia.
    + intros j Hj. apply Hpages. lia.
    + intros a Ha. rewrite Hm1.
      replace ((start + k) * FLASH_PAGE_SIZE <=? a) with false
        by (symmetry; apply Z.leb_gt; nia).
      cbn [andb]. apply Hframe. exact Ha.
    + intros j Hj Hw. rewrite Hm1.
      destruct (Z.lt_ge_cases j (k * FLASH_PAGE_SIZE)) as [Hbefore | Hin].
      * replace ((start + k) * FLASH_PAGE_SIZE <=? start * FLASH_PAGE_SIZE + j)
          with false by (symmetry; apply Z.leb_gt; nia).
        cbn [andb]. apply Hdone; lia.
      * replace (((start + k) * FLASH_PAGE_SIZE <=? start * FLASH_PAGE_SIZE + j)
                 && (start * FLASH_PAGE_SIZE + j
                     <? (start + k) * FLASH_PAGE_SIZE + FLASH_PAGE_SIZE))
          with true
          by (symmetry; apply andb_true_intro; split;
              [ apply Z.leb_le | apply Z.ltb_lt ]; nia).
        replace (start * FLASH_PAGE_SIZE + j - (start + k) * FLASH_PAGE_SIZE)
          with (j - k * FLASH_PAGE_SIZE) by nia.
        unfold at_index at 1.
        rewrite wire_nth.
        -- rewrite Hchunk.
           change (nth (Z.to_nat (j - k * FLASH_PAGE_SIZE)) (pageChunk window k) 0)
             with (at_index (pageChunk window k) (j - k * FLASH_PAGE_SIZE)).
           rewrite at_index_pageChunk by nia. f_equal. lia.
        -- nia.
        -- rewrite Hchunk.
           pose proof (size_pageChunk window k Hk) as Hs. unfold size in Hs.
           unfold size in Hw. nia.
    + exists m'. split; [ | split; [ exact Hframe' | ] ].
      * rewrite Hrun. cbn [repeat pagesEvents].
        rewrite <- !app_assoc.
        destruct n; reflexivity.
      * intros j Hj Hw. apply Hdone'; [ | exact Hw ]. nia.
Qed.

Lemma store_into_same_length (data old : list Z) :
  length data = length old -> store_into data old = data.
Proof.
  intros Hlen. unfold store_into.
  rewrite firstn_all2 by lia. rewrite skipn_all2 by lia. apply app_nil_r.
Qed.

Lemma length_resize (n : Z) (v : list Z) : length (resize n v) = Z.to_nat n.
Proof.
  unfold resize. rewrite length_app, length_firstn, repeat_length. lia.
Qed.

Hypothesis sector_positive : 0 < FLASH_SECTOR_SIZE.
Hypothesis sector_fits_uint16 : FLASH_SECTOR_SIZE < 65536.
Hypothesis read_is_not_status : ReadCmd <> ReadStatusRegisterCmd.

Lemma bench_ReadSectorFlash (sectorIndex : Z) (readBuffer : list Z)
      (m : Z -> Z) (b : Bench) :
  glitches b = 0%nat ->
  @ReadSectorFlash header Bench bench_driver sectorIndex readBuffer (chip m false 0 [] b)
  = ([ EvWrite (ReadCmd :: IntToByteVec (sectorIndex * FLASH_SECTOR_SIZE)) 4 false
               FT4222_OK;
       EvRead FLASH_SECTOR_SIZE true
              (array_read (chip m false 0 [] b)
                          ((sectorIndex * FLASH_SECTOR_SIZE) mod 2 ^ 24)
                          FLASH_SECTOR_SIZE)
              FT4222_OK ],
     chip m false 0 [] b,
     (FT4222_OK,
      array_read (chip m false 0 [] b)
                 ((sectorIndex * FLASH_SECTOR_SIZE) mod 2 ^ 24) FLASH_SECTOR_SIZE)).
Proof.
  intros Hglitch.
  unfold ReadSectorFlash, bind.
  rewrite bench_WriteSPI by (cbn; lia). cbn [is_ok negb].
  rewrite wire_exact.
  change (with_shifted (chip m false 0 [] b)
            (shifted (chip m false 0 [] b)
             ++ ReadCmd :: IntToByteVec (sectorIndex * FLASH_SECTOR_SIZE)))
    with (chip m false 0 (ReadCmd :: IntToByteVec (sectorIndex * FLASH_SECTOR_SIZE)) b).
  unfold ReadSPI. cbn [FT4222_SPIMaster_SingleRead bench_driver].
  unfold bench_read. cbn [shifted chip busyPolls glitches].
  destruct (Z.eqb_spec ReadCmd ReadStatusRegisterCmd) as [ | _ ]; [ contradiction | ].
  rewrite Z.eqb_refl. cbn [andb Nat.eqb].
  rewrite Hglitch. cbn [Nat.ltb Nat.leb].
  change (firstn 3 (IntToByteVec (sectorIndex * FLASH_SECTOR_SIZE)))
    with (IntToByteVec (sectorIndex * FLASH_SECTOR_SIZE)).
  rewrite IntToByteVec_decode.
  rewrite !uint16_small by lia.
  rewrite Z.eqb_refl. cbn [negb is_ok].
  rewrite store_into_same_length
    by (unfold array_read; rewrite length_map, length_seq, length_resize; reflexivity).
  reflexivity.
Qed.

Hypothesis sector_multiple : FLASH_SECTOR_SIZE mod FLASH_PAGE_SIZE = 0.
Hypothesis attempts_not_one : MAX_SECTOR_PROGRAM_ATTEMPTS <> 1.

Variable fileBuffer : list Z.
Hypothesis image_not_empty : 0 < size fileBuffer.
Hypothesis image_fits_flash : size fileBuffer <= 2 ^ 24.

Variable b : Bench.
Hypothesis no_glitches : glitches b = 0%nat.
Hypothesis latency_within_budget : (latency b < Z.to_nat MAX_WAIT_TIME_MS)%nat.

(** One pass of [while (!success)] over sector [i] on the ideal bench: the
    window is programmed, read back intact, and the loop is left. *)
Lemma bench_attempt (fuel : nat) (i : Z) (readBuffer : list Z) (m : Z -> Z) :
  0 <= i < sectorCount fileBuffer ->
  holds_image fileBuffer m (i * FLASH_SECTOR_SIZE) ->
  exists m' readBack,
    @ProgramFlash_while header Bench bench_driver (S fuel) fileBuffer i
                        (i * FLASH_SECTOR_SIZE) 0 readBuffer (chip m false 0 [] b)
    = (sectorEvents (sleptPolls (repeat 1 (latency b)) ++ pollEvents 0)
                    (sectorWindow fileBuffer i) i readBack,
       chip m' false 0 [] b,
       Some (Left FT4222_OK readBack))
    /\ length readBack = Z.to_nat FLASH_SECTOR_SIZE
    /\ firstn (length (sectorWindow fileBuffer i)) readBack = sectorWindow fileBuffer i
    /\ holds_image fileBuffer m' ((i + 1) * FLASH_SECTOR_SIZE).
Proof.
  intros Hi Hm.
  assert (HS64 : 0 < FLASH_SECTOR_SIZE < 2 ^ 64) by lia.
  assert (Hlen64 : 0 < size fileBuffer < 2 ^ 64) by lia.
  pose proof (sectorCount_bounds fileBuffer HS64 Hlen64) as [Hn Hnlen].
  pose proof (size_sectorWindow fileBuffer i sector_positive ltac:(lia)) as Hwsize.
  set (window := sectorWindow fileBuffer i) in *.
  assert (HiS0 : 0 <= i * FLASH_SECTOR_SIZE) by (apply Z.mul_nonneg_nonneg; lia).
  assert (HiS : i * FLASH_SECTOR_SIZE < size fileBuffer).
  { assert (i * FLASH_SECTOR_SIZE <= (sectorCount fileBuffer - 1) * FLASH_SECTOR_SIZE)
      by (apply Z.mul_le_mono_nonneg_r; lia).
    lia. }
  assert (Hw : 0 < size window <= FLASH_SECTOR_SIZE) by lia.
  assert (Hwint : size window < 2 ^ 31) by lia.
  assert (Hint : size fileBuffer < 2 ^ 31) by lia.
  assert (Hwend : i * FLASH_SECTOR_SIZE + size window <= size fileBuffer) by lia.
  pose proof (pageCount_ceil window page_positive sector_multiple Hw Hwint) as Hpc.
  pose proof (ceilDiv_bounds (size window) FLASH_PAGE_SIZE page_positive ltac:(lia))
    as Hpcb.
  rewrite <- Hpc in Hpcb.
  assert (Hquot : Z.quot FLASH_SECTOR_SIZE FLASH_PAGE_SIZE
                  = FLASH_SECTOR_SIZE / FLASH_PAGE_SIZE)
    by (apply Z.quot_div_nonneg; lia).
  assert (Hstart : i * (FLASH_SECTOR_SIZE / FLASH_PAGE_SIZE) * FLASH_PAGE_SIZE
                   = i * FLASH_SECTOR_SIZE).
  { pose proof sector_multiple as Hdiv.
    apply Z.mod_divide in Hdiv; [ | lia ].
    destruct Hdiv as [q Hq]. rewrite Hq, Z.div_mul by lia. lia. }
  cbn [ProgramFlash_while].
  rewrite (sectorLast_valid_range fileBuffer i HS64 Hlen64 Hi). cbn [negb].
  unfold bind.
  rewrite (sectorBuffer_window fileBuffer i HS64 Hlen64 Hi).
  rewrite (bytesToTransmit_window fileBuffer i HS64 Hlen64 Hi Hint).
  fold window.
  unfold SectorProgramFlash. rewrite Hquot.
  destruct (bench_pages window (i * (FLASH_SECTOR_SIZE / FLASH_PAGE_SIZE)) b m
                        (Z.to_nat (pageCount window)) latency_within_budget
                        0 m FT4222_OK ltac:(lia))
    as (m' & Hrun & Hframe & Hdone).
  { intros j Hj. split.
    - rewrite Z.mul_add_distr_r, Hstart.
      assert (0 <= j * FLASH_PAGE_SIZE) by (apply Z.mul_nonneg_nonneg; lia).
      assert (j * FLASH_PAGE_SIZE <= (pageCount window - 1) * FLASH_PAGE_SIZE)
        by (apply Z.mul_le_mono_nonneg_r; lia).
      lia.
    - apply pageBuffer_chunk; auto. lia. }
  { reflexivity. }
  { intros j Hj. lia. }
  rewrite Hrun. clear Hrun.
  rewrite Hstart in Hframe, Hdone.
  replace (match Z.to_nat (pageCount window) with
           | O => FT4222_OK
           | S _ => FT4222_OK
           end) with FT4222_OK by (destruct (Z.to_nat (pageCount window)); reflexivity).
  cbn [is_ok negb].
  rewrite bench_ReadSectorFlash by exact no_glitches.
  cbn [is_ok negb].
  rewrite (Z.mod_small (i * FLASH_SECTOR_SIZE)) by lia.
  set (readBack := array_read (chip m' false 0 [] b) (i * FLASH_SECTOR_SIZE)
                              FLASH_SECTOR_SIZE).
  assert (Hback : forall j, 0 <= j < size window ->
                            at_index readBack j = at_index window j).
  { intros j Hj. subst readBack. unfold array_read, at_index. cbn [cells chip].
    rewrite (nth_indep _ 0 (m' ((i * FLASH_SECTOR_SIZE + Z.of_nat 0) mod 2 ^ 24)))
      by (rewrite length_map, length_seq; lia).
    rewrite (map_nth (fun k => m' ((i * FLASH_SECTOR_SIZE + Z.of_nat k) mod 2 ^ 24))).
    rewrite seq_nth by lia. cbn [Nat.add].
    rewrite Z2Nat.id by lia.
    rewrite Z.mod_small by lia.
    apply Hdone; [ | lia ]. rewrite Z.add_0_l, Z2Nat.id by lia.
    split; [ lia | ]. lia. }
  assert (Hzero : countErrors (size window) readBack window = 0)
    by (apply countErrors_zero; exact Hback).
  rewrite Hzero.
  change (0 <? 0) with false. change (0 =? 0) with true. change (0 + 1) with 1.
  cbn [ret is_ok negb].
  destruct (Z.eqb_spec 1 MAX_SECTOR_PROGRAM_ATTEMPTS) as [Hone | _];
    [ exfalso; apply attempts_not_one; symmetry; exact Hone | ].
  cbn [ret app].
  exists m', readBack.
  assert (Hlen : length readBack = Z.to_nat FLASH_SECTOR_SIZE)
    by (subst readBack; unfold array_read; rewrite length_map, length_seq; reflexivity).
  split; [ | split; [ exact Hlen | split ] ].
  - unfold sectorEvents. rewrite <- Hpc.
    f_equal. f_equal. f_equal. apply pagesEvents_ext.
    intros k Hk. rewrite repeat_length in Hk.
    apply pageBuffer_chunk; auto. lia.
  - apply (nth_ext _ _ 0 0).
    + rewrite length_firstn. unfold size in *. lia.
    + intros k Hk. rewrite length_firstn in Hk.
      rewrite nth_firstn.
      replace (k <? length window)%nat with true
        by (symmetry; apply Nat.ltb_lt; lia).
      specialize (Hback (Z.of_nat k) ltac:(unfold size; lia)).
      unfold at_index in Hback. rewrite Nat2Z.id in Hback. exact Hback.
  - intros a Ha Hlen'.
    destruct (Z.lt_ge_cases a (i * FLASH_SECTOR_SIZE)) as [Hbelow | Hin].
    + rewrite Hframe by exact Hbelow. apply Hm; lia.
    + replace a with (i * FLASH_SECTOR_SIZE + (a - i * FLASH_SECTOR_SIZE)) at 1 by lia.
      assert (Hoff : 0 <= a - i * FLASH_SECTOR_SIZE < size window) by lia.
      rewrite Hdone; [ | | lia ].
      * subst window. rewrite at_index_sectorWindow by lia.
        f_equal. lia.
      * split; [ lia | ].
        assert (size window <= pageCount window * FLASH_PAGE_SIZE) by lia.
        rewrite Z.add_0_l, Z2Nat.id by lia. lia.
Qed.

(** The sectors [i], [i+1], ... of the image on the ideal bench: each is
    programmed and read back once, in this order, and the array ends up
    holding the image. *)
Lemma bench_sectors (fuel : nat) (r : nat) :
  forall (i : Z) (m : Z -> Z) (status : FT4222_STATUS) (readBuffer : list Z),
    0 <= i -> Z.of_nat r = sectorCount fileBuffer - i ->
    holds_image fileBuffer m (i * FLASH_SECTOR_SIZE) ->
    exists m' readBacks,
      @ProgramFlash_for header Bench bench_driver r (S fuel) fileBuffer i
                        (i * FLASH_SECTOR_SIZE) status readBuffer (chip m false 0 [] b)
      = (imageEvents (sleptPolls (repeat 1 (latency b)) ++ pollEvents 0)
                     fileBuffer i readBacks,
         chip m' false 0 [] b,
         Some (match r with O => status | S _ => FT4222_OK end))
      /\ length readBacks = r
      /\ (forall k, (k < r)%nat ->
                    length (nth k readBacks []) = Z.to_nat FLASH_SECTOR_SIZE /\
                    firstn (length (sectorWindow fileBuffer (i + Z.of_nat k)))
                           (nth k readBacks [])
                    = sectorWindow fileBuffer (i + Z.of_nat k))
      /\ holds_image fileBuffer m' (sectorCount fileBuffer * FLASH_SECTOR_SIZE).
Proof.
  induction r as [ | r IH ]; intros i m status readBuffer Hi Hr Hm.
  - exists m, []. cbn [ProgramFlash_for imageEvents length].
    split; [ reflexivity | split; [ reflexivity | split ] ].
    + intros k Hk. lia.
    + replace (sectorCount fileBuffer) with i by lia. exact Hm.
  - cbn [ProgramFlash_for]. unfold bind.
    destruct (bench_attempt fuel i readBuffer m ltac:(lia) Hm)
      as (m1 & readBack & Hrun & Hlen & Hread & Hm1).
    rewrite Hrun. clear Hrun.
    replace (i * FLASH_SECTOR_SIZE + FLASH_SECTOR_SIZE)
      with ((i + 1) * FLASH_SECTOR_SIZE) by lia.
    destruct (IH (i + 1) m1 FT4222_OK readBack ltac:(lia) ltac:(lia) Hm1)
      as (m' & readBacks & Hrun & Hlens & Hreads & Hm').
    rewrite Hrun. clear Hrun.
    exists m', (readBack :: readBacks).
    split; [ | split; [ | split; [ | exact Hm' ] ] ].
    + cbn [imageEvents]. destruct r; reflexivity.
    + cbn [length]. congruence.
    + intros [ | k ] Hk; cbn [nth].
      * rewrite Z.add_0_r. split; assumption.
      * replace (i + Z.of_nat (S k)) with (i + 1 + Z.of_nat k) by lia.
        apply Hreads. lia.
Qed.

End Ideal.

Lemma idleBench_chip (b : Bench) :
  idleBench b -> b = chip (cells b) false 0 [] b.
Proof.
  destruct b as [m w busy sh g l st]. unfold idleBench. cbn.
  intros (-> & -> & ->). reflexivity.
Qed.

Lemma geometryFits_page :
  geometryFits -> FLASH_PAGE_SIZE <= FLASH_SECTOR_SIZE.
Proof.
  intros (HP & HS & HS0 & _).
  apply Z.mod_divide in HS; [ | lia ]. destruct HS as [q Hq].
  destruct (Z.le_gt_cases q 0) as [Hq0 | Hq1].
  - assert (q * FLASH_PAGE_SIZE <= 0) by (apply Z.mul_nonpos_nonneg; lia). lia.
  - assert (1 * FLASH_PAGE_SIZE <= q * FLASH_PAGE_SIZE)
      by (apply Z.mul_le_mono_nonneg_r; lia).
    lia.
Qed.

(** The run of [ProgramFlash] on an ideal bench, in full. *)
Lemma bench_ProgramFlash (fuel : nat) (fileBuffer : list Z) (b : Bench) :
  geometryFits -> opcodesTellApart ->
  MAX_SECTOR_PROGRAM_ATTEMPTS <> 1 ->
  idealBench b ->
  0 < size fileBuffer <= 2 ^ 24 ->
  (0 < fuel)%nat ->
  exists m' readBacks,
    @ProgramFlash header Bench bench_driver fuel fileBuffer b
    = (imageEvents (sleptPolls (repeat 1 (latency b)) ++ pollEvents 0)
                   fileBuffer 0 readBacks,
       chip m' false 0 [] b, Some FT4222_OK)
    /\ length readBacks = Z.to_nat (sectorCount fileBuffer)
    /\ (forall k, (k < length readBacks)%nat ->
                  length (nth k readBacks []) = Z.to_nat FLASH_SECTOR_SIZE /\
                  firstn (length (sectorWindow fileBuffer (Z.of_nat k)))
                         (nth k readBacks [])
                  = sectorWindow fileBuffer (Z.of_nat k))
    /\ holds_image fileBuffer m' (size fileBuffer).
Proof.
  intros Hgeo (Hop1 & Hop2) Hmax (Hidle & Hglitch & Hlat) Hlen Hfuel.
  pose proof (geometryFits_page Hgeo) as HPS.
  destruct Hgeo as (HP & HSP & HS0 & HS).
  destruct fuel as [ | fuel ]; [ lia | ].
  assert (HS64 : 0 < FLASH_SECTOR_SIZE < 2 ^ 64) by lia.
  assert (Hlen64 : 0 < size fileBuffer < 2 ^ 64) by lia.
  pose proof (sectorCount_bounds fileBuffer HS64 Hlen64) as [Hn Hnlen].
  unfold ProgramFlash.
  pose proof (idleBench_chip b Hidle) as Hb.
  destruct (bench_sectors HP ltac:(lia) Hop1 HS0 HS Hop2 HSP Hmax fileBuffer
                          ltac:(lia) ltac:(lia) b Hglitch Hlat fuel
                          (Z.to_nat (sectorCount fileBuffer)) 0 (cells b)
                          FT4222_OK [] ltac:(lia) ltac:(lia))
    as (m' & readBacks & Hrun & Hlens & Hreads & Hm').
  { intros a Ha. lia. }
  change (0 * FLASH_SECTOR_SIZE) with 0 in Hrun.
  rewrite <- Hb in Hrun.
  exists m', readBacks. rewrite Hrun.
  split; [ | split; [ exact Hlens | split ] ].
  - destruct (Z.to_nat (sectorCount fileBuffer)); reflexivity.
  - intros k Hk. rewrite Hlens in Hk. apply (Hreads k Hk).
  - intros a Ha Ha'. apply Hm'; lia.
Qed.

(** C1.  On an ideal bench (every transfer succeeds, the chip stores what it
    is sent, answers reads with what it stores and gets ready within the
    polling budget), with pages that tile the sectors, a sector that fits one
    16-bit transfer, opcodes the chip can tell apart and more than one
    program attempt allowed per sector: for every image of [0 < len <= 2^24]
    bytes, [ProgramFlash] returns [FT4222_OK] (one round of each
    [while (!success)] loop is enough), and afterwards the flash addresses
    [0 .. len-1] hold exactly the bytes of the image. *)
Theorem ProgramFlash_stores_image (fuel : nat) (fileBuffer : list Z) (b : Bench) :
  geometryFits -> opcodesTellApart ->
  MAX_SECTOR_PROGRAM_ATTEMPTS <> 1 ->
  idealBench b ->
  0 < size fileBuffer <= 2 ^ 24 ->
  (0 < fuel)%nat ->
  value_of (@ProgramFlash header Bench bench_driver fuel fileBuffer b)
  = Some FT4222_OK
  /\ flash_contents
       (handle_of (@ProgramFlash header Bench bench_driver fuel fileBuffer b))
       (length fileBuffer)
     = fileBuffer.
Proof.
  intros Hgeo Hop Hmax Hideal Hlen Hfuel.
  destruct (bench_ProgramFlash fuel fileBuffer b Hgeo Hop Hmax Hideal Hlen Hfuel)
    as (m' & readBacks & Hrun & _ & _ & Hm').
  rewrite Hrun. unfold value_of, handle_of. cbn [fst snd].
  split; [ reflexivity | ].
  unfold flash_contents. cbn [cells chip].
  apply (nth_ext _ _ 0 0).
  - rewrite length_map, length_seq. reflexivity.
  - intros k Hk. rewrite length_map, length_seq in Hk.
    rewrite (nth_indep _ 0 (m' (Z.of_nat 0)))
      by (rewrite length_map, length_seq; exact Hk).
    rewrite (map_nth (fun k => m' (Z.of_nat k))).
    rewrite seq_nth by exact Hk. cbn [Nat.add].
    rewrite Hm' by (unfold size; lia).
    unfold at_index. rewrite Nat2Z.id. reflexivity.
Qed.



End BenchRun.

(** ** Waiting and erasing on the bench *)

Section BenchErase.

Context {header : IceBoardHeader}.

(** ** Waiting, on the bench *)

Lemma bench_wait_timeout (n : nat) :
  forall (busy : nat) (x : Z) (m : Z -> Z) (b : Bench),
    (n <= busy)%nat ->
    @WaitForFlashReady_loop header Bench bench_driver n [x] (chip m false busy [] b)
    = (sleptPolls (repeat 1 n) ++ [EvTimeout], chip m false (busy - n) [] b,
       FT4222_TIME_OUT_ERROR).
Proof.
  induction n as [ | n IH ]; intros busy x m b Hn.
  - cbn. rewrite Nat.sub_0_r. reflexivity.
  - destruct busy as [ | busy ]; [ lia | ].
    cbn [WaitForFlashReady_loop]. unfold orReturn, bind.
    rewrite bench_WriteSPI by lia.
    change (with_shifted (chip m false (S busy) [] b)
              (shifted (chip m false (S busy) [] b)
               ++ wire (chip m false (S busy) [] b) [ReadStatusRegisterCmd] 1))
      with (chip m false (S busy) [ReadStatusRegisterCmd] b).
    change (size [x]) with 1. cbn [is_ok].
    rewrite bench_status_poll.
    cbn [negb is_ok status_register chip busyPolls writeEnabled Nat.ltb Nat.leb
         Z.add at_index Z.to_nat nth Z.land Pos.land Z.of_N Z.eqb Nat.pred emit].
    rewrite IH by lia. reflexivity.
Qed.

(** X14.  On the bench, with a chip that answers "busy" to the next [busy]
    status reads: [WaitForFlashReady] returns [FT4222_OK] exactly when
    [busy < MAX_WAIT_TIME_MS]; it then made [busy + 1] polls and slept [busy]
    times.  A chip that needs [MAX_WAIT_TIME_MS] polls or more is given up on
    after exactly [MAX_WAIT_TIME_MS] polls, each followed by [Sleep(1)], with
    [FT4222_TIME_OUT_ERROR]. *)
Theorem WaitForFlashReady_waits_out_the_budget (busy : nat) (m : Z -> Z) (b : Bench) :
  let budget := Z.to_nat MAX_WAIT_TIME_MS in
  let r := @WaitForFlashReady header Bench bench_driver (chip m false busy [] b) in
  ((busy < budget)%nat ->
   r = (sleptPolls (repeat 1 busy) ++ pollEvents 0, chip m false 0 [] b, FT4222_OK))
  /\
  ((budget <= busy)%nat ->
   r = (sleptPolls (repeat 1 budget) ++ [EvTimeout], chip m false (busy - budget) [] b,
        FT4222_TIME_OUT_ERROR))
  /\
  (value_of r = FT4222_OK <-> (busy < budget)%nat).
Proof.
  intros budget r. subst r. unfold WaitForFlashReady. fold budget.
  assert (Hready : (busy < budget)%nat ->
                   @WaitForFlashReady_loop header Bench bench_driver budget [0]
                                           (chip m false busy [] b)
                   = (sleptPolls (repeat 1 busy) ++ pollEvents 0, chip m false 0 [] b,
                      FT4222_OK))
    by (intros Hlt; apply bench_wait; exact Hlt).
  assert (Hgiveup : (budget <= busy)%nat ->
                    @WaitForFlashReady_loop header Bench bench_driver budget [0]
                                            (chip m false busy [] b)
                    = (sleptPolls (repeat 1 budget) ++ [EvTimeout],
                       chip m false (busy - budget) [] b, FT4222_TIME_OUT_ERROR))
    by (intros Hle; apply bench_wait_timeout; exact Hle).
  split; [ exact Hready | split; [ exact Hgiveup | ] ].
  destruct (Nat.lt_ge_cases busy budget) as [Hlt | Hle].
  - rewrite (Hready Hlt). split; [ intros _; exact Hlt | reflexivity ].
  - rewrite (Hgiveup Hle). unfold value_of. cbn [snd].
    split; [ discriminate | lia ].
Qed.

(** ** Erasing, on the bench *)

Lemma execute_sector_erase (m : Z -> Z) (b : Bench) (address : Z) :
  SectorEraseCmd <> WriteEnableCmd -> SectorEraseCmd <> PageProgramCmd ->
  execute (chip m true 0 [] b) (SectorEraseCmd :: IntToByteVec address)
  = chip (erase_sector m (address mod 2 ^ 24)) false (latency b) [] b.
Proof.
  intros Hwe Hpp. unfold execute. cbn [busyPolls chip Nat.ltb Nat.leb writeEnabled negb].
  destruct (Z.eqb_spec SectorEraseCmd WriteEnableCmd) as [ | _ ]; [ contradiction | ].
  destruct (Z.eqb_spec SectorEraseCmd PageProgramCmd) as [ | _ ]; [ contradiction | ].
  rewrite Z.eqb_refl.
  change (firstn 3 (IntToByteVec address)) with (IntToByteVec address).
  rewrite IntToByteVec_decode. reflexivity.
Qed.

Lemma execute_chip_erase (m : Z -> Z) (b : Bench) :
  ChipEraseCmd <> WriteEnableCmd -> ChipEraseCmd <> PageProgramCmd ->
  ChipEraseCmd <> SectorEraseCmd ->
  execute (chip m true 0 [] b) [ChipEraseCmd]
  = chip (fun _ => 0xFF) false (latency b) [] b.
Proof.
  intros Hwe Hpp Hse. unfold execute.
  cbn [busyPolls chip Nat.ltb Nat.leb writeEnabled negb].
  destruct (Z.eqb_spec ChipEraseCmd WriteEnableCmd) as [ | _ ]; [ contradiction | ].
  destruct (Z.eqb_spec ChipEraseCmd PageProgramCmd) as [ | _ ]; [ contradiction | ].
  destruct (Z.eqb_spec ChipEraseCmd SectorEraseCmd) as [ | _ ]; [ contradiction | ].
  rewrite Z.eqb_refl. reflexivity.
Qed.

Lemma bench_EraseSector (sectorIndex : Z) (m : Z -> Z) (b : Bench) :
  SectorEraseCmd <> WriteEnableCmd -> SectorEraseCmd <> PageProgramCmd ->
  (latency b < Z.to_nat MAX_WAIT_TIME_MS)%nat ->
  @EraseSector header Bench bench_driver sectorIndex (chip m false 0 [] b)
  = ([ EvWrite [WriteEnableCmd] 1 true FT4222_OK;
       EvWrite (SectorEraseCmd :: IntToByteVec (sectorIndex * FLASH_SECTOR_SIZE))
               4 true FT4222_OK ]
     ++ sleptPolls (repeat 1 (latency b)) ++ pollEvents 0,
     chip (erase_sector m ((sectorIndex * FLASH_SECTOR_SIZE) mod 2 ^ 24)) false 0 [] b,
     FT4222_OK).
Proof.
  intros Hwe Hpp Hlat.
  unfold EraseSector, WriteEnableFlash, orReturn, bind.
  rewrite bench_WriteSPI by lia. cbn [is_ok ret].
  change (execute (with_shifted (chip m false 0 [] b) [])
            (shifted (chip m false 0 [] b)
             ++ wire (chip m false 0 [] b) [WriteEnableCmd] 1))
    with (execute (chip m false 0 [] b) [WriteEnableCmd]).
  rewrite execute_write_enable.
  rewrite bench_WriteSPI by (cbn; lia). cbn [is_ok].
  rewrite wire_exact.
  change (execute (with_shifted (chip m true 0 [] b) [])
            (shifted (chip m true 0 [] b)
             ++ SectorEraseCmd :: IntToByteVec (sectorIndex * FLASH_SECTOR_SIZE)))
    with (execute (chip m true 0 [] b)
                  (SectorEraseCmd :: IntToByteVec (sectorIndex * FLASH_SECTOR_SIZE))).
  rewrite execute_sector_erase by assumption.
  unfold WaitForFlashReady.
  rewrite bench_wait by exact Hlat.
  cbn [is_ok ret app]. rewrite !app_nil_r. reflexivity.
Qed.

Lemma bench_EraseFlash (m : Z -> Z) (b : Bench) :
  ChipEraseCmd <> WriteEnableCmd -> ChipEraseCmd <> PageProgramCmd ->
  ChipEraseCmd <> SectorEraseCmd ->
  (latency b < Z.to_nat MAX_WAIT_TIME_MS)%nat ->
  @EraseFlash header Bench bench_driver (chip m false 0 [] b)
  = ([ EvWrite [WriteEnableCmd] 1 true FT4222_OK;
       EvWrite [ChipEraseCmd] 1 true FT4222_OK ]
     ++ sleptPolls (repeat 1 (latency b)) ++ pollEvents 0,
     chip (fun _ => 0xFF) false 0 [] b,
     FT4222_OK).
Proof.
  intros Hwe Hpp Hse Hlat.
  unfold EraseFlash, WriteEnableFlash, orReturn, bind.
  rewrite bench_WriteSPI by lia. cbn [is_ok ret].
  change (execute (with_shifted (chip m false 0 [] b) [])
            (shifted (chip m false 0 [] b)
             ++ wire (chip m false 0 [] b) [WriteEnableCmd] 1))
    with (execute (chip m false 0 [] b) [WriteEnableCmd]).
  rewrite execute_write_enable.
  rewrite bench_WriteSPI by lia. cbn [is_ok].
  change (execute (with_shifted (chip m true 0 [] b) [])
            (shifted (chip m true 0 [] b) ++ wire (chip m true 0 [] b) [ChipEraseCmd] 1))
    with (execute (chip m true 0 [] b) [ChipEraseCmd]).
  rewrite execute_chip_erase by assumption.
  unfold WaitForFlashReady.
  rewrite bench_wait by exact Hlat.
  cbn [is_ok ret app]. rewrite !app_nil_r. reflexivity.
Qed.

Lemma erase_sector_cells (m : Z -> Z) (i a : Z) :
  0 < FLASH_SECTOR_SIZE ->
  erase_sector m (i * FLASH_SECTOR_SIZE) a
  = if (i * FLASH_SECTOR_SIZE <=? a) && (a <? (i + 1) * FLASH_SECTOR_SIZE)
    then 0xFF else m a.
Proof.
  intros HS. unfold erase_sector. rewrite Z.div_mul by lia.
  destruct (Z.eqb_spec (a / FLASH_SECTOR_SIZE) i) as [Heq | Hne].
  - replace ((i * FLASH_SECTOR_SIZE <=? a) && (a <? (i + 1) * FLASH_SECTOR_SIZE))
      with true; [ reflexivity | ].
    symmetry. apply andb_true_intro.
    assert (Hnz : FLASH_SECTOR_SIZE <> 0) by lia.
    pose proof (Z.div_mod a FLASH_SECTOR_SIZE Hnz) as Hdm.
    pose proof (Z.mod_pos_bound a FLASH_SECTOR_SIZE HS) as Hm.
    rewrite Heq in Hdm.
    split; [ apply Z.leb_le | apply Z.ltb_lt ]; lia.
  - replace ((i * FLASH_SECTOR_SIZE <=? a) && (a <? (i + 1) * FLASH_SECTOR_SIZE))
      with false; [ reflexivity | ].
    symmetry. apply andb_false_iff.
    destruct (Z.le_gt_cases (i * FLASH_SECTOR_SIZE) a) as [Hle | Hgt];
      [ right | left; apply Z.leb_gt; exact Hgt ].
    apply Z.ltb_ge.
    destruct (Z.le_gt_cases ((i + 1) * FLASH_SECTOR_SIZE) a) as [ | Hlt ];
      [ assumption | exfalso ].
    apply Hne. symmetry. apply (Z.div_unique a FLASH_SECTOR_SIZE i (a - i * FLASH_SECTOR_SIZE));
      lia.
Qed.

(** X10.  Erasing on the bench (idle chip, ready within the polling budget,
    erase opcodes the chip can tell apart).  [EraseSector] returns
    [FT4222_OK], leaves the chip idle, sets every cell of the sector (the
    addresses from [sectorIndex * FLASH_SECTOR_SIZE] up to the next sector) to
    [0xFF] and changes no other cell.  [EraseFlash] returns [FT4222_OK] and
    leaves every cell at [0xFF]. *)
Theorem erase_on_the_bench (b : Bench) :
  0 < FLASH_SECTOR_SIZE ->
  idleBench b -> (latency b < Z.to_nat MAX_WAIT_TIME_MS)%nat ->
  (sectorEraseTellsApart ->
   forall sectorIndex,
     0 <= sectorIndex * FLASH_SECTOR_SIZE < 2 ^ 24 ->
     let r := @EraseSector header Bench bench_driver sectorIndex b in
     value_of r = FT4222_OK /\ idleBench (handle_of r) /\
     forall a,
       cells (handle_of r) a
       = if (sectorIndex * FLASH_SECTOR_SIZE <=? a)
            && (a <? (sectorIndex + 1) * FLASH_SECTOR_SIZE)
         then 0xFF else cells b a)
  /\
  (chipEraseTellsApart ->
   let r := @EraseFlash header Bench bench_driver b in
   value_of r = FT4222_OK /\ idleBench (handle_of r) /\
   forall a, cells (handle_of r) a = 0xFF).
Proof.
  intros HS Hidle Hlat.
  pose proof (idleBench_chip b Hidle) as Hb.
  split.
  - intros (Hse1 & Hse2) sectorIndex Haddr r. subst r.
    pose proof (bench_EraseSector sectorIndex (cells b) b Hse1 Hse2 Hlat) as Hrun.
    rewrite <- Hb in Hrun. rewrite Hrun.
    unfold value_of, handle_of. cbn [fst snd].
    split; [ reflexivity | split; [ repeat split | ] ].
    intros a. cbn [cells chip].
    rewrite Z.mod_small by exact Haddr.
    apply erase_sector_cells. exact HS.
  - intros (Hce1 & Hce2 & Hce3) r. subst r.
    pose proof (bench_EraseFlash (cells b) b Hce1 Hce2 Hce3 Hlat) as Hrun.
    rewrite <- Hb in Hrun. rewrite Hrun.
    unfold value_of, handle_of. cbn [fst snd].
    split; [ reflexivity | split; [ repeat split | ] ].
    intros a. reflexivity.
Qed.

(** X11.  On the bench, [ReadSectorFlash] returns [FT4222_OK] and the content
    of the cells [sectorIndex * FLASH_SECTOR_SIZE] up to the next sector, in
    order, whatever buffer it was handed; the chip is left as it was found. *)
Theorem ReadSectorFlash_reads_the_sector
        (sectorIndex : Z) (readBuffer : list Z) (b : Bench) :
  0 < FLASH_SECTOR_SIZE < 65536 -> ReadCmd <> ReadStatusRegisterCmd ->
  idleBench b -> glitches b = 0%nat ->
  0 <= sectorIndex -> (sectorIndex + 1) * FLASH_SECTOR_SIZE <= 2 ^ 24 ->
  let r := @ReadSectorFlash header Bench bench_driver sectorIndex readBuffer b in
  value_of r
  = (FT4222_OK,
     map (fun k => cells b (sectorIndex * FLASH_SECTOR_SIZE + Z.of_nat k))
         (seq 0 (Z.to_nat FLASH_SECTOR_SIZE)))
  /\ handle_of r = b.
Proof.
  intros [HS0 HS] Hrs Hidle Hglitch Hi Hend r. subst r.
  pose proof (idleBench_chip b Hidle) as Hb.
  pose proof (bench_ReadSectorFlash HS0 HS Hrs sectorIndex readBuffer (cells b) b Hglitch)
    as Hrun.
  rewrite <- Hb in Hrun. rewrite Hrun.
  unfold value_of, handle_of. cbn [fst snd].
  split; [ | reflexivity ].
  f_equal. unfold array_read.
  apply map_ext_in. intros k Hk. apply in_seq in Hk.
  assert (H0 : 0 <= sectorIndex * FLASH_SECTOR_SIZE)
    by (apply Z.mul_nonneg_nonneg; lia).
  rewrite (Z.mod_small (sectorIndex * FLASH_SECTOR_SIZE)) by lia.
  rewrite Z.mod_small by lia. reflexivity.
Qed.

End BenchErase.

(** ** Validation on the bench *)

Lemma firstn_plus {A : Type} (l : list A) :
  forall (a b : nat), firstn (a + b) l = firstn a l ++ firstn b (skipn a l).
Proof.
  induction l as [ | x l IH ]; intros a b.
  - rewrite skipn_nil, !firstn_nil. reflexivity.
  - destruct a as [ | a ]; [ reflexivity | ].
    cbn [Nat.add firstn skipn app]. rewrite IH. reflexivity.
Qed.

Section BenchValidate.

Context {header : IceBoardHeader}.

(** The cells [0 .. n-1] of an array, as a list. *)
Lemma array_read_contents (m : Z -> Z) (b : Bench) (p count : Z) (n : nat) :
  0 <= p -> 0 <= count -> p + count <= Z.of_nat n -> Z.of_nat n <= 2 ^ 24 ->
  array_read (chip m false 0 [] b) p count
  = firstn (Z.to_nat count)
           (skipn (Z.to_nat p) (map (fun k => m (Z.of_nat k)) (seq 0 n))).
Proof.
  intros Hp Hc Hn Hcap. unfold array_read. cbn [cells chip].
  apply (nth_ext _ _ 0 0).
  - rewrite length_map, length_seq, length_firstn, length_skipn, length_map, length_seq.
    lia.
  - intros j Hj. rewrite length_map, length_seq in Hj.
    rewrite (nth_indep _ 0 (m ((p + Z.of_nat 0) mod 2 ^ 24)))
      by (rewrite length_map, length_seq; exact Hj).
    rewrite (map_nth (fun k => m ((p + Z.of_nat k) mod 2 ^ 24))).
    rewrite seq_nth by exact Hj. cbn [Nat.add].
    rewrite Z.mod_small by lia.
    rewrite nth_firstn.
    replace (j <? Z.to_nat count)%nat with true by (symmetry; apply Nat.ltb_lt; lia).
    rewrite nth_skipn.
    rewrite (nth_indep _ 0 (m (Z.of_nat 0)))
      by (rewrite length_map, length_seq; lia).
    rewrite (map_nth (fun k => m (Z.of_nat k))).
    rewrite seq_nth by lia. cbn [Nat.add]. f_equal. lia.
Qed.

Lemma bench_read_array (address : Z) (buffer : list Z) (count : Z)
      (m : Z -> Z) (b : Bench) :
  glitches b = 0%nat -> ReadCmd <> ReadStatusRegisterCmd ->
  0 <= count < 65536 -> length buffer = Z.to_nat count ->
  @ReadSPI Bench bench_driver buffer count true
           (chip m false 0 (ReadCmd :: IntToByteVec address) b)
  = ([EvRead count true (array_read (chip m false 0 [] b) (address mod 2 ^ 24) count)
             FT4222_OK],
     chip m false 0 [] b,
     (FT4222_OK, array_read (chip m false 0 [] b) (address mod 2 ^ 24) count)).
Proof.
  intros Hglitch Hop Hcount Hlen.
  unfold ReadSPI. cbn [FT4222_SPIMaster_SingleRead bench_driver].
  unfold bench_read. cbn [shifted chip busyPolls glitches].
  destruct (Z.eqb_spec ReadCmd ReadStatusRegisterCmd) as [ | _ ]; [ contradiction | ].
  rewrite Z.eqb_refl. cbn [andb Nat.eqb].
  rewrite Hglitch. cbn [Nat.ltb Nat.leb].
  change (firstn 3 (IntToByteVec address)) with (IntToByteVec address).
  rewrite IntToByteVec_decode.
  rewrite !uint16_small by lia.
  rewrite Z.eqb_refl. cbn [negb is_ok].
  rewrite store_into_same_length
    by (unfold array_read; rewrite length_map, length_seq; lia).
  reflexivity.
Qed.

Lemma bench_ValidateFlash_loop (fileBuffer : list Z) (m : Z -> Z) (b : Bench) (k : nat) :
  0 < MAX_READ_SIZE < 65536 -> ReadCmd <> ReadStatusRegisterCmd ->
  glitches b = 0%nat -> 0 < size fileBuffer <= 2 ^ 24 ->
  forall (i : Z) (readBuffer : list Z),
    0 <= i -> Z.of_nat k = chunkCount fileBuffer - i ->
    length readBuffer = length fileBuffer ->
    firstn (Z.to_nat (i * MAX_READ_SIZE)) readBuffer
    = firstn (Z.to_nat (i * MAX_READ_SIZE))
             (map (fun j => m (Z.of_nat j)) (seq 0 (length fileBuffer))) ->
    handle_of (@ValidateFlash_loop header Bench bench_driver k fileBuffer i
                 (i * MAX_READ_SIZE) readBuffer FT4222_OK (chip m false 0 [] b))
    = chip m false 0 [] b
    /\ value_of (@ValidateFlash_loop header Bench bench_driver k fileBuffer i
                   (i * MAX_READ_SIZE) readBuffer FT4222_OK (chip m false 0 [] b))
       = if differs (map (fun j => m (Z.of_nat j)) (seq 0 (length fileBuffer)))
                    fileBuffer
         then FT4222_CORRUPTED_UPLOAD else FT4222_OK.
Proof.
  intros HM Hop Hglitch Hlen.
  set (contents := map (fun j => m (Z.of_nat j)) (seq 0 (length fileBuffer))).
  assert (Hcontents : length contents = length fileBuffer)
    by (subst contents; rewrite length_map, length_seq; reflexivity).
  assert (HM0 : 0 < MAX_READ_SIZE) by lia.
  assert (Hlen0 : 0 < size fileBuffer < 2 ^ 31) by lia.
  destruct (chunkCount_bounds fileBuffer HM0 Hlen0) as [_ Hn].
  induction k as [ | k IH ]; intros i readBuffer Hi Hk Hrb Hprefix.
  - cbn [ValidateFlash_loop].
    assert (Hall : readBuffer = contents).
    { rewrite !firstn_all2 in Hprefix by (unfold size in *; nia). exact Hprefix. }
    rewrite Hall. destruct (differs contents fileBuffer); split; reflexivity.
  - cbn [ValidateFlash_loop]. unfold orReturn, bind.
    remember (bytesToRead fileBuffer i) as count eqn:Ecount.
    assert (Hb : 0 < count <= MAX_READ_SIZE
                 /\ i * MAX_READ_SIZE + count <= size fileBuffer
                 /\ (count = MAX_READ_SIZE
                     \/ i * MAX_READ_SIZE + count = size fileBuffer)).
    { rewrite Ecount. unfold bytesToRead. rewrite int32_size by lia.
      destruct (i =? chunkCount fileBuffer - 1) eqn:Hlast.
      - apply Z.eqb_eq in Hlast. nia.
      - apply Z.eqb_neq in Hlast. nia. }
    destruct Hb as (Hb1 & Hb2 & Hb3).
    assert (Hp0 : 0 <= i * MAX_READ_SIZE) by (apply Z.mul_nonneg_nonneg; lia).
    rewrite bench_WriteSPI by (cbn; lia). cbn [is_ok].
    rewrite wire_exact.
    change (with_shifted (chip m false 0 [] b)
              (shifted (chip m false 0 [] b)
               ++ ReadCmd :: IntToByteVec (i * MAX_READ_SIZE)))
      with (chip m false 0 (ReadCmd :: IntToByteVec (i * MAX_READ_SIZE)) b).
    rewrite bench_read_array
      by (try assumption; try lia; rewrite repeat_length; reflexivity).
    cbn [is_ok negb].
    rewrite (Z.mod_small (i * MAX_READ_SIZE)) by lia.
    rewrite (array_read_contents m b (i * MAX_READ_SIZE) count (length fileBuffer))
      by (unfold size in *; lia).
    fold contents.
    set (chunk := firstn (Z.to_nat count) (skipn (Z.to_nat (i * MAX_READ_SIZE)) contents)).
    assert (Hchunk : length chunk = Z.to_nat count).
    { subst chunk. rewrite length_firstn, length_skipn. unfold size in *. lia. }
    assert (Hcopy : copyChunk readBuffer (i * MAX_READ_SIZE) chunk count
                    = firstn (Z.to_nat (i * MAX_READ_SIZE)) readBuffer ++ chunk
                      ++ skipn (Z.to_nat (i * MAX_READ_SIZE + count)) readBuffer).
    { apply copyChunk_spec; unfold size in *; lia. }
    rewrite Hcopy. clear Hcopy.
    replace (i * MAX_READ_SIZE + MAX_READ_SIZE) with ((i + 1) * MAX_READ_SIZE) by lia.
    rewrite Hprefix.
    assert (Hjoin : firstn (Z.to_nat (i * MAX_READ_SIZE)) contents ++ chunk
                    = firstn (Z.to_nat (i * MAX_READ_SIZE + count)) contents).
    { subst chunk. rewrite <- firstn_plus. f_equal. lia. }
    rewrite app_assoc, Hjoin.
    specialize (IH (i + 1)
                   (firstn (Z.to_nat (i * MAX_READ_SIZE + count)) contents
                    ++ skipn (Z.to_nat (i * MAX_READ_SIZE + count)) readBuffer)).
    destruct IH as [IHh IHv].
    + lia.
    + lia.
    + rewrite length_app, length_firstn, length_skipn. unfold size in *. lia.
    + destruct Hb3 as [Hfull | Hend].
      * rewrite firstn_app.
        rewrite length_firstn.
        replace (Z.to_nat ((i + 1) * MAX_READ_SIZE)
                 - Nat.min (Z.to_nat (i * MAX_READ_SIZE + count)) (length contents))%nat
          with 0%nat by (unfold size in *; lia).
        cbn [firstn]. rewrite app_nil_r.
        rewrite firstn_firstn. f_equal. lia.
      * rewrite skipn_all2 by (unfold size in *; lia).
        rewrite app_nil_r.
        rewrite (@firstn_all2 _ (Z.to_nat (i * MAX_READ_SIZE + count)) contents)
          by (unfold size in *; lia).
        reflexivity.
    + destruct (@ValidateFlash_loop header Bench bench_driver k fileBuffer (i + 1)
                  ((i + 1) * MAX_READ_SIZE)
                  (firstn (Z.to_nat (i * MAX_READ_SIZE + count)) contents
                   ++ skipn (Z.to_nat (i * MAX_READ_SIZE + count)) readBuffer)
                  FT4222_OK (chip m false 0 [] b)) as [[t3 h3] v3].
      unfold handle_of, value_of in *. cbn [fst snd] in *. auto.
Qed.

Lemma bench_ValidateFlash (fileBuffer : list Z) (m : Z -> Z) (b : Bench) :
  0 < MAX_READ_SIZE < 65536 -> ReadCmd <> ReadStatusRegisterCmd ->
  glitches b = 0%nat -> 0 < size fileBuffer <= 2 ^ 24 ->
  handle_of (@ValidateFlash header Bench bench_driver fileBuffer (chip m false 0 [] b))
  = chip m false 0 [] b
  /\ value_of (@ValidateFlash header Bench bench_driver fileBuffer (chip m false 0 [] b))
     = if differs (flash_contents (chip m false 0 [] b) (length fileBuffer)) fileBuffer
       then FT4222_CORRUPTED_UPLOAD else FT4222_OK.
Proof.
  intros HM Hop Hglitch Hlen. unfold ValidateFlash.
  assert (HM0 : 0 < MAX_READ_SIZE) by lia.
  assert (Hlen0 : 0 < size fileBuffer < 2 ^ 31) by lia.
  destruct (chunkCount_bounds fileBuffer HM0 Hlen0) as [_ Hn].
  apply (bench_ValidateFlash_loop fileBuffer m b (Z.to_nat (chunkCount fileBuffer))
           HM Hop Hglitch Hlen 0 (repeat 0 (length fileBuffer))).
  - lia.
  - lia.
  - apply repeat_length.
  - reflexivity.
Qed.

Lemma length_flash_contents (b : Bench) (n : nat) : length (flash_contents b n) = n.
Proof. unfold flash_contents. rewrite length_map, length_seq. reflexivity. Qed.

(** X8.  On a bench whose reads return what the cells hold, [ValidateFlash]
    decides whether the flash holds the image: for an image of
    [0 < len <= 2^24] bytes and [0 < MAX_READ_SIZE < 65536] it returns
    [FT4222_OK] exactly when the cells [0 .. len-1] are the image, and
    [FT4222_CORRUPTED_UPLOAD] otherwise.  It leaves the chip as it found it,
    so validating again gives the same answer. *)
Theorem ValidateFlash_compares_the_flash (fileBuffer : list Z) (b : Bench) :
  0 < MAX_READ_SIZE < 65536 -> ReadCmd <> ReadStatusRegisterCmd ->
  idleBench b -> glitches b = 0%nat -> 0 < size fileBuffer <= 2 ^ 24 ->
  let r := @ValidateFlash header Bench bench_driver fileBuffer b in
  (value_of r = FT4222_OK <-> flash_contents b (length fileBuffer) = fileBuffer)
  /\ (value_of r <> FT4222_OK -> value_of r = FT4222_CORRUPTED_UPLOAD)
  /\ handle_of r = b.
Proof.
  intros HM Hop Hidle Hglitch Hlen r. subst r.
  pose proof (idleBench_chip b Hidle) as Hb.
  assert (Hg : glitches (chip (cells b) false 0 [] b) = 0%nat) by exact Hglitch.
  destruct (bench_ValidateFlash fileBuffer (cells b) b HM Hop Hglitch Hlen)
    as [Hhandle Hvalue].
  rewrite <- Hb in Hhandle, Hvalue. rewrite Hvalue.
  pose proof (differs_false (flash_contents b (length fileBuffer)) fileBuffer
                            (length_flash_contents b (length fileBuffer))) as Hd.
  split; [ | split; [ | exact Hhandle ] ].
  - destruct (differs (flash_contents b (length fileBuffer)) fileBuffer).
    + split; [ discriminate | ]. intros Heq. apply Hd in Heq. discriminate.
    + split; [ intros _; apply Hd; reflexivity | reflexivity ].
  - destruct (differs _ _); [ reflexivity | congruence ].
Qed.

(** X9.  Programming and validating compose: on the ideal bench, under the
    assumptions of C1 and with [0 < MAX_READ_SIZE < 65536], [ValidateFlash]
    run on the chip that [ProgramFlash] leaves behind returns [FT4222_OK] for
    the same image, and changes nothing. *)
Theorem ValidateFlash_accepts_what_ProgramFlash_wrote
        (fuel : nat) (fileBuffer : list Z) (b : Bench) :
  geometryFits -> opcodesTellApart ->
  MAX_SECTOR_PROGRAM_ATTEMPTS <> 1 ->
  0 < MAX_READ_SIZE < 65536 ->
  idealBench b ->
  0 < size fileBuffer <= 2 ^ 24 ->
  (0 < fuel)%nat ->
  let programmed := handle_of (@ProgramFlash header Bench bench_driver fuel fileBuffer b) in
  value_of (@ValidateFlash header Bench bench_driver fileBuffer programmed) = FT4222_OK
  /\ handle_of (@ValidateFlash header Bench bench_driver fileBuffer programmed)
     = programmed.
Proof.
  intros Hgeo Hop Hmax HM Hideal Hlen Hfuel programmed. subst programmed.
  destruct (bench_ProgramFlash fuel fileBuffer b Hgeo Hop Hmax Hideal Hlen Hfuel)
    as (m' & readBacks & Hrun & _ & _ & Hm').
  assert (Hprogrammed :
            handle_of (@ProgramFlash header Bench bench_driver fuel fileBuffer b)
            = chip m' false 0 [] b) by (rewrite Hrun; reflexivity).
  rewrite Hprogrammed. clear Hrun Hprogrammed.
  destruct Hideal as (_ & Hglitch & _). destruct Hop as [_ Hop].
  destruct (bench_ValidateFlash fileBuffer m' b HM Hop Hglitch Hlen)
    as [Hhandle Hvalue].
  split; [ | exact Hhandle ].
  rewrite Hvalue.
  assert (Hsame : flash_contents (chip m' false 0 [] b) (length fileBuffer) = fileBuffer).
  { unfold flash_contents. cbn [cells chip].
    apply (nth_ext _ _ 0 0).
    - rewrite length_map, length_seq. reflexivity.
    - intros k Hk. rewrite length_map, length_seq in Hk.
      rewrite (nth_indep _ 0 (m' (Z.of_nat 0)))
        by (rewrite length_map, length_seq; exact Hk).
      rewrite (map_nth (fun k => m' (Z.of_nat k))).
      rewrite seq_nth by exact Hk. cbn [Nat.add].
      rewrite Hm' by (unfold size; lia).
      unfold at_index. rewrite Nat2Z.id. reflexivity. }
  rewrite Hsame.
  replace (differs fileBuffer fileBuffer) with false; [ reflexivity | ].
  symmetry. apply differs_false; reflexivity.
Qed.

End BenchValidate.

(** ** Retries on the bench *)

Section BenchRetry.

Context {header : IceBoardHeader}.

Lemma lxor_inverts (x : Z) : Z.lxor x 0xFF <> x.
Proof.
  intros H.
  assert (Hx : Z.lxor (Z.lxor x 0xFF) x = 0xFF).
  { rewrite (Z.lxor_comm x 0xFF), Z.lxor_assoc, Z.lxor_nilpotent, Z.lxor_0_r.
    reflexivity. }
  rewrite H, Z.lxor_nilpotent in Hx. discriminate.
Qed.

Lemma length_invert_first (data : list Z) : length (invert_first data) = length data.
Proof. destruct data; reflexivity. Qed.

(** Page programs leave the cells behind the last page alone. *)
Lemma bench_pages_above (window : list Z) (start : Z) (b : Bench) (n : nat) :
  0 < FLASH_PAGE_SIZE -> FLASH_PAGE_SIZE < 65536 ->
  PageProgramCmd <> WriteEnableCmd ->
  (latency b < Z.to_nat MAX_WAIT_TIME_MS)%nat ->
  forall (k : Z) (m : Z -> Z) (status : FT4222_STATUS),
    (forall j, k <= j < k + Z.of_nat n ->
               0 <= (start + j) * FLASH_PAGE_SIZE < 2 ^ 24) ->
    forall a,
      (start + k + Z.of_nat n) * FLASH_PAGE_SIZE <= a ->
      cells (handle_of (@SectorProgramFlash_loop header Bench bench_driver n start
                          window k status (chip m false 0 [] b))) a
      = m a.
Proof.
  intros HP HP16 Hpe Hlat.
  induction n as [ | n IH ]; intros k m status Haddr a Ha.
  - reflexivity.
  - cbn [SectorProgramFlash_loop]. unfold orReturn, bind.
    rewrite (bench_PageProgramFlash HP HP16 Hpe)
      by (try exact Hlat; apply Haddr; lia).
    cbn [is_ok].
    assert (Hn : 0 <= Z.of_nat n * FLASH_PAGE_SIZE)
      by (apply Z.mul_nonneg_nonneg; lia).
    specialize (IH (k + 1)
                   (program_page m ((start + k) * FLASH_PAGE_SIZE) 0
                                 (wire b (pageBuffer window k) FLASH_PAGE_SIZE))
                   FT4222_OK).
    destruct (@SectorProgramFlash_loop header Bench bench_driver n start window (k + 1)
                FT4222_OK
                (chip (program_page m ((start + k) * FLASH_PAGE_SIZE) 0
                                    (wire b (pageBuffer window k) FLASH_PAGE_SIZE))
                      false 0 [] b)) as [[t2 h2] v2].
    unfold handle_of in *. cbn [fst snd] in *.
    rewrite IH.
    + rewrite program_page_aligned
        by (try lia; unfold size; rewrite wire_length; lia).
      unfold size. rewrite wire_length.
      replace (a <? (start + k) * FLASH_PAGE_SIZE + 0
                    + Z.of_nat (Z.to_nat FLASH_PAGE_SIZE)) with false
        by (symmetry; apply Z.ltb_ge; lia).
      rewrite andb_false_r. reflexivity.
    + intros j Hj. apply Haddr. lia.
    + lia.
Qed.

(** The facts about sector [i] of an image that the passes below rely on. *)
Lemma sector_on_the_bench (fileBuffer : list Z) (i : Z) :
  geometryFits -> 0 < size fileBuffer <= 2 ^ 24 ->
  0 <= i < sectorCount fileBuffer ->
  let window := sectorWindow fileBuffer i in
  0 <= i * FLASH_SECTOR_SIZE
  /\ i * FLASH_SECTOR_SIZE + size window <= size fileBuffer
  /\ 0 < size window <= FLASH_SECTOR_SIZE
  /\ i * (FLASH_SECTOR_SIZE / FLASH_PAGE_SIZE) * FLASH_PAGE_SIZE = i * FLASH_SECTOR_SIZE
  /\ 0 < pageCount window
  /\ (pageCount window - 1) * FLASH_PAGE_SIZE < size window
     <= pageCount window * FLASH_PAGE_SIZE
  /\ pageCount window * FLASH_PAGE_SIZE <= FLASH_SECTOR_SIZE
  /\ sectorBuffer fileBuffer i (i * FLASH_SECTOR_SIZE) = window
  /\ bytesToTransmit fileBuffer i = size window.
Proof.
  intros (HP & HSP & HS0 & HS) Hlen Hi window.
  assert (HS64 : 0 < FLASH_SECTOR_SIZE < 2 ^ 64) by lia.
  assert (Hlen64 : 0 < size fileBuffer < 2 ^ 64) by lia.
  pose proof (sectorCount_bounds fileBuffer HS64 Hlen64) as [Hn Hnlen].
  assert (Hi0 : 0 <= i) by lia.
  pose proof (size_sectorWindow fileBuffer i HS0 Hi0) as Hwsize.
  fold window in Hwsize.
  assert (HiS0 : 0 <= i * FLASH_SECTOR_SIZE) by (apply Z.mul_nonneg_nonneg; lia).
  assert (HiS : i * FLASH_SECTOR_SIZE < size fileBuffer).
  { assert (i * FLASH_SECTOR_SIZE <= (sectorCount fileBuffer - 1) * FLASH_SECTOR_SIZE)
      by (apply Z.mul_le_mono_nonneg_r; lia).
    lia. }
  assert (Hw : 0 < size window <= FLASH_SECTOR_SIZE) by lia.
  assert (Hwint : size window < 2 ^ 31) by lia.
  pose proof (pageCount_ceil window HP HSP Hw Hwint) as Hpc.
  assert (Hw0 : 0 < size window) by lia.
  pose proof (ceilDiv_bounds (size window) FLASH_PAGE_SIZE HP Hw0) as Hpcb.
  rewrite <- Hpc in Hpcb.
  assert (Hdiv : FLASH_SECTOR_SIZE / FLASH_PAGE_SIZE * FLASH_PAGE_SIZE
                 = FLASH_SECTOR_SIZE).
  { pose proof HSP as Hd. apply Z.mod_divide in Hd; [ | lia ].
    destruct Hd as [q Hq]. rewrite Hq, Z.div_mul by lia. reflexivity. }
  split; [ exact HiS0 | ].
  split; [ lia | ].
  split; [ exact Hw | ].
  split; [ rewrite <- Z.mul_assoc, Hdiv; reflexivity | ].
  split; [ lia | ].
  split; [ lia | ].
  split.
  { destruct (Z.le_gt_cases (pageCount window) (FLASH_SECTOR_SIZE / FLASH_PAGE_SIZE))
      as [Hle | Hgt].
    - rewrite <- Hdiv. apply Z.mul_le_mono_nonneg_r; lia.
    - exfalso.
      assert (FLASH_SECTOR_SIZE / FLASH_PAGE_SIZE * FLASH_PAGE_SIZE
              <= (pageCount window - 1) * FLASH_PAGE_SIZE)
        by (apply Z.mul_le_mono_nonneg_r; lia).
      lia. }
  split; [ apply sectorBuffer_window; assumption | ].
  apply bytesToTransmit_window; [ assumption | assumption | assumption | lia ].
Qed.

(** On the bench the iterators of every sector delimit a range of the
    image. *)
Lemma bench_valid_range (fileBuffer : list Z) (i : Z) :
  geometryFits ->
  0 < size fileBuffer <= 2 ^ 24 ->
  0 <= i < sectorCount fileBuffer ->
  valid_range fileBuffer (i * FLASH_SECTOR_SIZE)
              (sectorLast fileBuffer i (i * FLASH_SECTOR_SIZE)) = true.
Proof.
  intros (HP & HSP & HS0 & HS) Hlen Hi.
  apply sectorLast_valid_range; [ lia | lia | exact Hi ].
Qed.

(** Programming the window of sector [i] on the bench: the cells outside the
    window's pages keep their content, the window's bytes are in place. *)
Lemma bench_program_sector (fileBuffer : list Z) (i : Z) (m : Z -> Z) (b : Bench) :
  geometryFits -> PageProgramCmd <> WriteEnableCmd ->
  0 < size fileBuffer <= 2 ^ 24 ->
  0 <= i < sectorCount fileBuffer ->
  (latency b < Z.to_nat MAX_WAIT_TIME_MS)%nat ->
  let window := sectorWindow fileBuffer i in
  exists t m',
    @SectorProgramFlash header Bench bench_driver i window (chip m false 0 [] b)
    = (t, chip m' false 0 [] b, FT4222_OK)
    /\ (forall a, a < i * FLASH_SECTOR_SIZE -> m' a = m a)
    /\ (forall a, i * FLASH_SECTOR_SIZE + pageCount window * FLASH_PAGE_SIZE <= a ->
                  m' a = m a)
    /\ (forall j, 0 <= j < size window ->
                  m' (i * FLASH_SECTOR_SIZE + j) = at_index window j).
Proof.
  intros Hgeo Hpe Hlen Hi Hlat window.
  destruct (sector_on_the_bench fileBuffer i Hgeo Hlen Hi)
    as (HiS0 & Hwend & Hw & Hstart & Hpc0 & Hpcb & Hpcs & _ & _).
  fold window in Hwend, Hw, Hpc0, Hpcb, Hpcs.
  pose proof (geometryFits_page Hgeo) as HPS.
  destruct Hgeo as (HP & HSP & HS0 & HS).
  assert (HP16 : FLASH_PAGE_SIZE < 65536) by lia.
  assert (Hquot : Z.quot FLASH_SECTOR_SIZE FLASH_PAGE_SIZE
                  = FLASH_SECTOR_SIZE / FLASH_PAGE_SIZE)
    by (apply Z.quot_div_nonneg; lia).
  assert (Haddr : forall j, 0 <= j < 0 + Z.of_nat (Z.to_nat (pageCount window)) ->
                    0 <= (i * (FLASH_SECTOR_SIZE / FLASH_PAGE_SIZE) + j)
                         * FLASH_PAGE_SIZE < 2 ^ 24).
  { intros j Hj. rewrite Z.mul_add_distr_r, Hstart.
    assert (0 <= j * FLASH_PAGE_SIZE) by (apply Z.mul_nonneg_nonneg; lia).
    assert (j * FLASH_PAGE_SIZE <= (pageCount window - 1) * FLASH_PAGE_SIZE)
      by (apply Z.mul_le_mono_nonneg_r; lia).
    lia. }
  unfold SectorProgramFlash. rewrite Hquot.
  assert (Hk0 : 0 <= 0) by lia.
  destruct (bench_pages HP HP16 Hpe window (i * (FLASH_SECTOR_SIZE / FLASH_PAGE_SIZE))
                        b m (Z.to_nat (pageCount window)) Hlat 0 m FT4222_OK Hk0)
    as (m' & Hrun & Hframe & Hdone).
  { intros j Hj. split; [ apply Haddr; exact Hj | ].
    apply pageBuffer_chunk; auto; lia. }
  { reflexivity. }
  { intros j Hj. lia. }
  pose proof (bench_pages_above window (i * (FLASH_SECTOR_SIZE / FLASH_PAGE_SIZE)) b
                (Z.to_nat (pageCount window)) HP HP16 Hpe Hlat 0 m FT4222_OK Haddr)
    as Habove.
  rewrite Hrun in Habove. unfold handle_of in Habove. cbn [fst snd cells chip] in Habove.
  rewrite Hstart in Hframe, Hdone.
  exists (pagesEvents (pageBuffer window) (i * (FLASH_SECTOR_SIZE / FLASH_PAGE_SIZE)) 0
            (repeat (sleptPolls (repeat 1 (latency b)) ++ pollEvents 0)
                    (Z.to_nat (pageCount window)))), m'.
  split; [ | split; [ exact Hframe | split ] ].
  - rewrite Hrun. destruct (Z.to_nat (pageCount window)); reflexivity.
  - intros a Ha. apply Habove.
    rewrite Z.add_0_r, Z2Nat.id by lia.
    rewrite Z.mul_add_distr_r, Hstart. exact Ha.
  - intros j Hj. apply Hdone; [ | lia ].
    rewrite Z.add_0_l, Z2Nat.id by lia. lia.
Qed.

(** What is read back from sector [i] once its window is in place. *)
Lemma read_back_window (fileBuffer : list Z) (i : Z) (m : Z -> Z) (b : Bench) :
  geometryFits -> 0 < size fileBuffer <= 2 ^ 24 ->
  0 <= i < sectorCount fileBuffer ->
  (forall j, 0 <= j < size (sectorWindow fileBuffer i) ->
             m (i * FLASH_SECTOR_SIZE + j) = at_index (sectorWindow fileBuffer i) j) ->
  forall j, 0 <= j < size (sectorWindow fileBuffer i) ->
    at_index (array_read (chip m false 0 [] b) (i * FLASH_SECTOR_SIZE) FLASH_SECTOR_SIZE) j
    = at_index (sectorWindow fileBuffer i) j.
Proof.
  intros Hgeo Hlen Hi Hdone j Hj.
  destruct (sector_on_the_bench fileBuffer i Hgeo Hlen Hi)
    as (HiS0 & Hwend & Hw & _).
  unfold array_read, at_index. cbn [cells chip].
  rewrite (nth_indep _ 0 (m ((i * FLASH_SECTOR_SIZE + Z.of_nat 0) mod 2 ^ 24)))
    by (rewrite length_map, length_seq; lia).
  rewrite (map_nth (fun k => m ((i * FLASH_SECTOR_SIZE + Z.of_nat k) mod 2 ^ 24))).
  rewrite seq_nth by lia. cbn [Nat.add].
  rewrite Z2Nat.id by lia.
  rewrite Z.mod_small by lia.
  apply Hdone. exact Hj.
Qed.

(** A pass over sector [i] whose read-back is not disturbed: the window is
    programmed, verified, and the loop is left. *)
Lemma bench_pass_verified (fuel : nat) (fileBuffer : list Z) (i attempts : Z)
      (readBuffer : list Z) (m : Z -> Z) (b : Bench) :
  geometryFits -> opcodesTellApart ->
  0 < size fileBuffer <= 2 ^ 24 ->
  0 <= i < sectorCount fileBuffer ->
  (latency b < Z.to_nat MAX_WAIT_TIME_MS)%nat ->
  glitches b = 0%nat ->
  attempts + 1 <> MAX_SECTOR_PROGRAM_ATTEMPTS ->
  let window := sectorWindow fileBuffer i in
  exists t m' readBack,
    @ProgramFlash_while header Bench bench_driver (S fuel) fileBuffer i
                        (i * FLASH_SECTOR_SIZE) attempts readBuffer (chip m false 0 [] b)
    = (t, chip m' false 0 [] b, Some (Left FT4222_OK readBack))
    /\ (forall a, a < i * FLASH_SECTOR_SIZE -> m' a = m a)
    /\ (forall a, i * FLASH_SECTOR_SIZE + pageCount window * FLASH_PAGE_SIZE <= a ->
                  m' a = m a)
    /\ (forall j, 0 <= j < size window ->
                  m' (i * FLASH_SECTOR_SIZE + j) = at_index window j).
Proof.
  intros Hgeo (Hpe & Hrs) Hlen Hi Hlat Hglitch Hattempts window.
  destruct (sector_on_the_bench fileBuffer i Hgeo Hlen Hi)
    as (HiS0 & Hwend & Hw & _ & _ & _ & _ & Hbuffer & Hbytes).
  fold window in Hwend, Hw, Hbuffer, Hbytes.
  destruct (bench_program_sector fileBuffer i m b Hgeo Hpe Hlen Hi Hlat)
    as (t1 & m1 & Hrun & Hbelow & Habove & Hdone).
  fold window in Hrun, Habove, Hdone.
  pose proof (read_back_window fileBuffer i m1 b Hgeo Hlen Hi Hdone) as Hback.
  fold window in Hback.
  pose proof (bench_valid_range fileBuffer i Hgeo Hlen Hi) as Hrange.
  destruct Hgeo as (HP & HSP & HS0 & HS).
  cbn [ProgramFlash_while]. rewrite Hrange. cbn [negb]. unfold bind.
  rewrite Hbuffer, Hbytes, Hrun. cbn [is_ok negb].
  rewrite (bench_ReadSectorFlash HS0 HS Hrs) by exact Hglitch.
  cbn [is_ok negb].
  rewrite (Z.mod_small (i * FLASH_SECTOR_SIZE)) by lia.
  set (readBack := array_read (chip m1 false 0 [] b) (i * FLASH_SECTOR_SIZE)
                              FLASH_SECTOR_SIZE) in *.
  assert (Hzero : countErrors (size window) readBack window = 0)
    by (apply countErrors_zero; exact Hback).
  rewrite Hzero.
  change (0 <? 0) with false. change (0 =? 0) with true.
  cbn [ret is_ok negb].
  destruct (Z.eqb_spec (attempts + 1) MAX_SECTOR_PROGRAM_ATTEMPTS) as [ | _ ];
    [ contradiction | ].
  cbn [ret app].
  eexists _, m1, readBack.
  split; [ reflexivity | split; [ exact Hbelow | split; [ exact Habove | exact Hdone ] ] ].
Qed.

Lemma bench_ReadSectorFlash_glitch (sectorIndex : Z) (readBuffer : list Z)
      (m : Z -> Z) (b : Bench) :
  0 < FLASH_SECTOR_SIZE < 65536 -> ReadCmd <> ReadStatusRegisterCmd ->
  (0 < glitches b)%nat ->
  @ReadSectorFlash header Bench bench_driver sectorIndex readBuffer (chip m false 0 [] b)
  = ([ EvWrite (ReadCmd :: IntToByteVec (sectorIndex * FLASH_SECTOR_SIZE)) 4 false
               FT4222_OK;
       EvRead FLASH_SECTOR_SIZE true
              (invert_first
                 (array_read (chip m false 0 [] b)
                             ((sectorIndex * FLASH_SECTOR_SIZE) mod 2 ^ 24)
                             FLASH_SECTOR_SIZE))
              FT4222_OK ],
     chip m false 0 [] (after_glitch b),
     (FT4222_OK,
      invert_first
        (array_read (chip m false 0 [] b)
                    ((sectorIndex * FLASH_SECTOR_SIZE) mod 2 ^ 24) FLASH_SECTOR_SIZE))).
Proof.
  intros HS Hrs Hglitch.
  unfold ReadSectorFlash, bind.
  rewrite bench_WriteSPI by (cbn; lia). cbn [is_ok negb].
  rewrite wire_exact.
  change (with_shifted (chip m false 0 [] b)
            (shifted (chip m false 0 [] b)
             ++ ReadCmd :: IntToByteVec (sectorIndex * FLASH_SECTOR_SIZE)))
    with (chip m false 0 (ReadCmd :: IntToByteVec (sectorIndex * FLASH_SECTOR_SIZE)) b).
  unfold ReadSPI. cbn [FT4222_SPIMaster_SingleRead bench_driver].
  unfold bench_read. cbn [shifted chip busyPolls glitches].
  destruct (Z.eqb_spec ReadCmd ReadStatusRegisterCmd) as [ | _ ]; [ contradiction | ].
  rewrite Z.eqb_refl. cbn [andb Nat.eqb].
  replace (0 <? glitches b)%nat with true by (symmetry; apply Nat.ltb_lt; exact Hglitch).
  change (firstn 3 (IntToByteVec (sectorIndex * FLASH_SECTOR_SIZE)))
    with (IntToByteVec (sectorIndex * FLASH_SECTOR_SIZE)).
  rewrite IntToByteVec_decode.
  rewrite !uint16_small by lia.
  rewrite Z.eqb_refl. cbn [negb is_ok].
  rewrite store_into_same_length
    by (rewrite length_invert_first; unfold array_read;
        rewrite length_map, length_seq, length_resize; reflexivity).
  reflexivity.
Qed.

(** With [g] read-backs still to be disturbed, sector [i] takes [g + 1]
    passes: [g] that end in an erase, and one that verifies. *)
Lemma bench_retries (fileBuffer : list Z) (i : Z) (g : nat) :
  geometryFits -> opcodesTellApart ->
  SectorEraseCmd <> WriteEnableCmd -> SectorEraseCmd <> PageProgramCmd ->
  0 < size fileBuffer <= 2 ^ 24 ->
  0 <= i < sectorCount fileBuffer ->
  forall (fuel : nat) (attempts : Z) (readBuffer : list Z) (m : Z -> Z) (b : Bench),
    glitches b = g -> (g < fuel)%nat ->
    0 <= attempts -> attempts + Z.of_nat g + 1 < MAX_SECTOR_PROGRAM_ATTEMPTS ->
    (latency b < Z.to_nat MAX_WAIT_TIME_MS)%nat ->
    exists t m' b' readBack,
      @ProgramFlash_while header Bench bench_driver fuel fileBuffer i
                          (i * FLASH_SECTOR_SIZE) attempts readBuffer
                          (chip m false 0 [] b)
      = (t, chip m' false 0 [] b', Some (Left FT4222_OK readBack))
      /\ glitches b' = 0%nat /\ latency b' = latency b
      /\ (forall a, a < i * FLASH_SECTOR_SIZE \/ (i + 1) * FLASH_SECTOR_SIZE <= a ->
                    m' a = m a)
      /\ (forall j, 0 <= j < size (sectorWindow fileBuffer i) ->
                    m' (i * FLASH_SECTOR_SIZE + j)
                    = at_index (sectorWindow fileBuffer i) j).
Proof.
  intros Hgeo Hop Hse1 Hse2 Hlen Hi.
  destruct (sector_on_the_bench fileBuffer i Hgeo Hlen Hi)
    as (HiS0 & Hwend & Hw & _ & _ & _ & Hpcs & Hbuffer & Hbytes).
  induction g as [ | g IH ];
    intros fuel attempts readBuffer m b Hglitch Hfuel Hattempts Hmax Hlat;
    (destruct fuel as [ | fuel ]; [ lia | ]).
  - assert (Hnot : attempts + 1 <> MAX_SECTOR_PROGRAM_ATTEMPTS) by lia.
    destruct (bench_pass_verified fuel fileBuffer i attempts readBuffer m b
                Hgeo Hop Hlen Hi Hlat Hglitch Hnot)
      as (t & m' & readBack & Hrun & Hbelow & Habove & Hdone).
    exists t, m', b, readBack.
    split; [ exact Hrun | split; [ exact Hglitch | split; [ reflexivity | split ] ] ].
    + intros a [Ha | Ha]; [ apply Hbelow; exact Ha | apply Habove; lia ].
    + exact Hdone.
  - destruct Hop as (Hpe & Hrs).
    destruct (bench_program_sector fileBuffer i m b Hgeo Hpe Hlen Hi Hlat)
      as (t1 & m1 & Hrun & Hbelow & Habove & Hdone).
    pose proof (read_back_window fileBuffer i m1 b Hgeo Hlen Hi Hdone) as Hback.
    pose proof Hgeo as (HP & HSP & HS0 & HS).
    pose proof (bench_valid_range fileBuffer i Hgeo Hlen Hi) as Hrange.
    cbn [ProgramFlash_while]. rewrite Hrange. cbn [negb]. unfold bind.
    rewrite Hbuffer, Hbytes, Hrun. cbn [is_ok negb].
    rewrite bench_ReadSectorFlash_glitch by (try assumption; lia).
    cbn [is_ok negb].
    rewrite (Z.mod_small (i * FLASH_SECTOR_SIZE)) by lia.
    set (data := array_read (chip m1 false 0 [] b) (i * FLASH_SECTOR_SIZE)
                            FLASH_SECTOR_SIZE) in *.
    assert (Hdata : exists x rest, data = x :: rest).
    { assert (Hl : length data = Z.to_nat FLASH_SECTOR_SIZE)
        by (subst data; unfold array_read; rewrite length_map, length_seq; reflexivity).
      destruct data as [ | x rest ]; [ cbn in Hl; lia | eauto ]. }
    destruct Hdata as (x & rest & Hdata).
    assert (Hfirst : at_index data 0 = at_index (sectorWindow fileBuffer i) 0)
      by (apply Hback; lia).
    assert (Herr : countErrors (size (sectorWindow fileBuffer i)) (invert_first data)
                               (sectorWindow fileBuffer i) <> 0).
    { intros Hzero. rewrite countErrors_zero in Hzero.
      specialize (Hzero 0 ltac:(lia)). rewrite <- Hfirst in Hzero.
      rewrite Hdata in Hzero. cbn in Hzero. exact (lxor_inverts x Hzero). }
    pose proof (countErrors_nonneg (size (sectorWindow fileBuffer i)) (invert_first data)
                                   (sectorWindow fileBuffer i)) as Hnonneg.
    replace (0 <? countErrors (size (sectorWindow fileBuffer i)) (invert_first data)
                              (sectorWindow fileBuffer i)) with true
      by (symmetry; apply Z.ltb_lt; lia).
    replace (countErrors (size (sectorWindow fileBuffer i)) (invert_first data)
                         (sectorWindow fileBuffer i) =? 0) with false
      by (symmetry; apply Z.eqb_neq; exact Herr).
    rewrite bench_EraseSector by assumption.
    cbn [is_ok negb].
    rewrite (Z.mod_small (i * FLASH_SECTOR_SIZE)) by lia.
    destruct (Z.eqb_spec (attempts + 1) MAX_SECTOR_PROGRAM_ATTEMPTS) as [ | _ ];
      [ lia | ].
    destruct (IH fuel (attempts + 1) (invert_first data)
                 (erase_sector m1 (i * FLASH_SECTOR_SIZE)) (after_glitch b))
      as (t' & m' & b' & readBack & Hrun' & Hg' & Hl' & Hframe' & Hdone').
    + cbn [glitches after_glitch]. rewrite Hglitch. reflexivity.
    + lia.
    + lia.
    + lia.
    + exact Hlat.
    + rewrite Hrun'.
      eexists _, m', b', readBack.
      split; [ reflexivity | split; [ exact Hg' | split; [ exact Hl' | split ] ] ].
      * intros a Ha. rewrite Hframe' by exact Ha.
        rewrite erase_sector_cells by exact HS0.
        replace ((i * FLASH_SECTOR_SIZE <=? a) && (a <? (i + 1) * FLASH_SECTOR_SIZE))
          with false.
        -- destruct Ha as [Ha | Ha]; [ apply Hbelow; exact Ha | apply Habove; lia ].
        -- symmetry. apply andb_false_iff.
           destruct Ha as [Ha | Ha];
             [ left; apply Z.leb_gt; exact Ha | right; apply Z.ltb_ge; exact Ha ].
      * exact Hdone'.
Qed.

End BenchRetry.

(** ** Whole images, with retries and without *)

Section BenchImages.

Context {header : IceBoardHeader}.

(** The image is in place up to the end of sector [i] once it is in place
    below the sector and the sector's window has been written. *)
Lemma holds_image_next (fileBuffer : list Z) (i : Z) (m m' : Z -> Z) :
  0 < FLASH_SECTOR_SIZE -> 0 <= i ->
  holds_image fileBuffer m (i * FLASH_SECTOR_SIZE) ->
  (forall a, a < i * FLASH_SECTOR_SIZE -> m' a = m a) ->
  (forall j, 0 <= j < size (sectorWindow fileBuffer i) ->
             m' (i * FLASH_SECTOR_SIZE + j) = at_index (sectorWindow fileBuffer i) j) ->
  holds_image fileBuffer m' ((i + 1) * FLASH_SECTOR_SIZE).
Proof.
  intros HS Hi Hm Hbelow Hdone a Ha Hlen.
  destruct (Z.lt_ge_cases a (i * FLASH_SECTOR_SIZE)) as [Hlow | Hin].
  - rewrite Hbelow by exact Hlow. apply Hm; lia.
  - pose proof (size_sectorWindow fileBuffer i HS Hi) as Hw.
    replace a with (i * FLASH_SECTOR_SIZE + (a - i * FLASH_SECTOR_SIZE)) at 1 by lia.
    rewrite Hdone by lia.
    rewrite at_index_sectorWindow by lia. f_equal. lia.
Qed.

(** The sectors [i], [i+1], ... of the image on a bench that disturbs some
    read-backs: the first of them takes the retries, and the array ends up
    holding the image. *)
Lemma bench_recovering_sectors (fileBuffer : list Z) (fuel : nat) (r : nat) :
  geometryFits -> opcodesTellApart ->
  SectorEraseCmd <> WriteEnableCmd -> SectorEraseCmd <> PageProgramCmd ->
  0 < size fileBuffer <= 2 ^ 24 ->
  forall (i : Z) (m : Z -> Z) (status : FT4222_STATUS) (readBuffer : list Z) (b : Bench),
    0 <= i -> Z.of_nat r = sectorCount fileBuffer - i ->
    holds_image fileBuffer m (i * FLASH_SECTOR_SIZE) ->
    (glitches b < fuel)%nat ->
    Z.of_nat (glitches b) + 1 < MAX_SECTOR_PROGRAM_ATTEMPTS ->
    (latency b < Z.to_nat MAX_WAIT_TIME_MS)%nat ->
    exists t m' b',
      @ProgramFlash_for header Bench bench_driver r fuel fileBuffer i
                        (i * FLASH_SECTOR_SIZE) status readBuffer (chip m false 0 [] b)
      = (t, chip m' false 0 [] b',
         Some (match r with O => status | S _ => FT4222_OK end))
      /\ holds_image fileBuffer m' (sectorCount fileBuffer * FLASH_SECTOR_SIZE)
      /\ (forall a,
             a < i * FLASH_SECTOR_SIZE
             \/ sectorCount fileBuffer * FLASH_SECTOR_SIZE <= a ->
             m' a = m a).
Proof.
  intros Hgeo Hop Hse1 Hse2 Hlen.
  pose proof Hgeo as (HP & HSP & HS0 & HS).
  induction r as [ | r IH ];
    intros i m status readBuffer b Hi Hr Hm Hfuel Hmax Hlat.
  - exists [], m, b. cbn [ProgramFlash_for].
    split; [ reflexivity | split; [ | reflexivity ] ].
    replace (sectorCount fileBuffer) with i by lia. exact Hm.
  - cbn [ProgramFlash_for]. unfold bind.
    assert (Hrange : 0 <= i < sectorCount fileBuffer) by lia.
    assert (H0 : 0 <= 0) by lia.
    destruct (bench_retries fileBuffer i (glitches b) Hgeo Hop Hse1 Hse2 Hlen Hrange
                            fuel 0 readBuffer m b eq_refl Hfuel H0 Hmax Hlat)
      as (t1 & m1 & b1 & readBack & Hrun & Hg1 & Hl1 & Hframe1 & Hdone1).
    rewrite Hrun. clear Hrun.
    replace (i * FLASH_SECTOR_SIZE + FLASH_SECTOR_SIZE)
      with ((i + 1) * FLASH_SECTOR_SIZE) by lia.
    destruct (IH (i + 1) m1 FT4222_OK readBack b1)
      as (t2 & m' & b' & Hrun & Hm' & Hframe).
    + lia.
    + lia.
    + apply (holds_image_next fileBuffer i m m1); auto.
    + rewrite Hg1. lia.
    + rewrite Hg1. lia.
    + rewrite Hl1. exact Hlat.
    + rewrite Hrun. clear Hrun.
      eexists _, m', b'.
      split; [ destruct r; reflexivity | split; [ exact Hm' | ] ].
      intros a Ha.
      assert (Hnext : (i + 1) * FLASH_SECTOR_SIZE
                      <= sectorCount fileBuffer * FLASH_SECTOR_SIZE)
        by (apply Z.mul_le_mono_nonneg_r; lia).
      rewrite Hframe by lia. apply Hframe1. lia.
Qed.

Lemma flash_contents_image (fileBuffer : list Z) (m : Z -> Z) (b : Bench) :
  holds_image fileBuffer m (size fileBuffer) ->
  flash_contents (chip m false 0 [] b) (length fileBuffer) = fileBuffer.
Proof.
  intros Hm. unfold flash_contents. cbn [cells chip].
  apply (nth_ext _ _ 0 0).
  - rewrite length_map, length_seq. reflexivity.
  - intros k Hk. rewrite length_map, length_seq in Hk.
    rewrite (nth_indep _ 0 (m (Z.of_nat 0)))
      by (rewrite length_map, length_seq; exact Hk).
    rewrite (map_nth (fun k => m (Z.of_nat k))).
    rewrite seq_nth by exact Hk. cbn [Nat.add].
    rewrite Hm by (unfold size; lia).
    unfold at_index. rewrite Nat2Z.id. reflexivity.
Qed.

(** X12.  The retry loop does its job.  On a bench that disturbs the first
    [g] read-backs (every transfer succeeds, the chip stores what it is sent
    and erases what it is told to), with [g + 1 < MAX_SECTOR_PROGRAM_ATTEMPTS]:
    [ProgramFlash] returns [FT4222_OK] ([g + 1] rounds of a [while] loop are
    enough), afterwards the flash addresses [0 .. len-1] hold the image, and
    the erases in between have changed no cell outside the image's sectors. *)
Theorem ProgramFlash_recovers_from_disturbed_read_backs
        (fuel : nat) (fileBuffer : list Z) (b : Bench) :
  geometryFits -> opcodesTellApart ->
  SectorEraseCmd <> WriteEnableCmd -> SectorEraseCmd <> PageProgramCmd ->
  idleBench b -> (latency b < Z.to_nat MAX_WAIT_TIME_MS)%nat ->
  0 < size fileBuffer <= 2 ^ 24 ->
  Z.of_nat (glitches b) + 1 < MAX_SECTOR_PROGRAM_ATTEMPTS ->
  (glitches b < fuel)%nat ->
  let r := @ProgramFlash header Bench bench_driver fuel fileBuffer b in
  value_of r = Some FT4222_OK
  /\ flash_contents (handle_of r) (length fileBuffer) = fileBuffer
  /\ (forall a,
         a < 0 \/ sectorCount fileBuffer * FLASH_SECTOR_SIZE <= a ->
         cells (handle_of r) a = cells b a).
Proof.
  intros Hgeo Hop Hse1 Hse2 Hidle Hlat Hlen Hmax Hfuel r. subst r.
  pose proof Hgeo as (HP & HSP & HS0 & HS).
  assert (HS64 : 0 < FLASH_SECTOR_SIZE < 2 ^ 64) by lia.
  assert (Hlen64 : 0 < size fileBuffer < 2 ^ 64) by lia.
  pose proof (sectorCount_bounds fileBuffer HS64 Hlen64) as [Hn Hnlen].
  pose proof (idleBench_chip b Hidle) as Hb.
  unfold ProgramFlash.
  assert (H0 : 0 <= 0) by lia.
  assert (Hr : Z.of_nat (Z.to_nat (sectorCount fileBuffer)) = sectorCount fileBuffer - 0)
    by lia.
  assert (Hm : holds_image fileBuffer (cells b) (0 * FLASH_SECTOR_SIZE))
    by (intros a Ha; lia).
  destruct (bench_recovering_sectors fileBuffer fuel (Z.to_nat (sectorCount fileBuffer))
              Hgeo Hop Hse1 Hse2 Hlen 0 (cells b) FT4222_OK [] b H0 Hr Hm Hfuel Hmax Hlat)
    as (t & m' & b' & Hrun & Hm' & Hframe).
  change (0 * FLASH_SECTOR_SIZE) with 0 in Hrun, Hframe.
  rewrite <- Hb in Hrun. rewrite Hrun.
  unfold value_of, handle_of. cbn [fst snd].
  split; [ destruct (Z.to_nat (sectorCount fileBuffer)); reflexivity | split ].
  - apply flash_contents_image. intros a Ha Ha'. apply Hm'; lia.
  - intros a Ha. cbn [cells chip]. apply Hframe. exact Ha.
Qed.

(** The last page programmed for sector [i] ends no later than the last page
    the whole image reaches into. *)
Lemma pages_end_within_image (fileBuffer : list Z) (i : Z) :
  geometryFits -> 0 < size fileBuffer <= 2 ^ 24 ->
  0 <= i < sectorCount fileBuffer ->
  i * FLASH_SECTOR_SIZE + pageCount (sectorWindow fileBuffer i) * FLASH_PAGE_SIZE
  <= ceilDiv (size fileBuffer) FLASH_PAGE_SIZE * FLASH_PAGE_SIZE.
Proof.
  intros Hgeo Hlen Hi.
  destruct (sector_on_the_bench fileBuffer i Hgeo Hlen Hi)
    as (HiS0 & Hwend & Hw & Hstart & Hpc0 & Hpcb & _).
  destruct Hgeo as (HP & _).
  assert (Hlen0 : 0 < size fileBuffer) by lia.
  pose proof (ceilDiv_bounds (size fileBuffer) FLASH_PAGE_SIZE HP Hlen0) as [_ HC].
  rewrite <- Hstart, <- Z.mul_add_distr_r.
  apply Z.mul_le_mono_nonneg_r; [ lia | ].
  assert (Hlt : (i * (FLASH_SECTOR_SIZE / FLASH_PAGE_SIZE)
                 + pageCount (sectorWindow fileBuffer i) - 1) * FLASH_PAGE_SIZE
                < ceilDiv (size fileBuffer) FLASH_PAGE_SIZE * FLASH_PAGE_SIZE).
  { replace ((i * (FLASH_SECTOR_SIZE / FLASH_PAGE_SIZE)
              + pageCount (sectorWindow fileBuffer i) - 1) * FLASH_PAGE_SIZE)
      with (i * (FLASH_SECTOR_SIZE / FLASH_PAGE_SIZE) * FLASH_PAGE_SIZE
            + (pageCount (sectorWindow fileBuffer i) - 1) * FLASH_PAGE_SIZE) by lia.
    rewrite Hstart. lia. }
  apply Z.mul_lt_mono_pos_r in Hlt; lia.
Qed.

(** The sectors of the image on the ideal bench: no cell from the end of the
    image's last page on is written. *)
Lemma bench_sectors_frame (fileBuffer : list Z) (b : Bench) (fuel : nat) (r : nat) :
  geometryFits -> opcodesTellApart ->
  MAX_SECTOR_PROGRAM_ATTEMPTS <> 1 ->
  glitches b = 0%nat -> (latency b < Z.to_nat MAX_WAIT_TIME_MS)%nat ->
  0 < size fileBuffer <= 2 ^ 24 ->
  forall (i : Z) (m : Z -> Z) (status : FT4222_STATUS) (readBuffer : list Z),
    0 <= i -> Z.of_nat r = sectorCount fileBuffer - i ->
    forall a,
      a < i * FLASH_SECTOR_SIZE
      \/ ceilDiv (size fileBuffer) FLASH_PAGE_SIZE * FLASH_PAGE_SIZE <= a ->
      cells (handle_of (@ProgramFlash_for header Bench bench_driver r (S fuel) fileBuffer
                          i (i * FLASH_SECTOR_SIZE) status readBuffer
                          (chip m false 0 [] b))) a
      = m a.
Proof.
  intros Hgeo Hop Hmax Hglitch Hlat Hlen.
  pose proof Hgeo as (HP & HSP & HS0 & HS).
  induction r as [ | r IH ]; intros i m status readBuffer Hi Hr a Ha.
  - reflexivity.
  - cbn [ProgramFlash_for]. unfold bind.
    assert (Hrange : 0 <= i < sectorCount fileBuffer) by lia.
    assert (Hnot : 0 + 1 <> MAX_SECTOR_PROGRAM_ATTEMPTS) by lia.
    destruct (bench_pass_verified fuel fileBuffer i 0 readBuffer m b
                Hgeo Hop Hlen Hrange Hlat Hglitch Hnot)
      as (t1 & m1 & readBack & Hrun & Hbelow & Habove & _).
    rewrite Hrun. clear Hrun.
    replace (i * FLASH_SECTOR_SIZE + FLASH_SECTOR_SIZE)
      with ((i + 1) * FLASH_SECTOR_SIZE) by lia.
    specialize (IH (i + 1) m1 FT4222_OK readBack).
    destruct (@ProgramFlash_for header Bench bench_driver r (S fuel) fileBuffer (i + 1)
                ((i + 1) * FLASH_SECTOR_SIZE) FT4222_OK readBack (chip m1 false 0 [] b))
      as [[t2 h2] v2].
    unfold handle_of in *. cbn [fst snd] in *.
    pose proof (pages_end_within_image fileBuffer i Hgeo Hlen Hrange) as Hend.
    rewrite IH by lia.
    destruct Ha as [Ha | Ha]; [ apply Hbelow; exact Ha | apply Habove; lia ].
Qed.

(** X13.  On the ideal bench (the assumptions of C1) [ProgramFlash] writes
    only the flash pages the image reaches into: every cell at or behind
    address [ceil (len / FLASH_PAGE_SIZE) * FLASH_PAGE_SIZE], and every cell
    below address 0 of the model, keeps its content.  So nothing is erased,
    and the part of the last sector behind the image's last page is left
    alone. *)
Theorem ProgramFlash_writes_only_the_pages_of_the_image
        (fuel : nat) (fileBuffer : list Z) (b : Bench) :
  geometryFits -> opcodesTellApart ->
  MAX_SECTOR_PROGRAM_ATTEMPTS <> 1 ->
  idealBench b ->
  0 < size fileBuffer <= 2 ^ 24 ->
  (0 < fuel)%nat ->
  forall a,
    a < 0 \/ ceilDiv (size fileBuffer) FLASH_PAGE_SIZE * FLASH_PAGE_SIZE <= a ->
    cells (handle_of (@ProgramFlash header Bench bench_driver fuel fileBuffer b)) a
    = cells b a.
Proof.
  intros Hgeo Hop Hmax (Hidle & Hglitch & Hlat) Hlen Hfuel a Ha.
  destruct fuel as [ | fuel ]; [ lia | ].
  pose proof Hgeo as (HP & HSP & HS0 & HS).
  assert (HS64 : 0 < FLASH_SECTOR_SIZE < 2 ^ 64) by lia.
  assert (Hlen64 : 0 < size fileBuffer < 2 ^ 64) by lia.
  pose proof (sectorCount_bounds fileBuffer HS64 Hlen64) as [Hn Hnlen].
  pose proof (idleBench_chip b Hidle) as Hb.
  unfold ProgramFlash. rewrite Hb at 1.
  change 0 with (0 * FLASH_SECTOR_SIZE) at 2.
  apply (bench_sectors_frame fileBuffer b fuel (Z.to_nat (sectorCount fileBuffer))
           Hgeo Hop Hmax Hglitch Hlat Hlen 0 (cells b) FT4222_OK []); lia.
Qed.

End BenchImages.

(** ** The retry loop gives up *)

Section BenchGivingUp.

Context {header : IceBoardHeader}.

(** A pass over sector [i] whose read-back is disturbed: the window is
    programmed, the comparison fails, the sector is erased; then the attempt
    counter decides. *)
Lemma bench_pass_disturbed (fuel : nat) (fileBuffer : list Z) (i attempts : Z)
      (readBuffer : list Z) (m : Z -> Z) (b : Bench) :
  geometryFits -> opcodesTellApart ->
  SectorEraseCmd <> WriteEnableCmd -> SectorEraseCmd <> PageProgramCmd ->
  0 < size fileBuffer <= 2 ^ 24 ->
  0 <= i < sectorCount fileBuffer ->
  (latency b < Z.to_nat MAX_WAIT_TIME_MS)%nat ->
  (0 < glitches b)%nat ->
  exists t m' readBack,
    (forall a, a < i * FLASH_SECTOR_SIZE \/ (i + 1) * FLASH_SECTOR_SIZE <= a ->
               m' a = m a)
    /\ (attempts + 1 = MAX_SECTOR_PROGRAM_ATTEMPTS ->
        @ProgramFlash_while header Bench bench_driver (S fuel) fileBuffer i
                            (i * FLASH_SECTOR_SIZE) attempts readBuffer
                            (chip m false 0 [] b)
        = (t, chip m' false 0 [] (after_glitch b),
           Some (Returned FT4222_CORRUPTED_UPLOAD)))
    /\ (attempts + 1 <> MAX_SECTOR_PROGRAM_ATTEMPTS ->
        @ProgramFlash_while header Bench bench_driver (S fuel) fileBuffer i
                            (i * FLASH_SECTOR_SIZE) attempts readBuffer
                            (chip m false 0 [] b)
        = let '(t', h', exit) :=
            @ProgramFlash_while header Bench bench_driver fuel fileBuffer i
                                (i * FLASH_SECTOR_SIZE) (attempts + 1) readBack
                                (chip m' false 0 [] (after_glitch b)) in
          (t ++ t', h', exit)).
Proof.
  intros Hgeo (Hpe & Hrs) Hse1 Hse2 Hlen Hi Hlat Hglitch.
  destruct (sector_on_the_bench fileBuffer i Hgeo Hlen Hi)
    as (HiS0 & Hwend & Hw & _ & _ & _ & Hpcs & Hbuffer & Hbytes).
  destruct (bench_program_sector fileBuffer i m b Hgeo Hpe Hlen Hi Hlat)
    as (t1 & m1 & Hrun & Hbelow & Habove & Hdone).
  pose proof (read_back_window fileBuffer i m1 b Hgeo Hlen Hi Hdone) as Hback.
  pose proof Hgeo as (HP & HSP & HS0 & HS).
  set (data := array_read (chip m1 false 0 [] b) (i * FLASH_SECTOR_SIZE)
                          FLASH_SECTOR_SIZE) in *.
  assert (Hdata : exists x rest, data = x :: rest).
  { assert (Hl : length data = Z.to_nat FLASH_SECTOR_SIZE)
      by (subst data; unfold array_read; rewrite length_map, length_seq; reflexivity).
    destruct data as [ | x rest ]; [ cbn in Hl; lia | eauto ]. }
  destruct Hdata as (x & rest & Hdata).
  assert (Hfirst : at_index data 0 = at_index (sectorWindow fileBuffer i) 0)
    by (apply Hback; lia).
  assert (Herr : countErrors (size (sectorWindow fileBuffer i)) (invert_first data)
                             (sectorWindow fileBuffer i) <> 0).
  { intros Hzero. rewrite countErrors_zero in Hzero.
    specialize (Hzero 0 ltac:(lia)). rewrite <- Hfirst in Hzero.
    rewrite Hdata in Hzero. cbn in Hzero. exact (lxor_inverts x Hzero). }
  pose proof (countErrors_nonneg (size (sectorWindow fileBuffer i)) (invert_first data)
                                 (sectorWindow fileBuffer i)) as Hnonneg.
  exists (t1
          ++ [ EvWrite (ReadCmd :: IntToByteVec (i * FLASH_SECTOR_SIZE)) 4 false FT4222_OK;
               EvRead FLASH_SECTOR_SIZE true (invert_first data) FT4222_OK ]
          ++ [ EvWrite [WriteEnableCmd] 1 true FT4222_OK;
               EvWrite (SectorEraseCmd :: IntToByteVec (i * FLASH_SECTOR_SIZE))
                       4 true FT4222_OK ]
          ++ sleptPolls (repeat 1 (latency b)) ++ pollEvents 0),
         (erase_sector m1 (i * FLASH_SECTOR_SIZE)), (invert_first data).
  split.
  { intros a Ha. rewrite erase_sector_cells by exact HS0.
    replace ((i * FLASH_SECTOR_SIZE <=? a) && (a <? (i + 1) * FLASH_SECTOR_SIZE))
      with false.
    - destruct Ha as [Ha | Ha]; [ apply Hbelow; exact Ha | apply Habove; lia ].
    - symmetry. apply andb_false_iff.
      destruct Ha as [Ha | Ha];
        [ left; apply Z.leb_gt; exact Ha | right; apply Z.ltb_ge; exact Ha ]. }
  split; intros Hattempts;
    cbn [ProgramFlash_while];
    rewrite (bench_valid_range fileBuffer i Hgeo Hlen Hi); cbn [negb]; unfold bind;
    rewrite Hbuffer, Hbytes, Hrun; cbn [is_ok negb];
    rewrite bench_ReadSectorFlash_glitch by (try assumption; lia);
    cbn [is_ok negb];
    rewrite (Z.mod_small (i * FLASH_SECTOR_SIZE)) by lia;
    fold data;
    replace (0 <? countErrors (size (sectorWindow fileBuffer i)) (invert_first data)
                              (sectorWindow fileBuffer i)) with true
      by (symmetry; apply Z.ltb_lt; lia);
    replace (countErrors (size (sectorWindow fileBuffer i)) (invert_first data)
                         (sectorWindow fileBuffer i) =? 0) with false
      by (symmetry; apply Z.eqb_neq; exact Herr);
    rewrite bench_EraseSector by assumption;
    cbn [is_ok negb];
    rewrite (Z.mod_small (i * FLASH_SECTOR_SIZE)) by lia.
  - rewrite Hattempts, Z.eqb_refl. cbn [ret].
    rewrite app_nil_r. reflexivity.
  - destruct (Z.eqb_spec (attempts + 1) MAX_SECTOR_PROGRAM_ATTEMPTS) as [ | _ ];
      [ contradiction | ].
    destruct (@ProgramFlash_while header Bench bench_driver fuel fileBuffer i
                (i * FLASH_SECTOR_SIZE) (attempts + 1) (invert_first data)
                (chip (erase_sector m1 (i * FLASH_SECTOR_SIZE)) false 0 []
                      (after_glitch b))) as [[t' h'] exit].
    rewrite <- !app_assoc. reflexivity.
Qed.

(** The pass that uses up the attempts, its read-back undisturbed: the
    window is programmed and verified, and the function returns all the
    same. *)
Lemma bench_pass_at_the_bound (fuel : nat) (fileBuffer : list Z) (i attempts : Z)
      (readBuffer : list Z) (m : Z -> Z) (b : Bench) :
  geometryFits -> opcodesTellApart ->
  0 < size fileBuffer <= 2 ^ 24 ->
  0 <= i < sectorCount fileBuffer ->
  (latency b < Z.to_nat MAX_WAIT_TIME_MS)%nat ->
  glitches b = 0%nat ->
  attempts + 1 = MAX_SECTOR_PROGRAM_ATTEMPTS ->
  exists t m',
    @ProgramFlash_while header Bench bench_driver (S fuel) fileBuffer i
                        (i * FLASH_SECTOR_SIZE) attempts readBuffer (chip m false 0 [] b)
    = (t, chip m' false 0 [] b, Some (Returned FT4222_CORRUPTED_UPLOAD))
    /\ (forall a, a < i * FLASH_SECTOR_SIZE \/ (i + 1) * FLASH_SECTOR_SIZE <= a ->
                  m' a = m a).
Proof.
  intros Hgeo (Hpe & Hrs) Hlen Hi Hlat Hglitch Hattempts.
  destruct (sector_on_the_bench fileBuffer i Hgeo Hlen Hi)
    as (HiS0 & Hwend & Hw & _ & _ & _ & Hpcs & Hbuffer & Hbytes).
  destruct (bench_program_sector fileBuffer i m b Hgeo Hpe Hlen Hi Hlat)
    as (t1 & m1 & Hrun & Hbelow & Habove & Hdone).
  pose proof (read_back_window fileBuffer i m1 b Hgeo Hlen Hi Hdone) as Hback.
  pose proof (bench_valid_range fileBuffer i Hgeo Hlen Hi) as Hrange.
  destruct Hgeo as (HP & HSP & HS0 & HS).
  cbn [ProgramFlash_while]. rewrite Hrange. cbn [negb]. unfold bind.
  rewrite Hbuffer, Hbytes, Hrun. cbn [is_ok negb].
  rewrite (bench_ReadSectorFlash HS0 HS Hrs) by exact Hglitch.
  cbn [is_ok negb].
  rewrite (Z.mod_small (i * FLASH_SECTOR_SIZE)) by lia.
  set (readBack := array_read (chip m1 false 0 [] b) (i * FLASH_SECTOR_SIZE)
                              FLASH_SECTOR_SIZE) in *.
  assert (Hzero : countErrors (size (sectorWindow fileBuffer i)) readBack
                              (sectorWindow fileBuffer i) = 0)
    by (apply countErrors_zero; exact Hback).
  rewrite Hzero.
  change (0 <? 0) with false. cbn [ret is_ok negb].
  rewrite Hattempts, Z.eqb_refl. cbn [ret app].
  eexists _, m1.
  split; [ reflexivity | ].
  intros a [Ha | Ha]; [ apply Hbelow; exact Ha | apply Habove; lia ].
Qed.

(** With [k] passes left before the attempts are used up and at least [k]
    read-backs still to be disturbed, sector [i] is given up on. *)
Lemma bench_gives_up (fileBuffer : list Z) (i : Z) (k : nat) :
  geometryFits -> opcodesTellApart ->
  SectorEraseCmd <> WriteEnableCmd -> SectorEraseCmd <> PageProgramCmd ->
  0 < size fileBuffer <= 2 ^ 24 ->
  0 <= i < sectorCount fileBuffer ->
  forall (fuel : nat) (attempts : Z) (readBuffer : list Z) (m : Z -> Z) (b : Bench),
    attempts + Z.of_nat k + 1 = MAX_SECTOR_PROGRAM_ATTEMPTS ->
    (k <= glitches b)%nat -> (k < fuel)%nat ->
    (latency b < Z.to_nat MAX_WAIT_TIME_MS)%nat ->
    exists t m' b',
      @ProgramFlash_while header Bench bench_driver fuel fileBuffer i
                          (i * FLASH_SECTOR_SIZE) attempts readBuffer
                          (chip m false 0 [] b)
      = (t, chip m' false 0 [] b', Some (Returned FT4222_CORRUPTED_UPLOAD))
      /\ (forall a, a < i * FLASH_SECTOR_SIZE \/ (i + 1) * FLASH_SECTOR_SIZE <= a ->
                    m' a = m a).
Proof.
  intros Hgeo Hop Hse1 Hse2 Hlen Hi.
  induction k as [ | k IH ];
    intros fuel attempts readBuffer m b Hbound Hglitch Hfuel Hlat;
    (destruct fuel as [ | fuel ]; [ lia | ]).
  - assert (Hattempts : attempts + 1 = MAX_SECTOR_PROGRAM_ATTEMPTS) by lia.
    destruct (Nat.eq_0_gt_0_cases (glitches b)) as [Hnone | Hsome].
    + destruct (bench_pass_at_the_bound fuel fileBuffer i attempts readBuffer m b
                  Hgeo Hop Hlen Hi Hlat Hnone Hattempts) as (t & m' & Hrun & Hframe).
      exists t, m', b. split; assumption.
    + destruct (bench_pass_disturbed fuel fileBuffer i attempts readBuffer m b
                  Hgeo Hop Hse1 Hse2 Hlen Hi Hlat Hsome)
        as (t & m' & readBack & Hframe & Hrun & _).
      exists t, m', (after_glitch b). split; [ apply Hrun; exact Hattempts | exact Hframe ].
  - assert (Hattempts : attempts + 1 <> MAX_SECTOR_PROGRAM_ATTEMPTS) by lia.
    assert (Hsome : (0 < glitches b)%nat) by lia.
    destruct (bench_pass_disturbed fuel fileBuffer i attempts readBuffer m b
                Hgeo Hop Hse1 Hse2 Hlen Hi Hlat Hsome)
      as (t & m1 & readBack & Hframe & _ & Hrun).
    rewrite (Hrun Hattempts).
    destruct (IH fuel (attempts + 1) readBack m1 (after_glitch b))
      as (t' & m' & b' & Hrun' & Hframe').
    + lia.
    + cbn [glitches after_glitch]. lia.
    + lia.
    + exact Hlat.
    + rewrite Hrun'. exists (t ++ t'), m', b'.
      split; [ reflexivity | ].
      intros a Ha. rewrite Hframe' by exact Ha. apply Hframe. exact Ha.
Qed.

(** X16.  The other side of X12: the retry loop gives up.  On the same kind
    of bench, when the read-backs still to be disturbed are at least
    [MAX_SECTOR_PROGRAM_ATTEMPTS - 1], [ProgramFlash] of a non-empty image
    returns [FT4222_CORRUPTED_UPLOAD] while it is on sector 0
    ([MAX_SECTOR_PROGRAM_ATTEMPTS] rounds of the [while] loop are enough),
    and no cell outside sector 0 has changed: the later sectors are never
    programmed. *)
Theorem ProgramFlash_gives_up_after_the_attempts
        (fuel : nat) (fileBuffer : list Z) (b : Bench) :
  geometryFits -> opcodesTellApart ->
  SectorEraseCmd <> WriteEnableCmd -> SectorEraseCmd <> PageProgramCmd ->
  idleBench b -> (latency b < Z.to_nat MAX_WAIT_TIME_MS)%nat ->
  0 < size fileBuffer <= 2 ^ 24 ->
  0 < MAX_SECTOR_PROGRAM_ATTEMPTS <= Z.of_nat (glitches b) + 1 ->
  (Z.to_nat MAX_SECTOR_PROGRAM_ATTEMPTS <= fuel)%nat ->
  let r := @ProgramFlash header Bench bench_driver fuel fileBuffer b in
  value_of r = Some FT4222_CORRUPTED_UPLOAD
  /\ (forall a, a < 0 \/ FLASH_SECTOR_SIZE <= a -> cells (handle_of r) a = cells b a).
Proof.
  intros Hgeo Hop Hse1 Hse2 Hidle Hlat Hlen Hmax Hfuel r. subst r.
  pose proof Hgeo as (HP & HSP & HS0 & HS).
  assert (HS64 : 0 < FLASH_SECTOR_SIZE < 2 ^ 64) by lia.
  assert (Hlen64 : 0 < size fileBuffer < 2 ^ 64) by lia.
  pose proof (sectorCount_bounds fileBuffer HS64 Hlen64) as [Hn Hnlen].
  pose proof (idleBench_chip b Hidle) as Hb.
  unfold ProgramFlash.
  destruct (Z.to_nat (sectorCount fileBuffer)) as [ | n ] eqn:Hcount; [ lia | ].
  cbn [ProgramFlash_for]. unfold bind.
  assert (Hi : 0 <= 0 < sectorCount fileBuffer) by lia.
  assert (Hbound : 0 + Z.of_nat (Z.to_nat (MAX_SECTOR_PROGRAM_ATTEMPTS - 1)) + 1
                   = MAX_SECTOR_PROGRAM_ATTEMPTS) by lia.
  destruct (bench_gives_up fileBuffer 0 (Z.to_nat (MAX_SECTOR_PROGRAM_ATTEMPTS - 1))
              Hgeo Hop Hse1 Hse2 Hlen Hi fuel 0 [] (cells b) b Hbound)
    as (t & m' & b' & Hrun & Hframe).
  - lia.
  - lia.
  - exact Hlat.
  - change (0 * FLASH_SECTOR_SIZE) with 0 in Hrun, Hframe.
    rewrite <- Hb in Hrun. rewrite Hrun.
    unfold value_of, handle_of. cbn [fst snd ret cells chip].
    split; [ reflexivity | ].
    intros a Ha. apply Hframe. lia.
Qed.

End BenchGivingUp.



(** ** Transfer sizes *)

(** C10 at a request for 65536 bytes: the bench is asked for
    [65536 mod 65536 = 0] bytes, transfers all of them, and the call still
    fails. *)
Lemma SPI_count_above_uint16_witness :
  (trace_of (@WriteSPI Bench (@bench_driver smallHeader) [] 65536 true (blankBench 0 0))
   = [EvWrite [] (65536 mod 65536) true
              (value_of (@WriteSPI Bench (@bench_driver smallHeader) [] 65536 true
                                   (blankBench 0 0)))]
   /\ value_of (@WriteSPI Bench (@bench_driver smallHeader) [] 65536 true
                          (blankBench 0 0)) <> FT4222_OK
   /\ (snd (fst (@FT4222_SPIMaster_SingleWrite Bench (@bench_driver smallHeader)
                   (blankBench 0 0) [] (65536 mod 65536) true))
       = FT4222_OK ->
       value_of (@WriteSPI Bench (@bench_driver smallHeader) [] 65536 true
                           (blankBench 0 0))
       = FT4222_INORRECT_TRANSFER_SIZE))
  /\
  (fst (value_of (@ReadSPI Bench (@bench_driver smallHeader) [] 65536 true
                           (blankBench 0 0))) <> FT4222_OK
   /\ (snd (fst (fst (@FT4222_SPIMaster_SingleRead Bench (@bench_driver smallHeader)
                        (blankBench 0 0) (65536 mod 65536) true)))
       = FT4222_OK ->
       fst (value_of (@ReadSPI Bench (@bench_driver smallHeader) [] 65536 true
                               (blankBench 0 0)))
       = FT4222_INORRECT_TRANSFER_SIZE)).
Proof.
  apply (@SPI_count_above_uint16_never_succeeds Bench (@bench_driver smallHeader)
           (blankBench 0 0) [] 65536 true).
  reflexivity.
Defined.

(** ** Page and sector programs *)

(** The pages of a buffer that is not empty, on the bench: five bytes, pages
    of four. *)
Lemma SectorProgramFlash_pages_witness :
  (exists waits,
      length waits = Z.to_nat (ceilDiv (size [1; 2; 3; 4; 5]) 4) /\
      Forall (@readyWait smallHeader) waits /\
      trace_of (@SectorProgramFlash smallHeader Bench (@bench_driver smallHeader)
                  3 [1; 2; 3; 4; 5] (blankBench 0 0))
      = @pagesEvents smallHeader (@pageChunk smallHeader [1; 2; 3; 4; 5])
                     (3 * (8 / 4)) 0 waits)
  /\ (forall k, (3 * (8 / 4) + k) * 4 = 3 * 8 + k * 4).
Proof.
  apply (@SectorProgramFlash_pages smallHeader Bench (@bench_driver smallHeader)
           3 [1; 2; 3; 4; 5] (blankBench 0 0)).
  - reflexivity.
  - reflexivity.
  - vm_compute. split; [ reflexivity | discriminate ].
  - reflexivity.
  - vm_compute. reflexivity.
Defined.

(** The two page programs of that run, spelled out. *)
Example SectorProgramFlash_five_bytes :
  @SectorProgramFlash smallHeader Bench (@bench_driver smallHeader)
                      3 [1; 2; 3; 4; 5] (blankBench 0 0)
  = ([ EvWrite [0x06] 1 true FT4222_OK;
       EvWrite [0x02; 0; 0; 24] 4 false FT4222_OK;
       EvWrite [1; 2; 3; 4] 4 true FT4222_OK;
       EvWrite [0x05] 1 false FT4222_OK;
       EvRead 1 true [0] FT4222_OK;
       EvWrite [0x06] 1 true FT4222_OK;
       EvWrite [0x02; 0; 0; 28] 4 false FT4222_OK;
       EvWrite [5] 4 true FT4222_OK;
       EvWrite [0x05] 1 false FT4222_OK;
       EvRead 1 true [0] FT4222_OK ],
     handle_of (@SectorProgramFlash smallHeader Bench (@bench_driver smallHeader)
                                    3 [1; 2; 3; 4; 5] (blankBench 0 0)),
     FT4222_OK).
Proof. vm_compute. reflexivity. Qed.

(** A full sector of four pages: page programs at [base], [base + 256],
    [base + 512], [base + 768]. *)
Example SectorProgramFlash_four_pages :
  let sectorBuffer := repeat 0x5A 1024 in
  let base := 2 * 1024 in
  trace_of (@SectorProgramFlash fourPageHeader Bench (@bench_driver fourPageHeader)
              2 sectorBuffer (blankBench 0 0))
  = @pageProgramEvents fourPageHeader base (repeat 0x5A 256)
    ++ @pollEvents fourPageHeader 0
    ++ @pageProgramEvents fourPageHeader (base + 256) (repeat 0x5A 256)
    ++ @pollEvents fourPageHeader 0
    ++ @pageProgramEvents fourPageHeader (base + 2 * 256) (repeat 0x5A 256)
    ++ @pollEvents fourPageHeader 0
    ++ @pageProgramEvents fourPageHeader (base + 3 * 256) (repeat 0x5A 256)
    ++ @pollEvents fourPageHeader 0.
Proof. vm_compute. reflexivity. Qed.

(** C5 on the bench: the buffer of no bytes, pages of four. *)
Lemma SectorProgramFlash_empty_buffer_witness :
  @pageCount smallHeader [] = 1
  /\ ceilDiv (size []) 4 = 0
  /\ @pageBuffer smallHeader [] 0 = []
  /\ (exists status rest,
         trace_of (@SectorProgramFlash smallHeader Bench (@bench_driver smallHeader)
                                       0 [] (blankBench 0 0))
         = EvWrite [0x06] 1 true status :: rest)
  /\ (value_of (@SectorProgramFlash smallHeader Bench (@bench_driver smallHeader)
                                    0 [] (blankBench 0 0)) = FT4222_OK ->
      exists wait,
        @readyWait smallHeader wait /\
        trace_of (@SectorProgramFlash smallHeader Bench (@bench_driver smallHeader)
                                      0 [] (blankBench 0 0))
        = [ EvWrite [0x06] 1 true FT4222_OK;
            EvWrite (0x02 :: IntToByteVec (0 * (8 / 4) * 4)) 4 false FT4222_OK;
            EvWrite [] 4 true FT4222_OK ]
          ++ wait).
Proof.
  apply (@SectorProgramFlash_empty_buffer smallHeader Bench (@bench_driver smallHeader)
           0 (blankBench 0 0)).
  - reflexivity.
  - reflexivity.
Defined.

(** That run, spelled out: no page would be due, and one page program is
    issued, its payload transfer asking for four bytes of an empty vector. *)
Example SectorProgramFlash_empty_buffer_programs_a_page :
  size [] <= @FLASH_SECTOR_SIZE smallHeader
  /\ ceilDiv (size []) (@FLASH_PAGE_SIZE smallHeader) = 0
  /\ @SectorProgramFlash smallHeader Bench (@bench_driver smallHeader)
                         0 [] (blankBench 0 0)
     = ([ EvWrite [0x06] 1 true FT4222_OK;
          EvWrite [0x02; 0; 0; 0] 4 false FT4222_OK;
          EvWrite [] 4 true FT4222_OK;
          EvWrite [0x05] 1 false FT4222_OK;
          EvRead 1 true [0] FT4222_OK ],
        handle_of (@SectorProgramFlash smallHeader Bench (@bench_driver smallHeader)
                                       0 [] (blankBench 0 0)),
        FT4222_OK)
  /\ ~ (exists waits,
           length waits = Z.to_nat (ceilDiv (size []) (@FLASH_PAGE_SIZE smallHeader)) /\
           trace_of (@SectorProgramFlash smallHeader Bench (@bench_driver smallHeader)
                       0 [] (blankBench 0 0))
           = @pagesEvents smallHeader (@pageChunk smallHeader []) 0 0 waits).
Proof.
  split; [ vm_compute; discriminate | ].
  split; [ vm_compute; reflexivity | ].
  split; [ vm_compute; reflexivity | ].
  intros (waits & Hlen & Htrace).
  destruct waits as [ | w waits ]; [ | discriminate Hlen ].
  vm_compute in Htrace. discriminate Htrace.
Qed.

(** C3 on the bench: the one-byte window that ends an image of 4097 bytes is
    sent as the payload of a 256-byte transfer. *)
Lemma PageProgramFlash_payload_count_witness :
  nth_error
    (trace_of (@PageProgramFlash usualHeader Bench (@bench_driver usualHeader)
                 16 [0x42] (blankBench 0 0))) 2
  = Some (EvWrite [0x42] 256 true FT4222_OK).
Proof.
  apply (@PageProgramFlash_payload_count usualHeader Bench (@bench_driver usualHeader)
           16 [0x42] (blankBench 0 0)).
  vm_compute. reflexivity.
Defined.

(** What that transfer leaves in the flash: the window's byte, then 255 bytes
    that were never part of the image. *)
Example short_window_writes_stray_bytes :
  let r := @SectorProgramFlash usualHeader Bench (@bench_driver usualHeader)
                               1 [0x42] (blankBench 0 0) in
  value_of r = FT4222_OK
  /\ @array_read (handle_of r) 4096 256 = 0x42 :: repeat 0xEE 255
  /\ @array_read (blankBench 0 0) 4096 256 = repeat 0xFF 256.
Proof. vm_compute. repeat split. Qed.

(** C4 on the bench: an image of no bytes, sectors of eight. *)
Lemma ProgramFlash_empty_image_is_undefined_witness :
  @sectorCount smallHeader [] = 1 + (2 ^ 64 - 1) / 8
  /\ 1 < @sectorCount smallHeader []
  /\ @isLastSector smallHeader [] 0 = false
  /\ @sectorLast smallHeader [] 0 0 = 8
  /\ valid_range [] 0 (@sectorLast smallHeader [] 0 0) = false
  /\ (forall passes,
        @ProgramFlash_while smallHeader Bench (@bench_driver smallHeader) (S passes)
                            [] 0 0 0 [] (blankBench 0 0)
        = ([], blankBench 0 0, Some Undefined))
  /\ @ProgramFlash smallHeader Bench (@bench_driver smallHeader) 3 [] (blankBench 0 0)
     = ([], blankBench 0 0, None).
Proof.
  apply (@ProgramFlash_empty_image_is_undefined smallHeader Bench
           (@bench_driver smallHeader) 3 (blankBench 0 0)).
  split; reflexivity.
Defined.

(** A buffer that is too long, on the bench: a buffer of nine bytes for a
    sector of eight is not rejected.  Transfers are issued and the call returns
    [FT4222_OK]; the ninth byte is never sent. *)
Example SectorProgramFlash_accepts_oversized_buffer :
  @FLASH_SECTOR_SIZE smallHeader < size [1; 2; 3; 4; 5; 6; 7; 8; 9]
  /\ @SectorProgramFlash smallHeader Bench (@bench_driver smallHeader)
                         0 [1; 2; 3; 4; 5; 6; 7; 8; 9] (blankBench 0 0)
     = ([ EvWrite [0x06] 1 true FT4222_OK;
          EvWrite [0x02; 0; 0; 0] 4 false FT4222_OK;
          EvWrite [1; 2; 3; 4] 4 true FT4222_OK;
          EvWrite [0x05] 1 false FT4222_OK;
          EvRead 1 true [0] FT4222_OK;
          EvWrite [0x06] 1 true FT4222_OK;
          EvWrite [0x02; 0; 0; 4] 4 false FT4222_OK;
          EvWrite [5; 6; 7; 8; 9] 4 true FT4222_OK;
          EvWrite [0x05] 1 false FT4222_OK;
          EvRead 1 true [0] FT4222_OK ],
        handle_of (@SectorProgramFlash smallHeader Bench (@bench_driver smallHeader)
                     0 [1; 2; 3; 4; 5; 6; 7; 8; 9] (blankBench 0 0)),
        FT4222_OK)
  /\ trace_of (@SectorProgramFlash smallHeader Bench (@bench_driver smallHeader)
                 0 [1; 2; 3; 4; 5; 6; 7; 8; 9] (blankBench 0 0)) <> [].
Proof.
  split; [ vm_compute; reflexivity | ].
  split; [ vm_compute; reflexivity | ].
  vm_compute. discriminate.
Qed.

Lemma SectorProgramFlash_oversized_buffer_witness :
  (exists status rest,
      trace_of (@SectorProgramFlash smallHeader Bench (@bench_driver smallHeader)
                  0 [1; 2; 3; 4; 5; 6; 7; 8; 9] (blankBench 0 0))
      = EvWrite [0x06] 1 true status :: rest)
  /\
  (value_of (@SectorProgramFlash smallHeader Bench (@bench_driver smallHeader)
               0 [1; 2; 3; 4; 5; 6; 7; 8; 9] (blankBench 0 0)) = FT4222_OK ->
   exists waits,
     length waits = Z.to_nat (8 / 4) /\
     Forall (@readyWait smallHeader) waits /\
     trace_of (@SectorProgramFlash smallHeader Bench (@bench_driver smallHeader)
                 0 [1; 2; 3; 4; 5; 6; 7; 8; 9] (blankBench 0 0))
     = @pagesEvents smallHeader (@pageBuffer smallHeader [1; 2; 3; 4; 5; 6; 7; 8; 9])
                    (0 * (8 / 4)) 0 waits /\
     forall k,
       0 <= k < 8 / 4 ->
       firstn (Z.to_nat 4) (@pageBuffer smallHeader [1; 2; 3; 4; 5; 6; 7; 8; 9] k)
       = @pageChunk smallHeader [1; 2; 3; 4; 5; 6; 7; 8; 9] k).
Proof.
  apply (@SectorProgramFlash_oversized_buffer smallHeader Bench
           (@bench_driver smallHeader) 0 [1; 2; 3; 4; 5; 6; 7; 8; 9] (blankBench 0 0)).
  - vm_compute. split; [ reflexivity | discriminate ].
  - split; reflexivity.
Defined.

(** ** Validation *)

(** C8 on the bench: fifteen bytes, [MAX_READ_SIZE = 6]. *)
Lemma ValidateFlash_chunks_witness :
  exists chunks,
    map size chunks = pieceSizes (size fifteenBytes) 6 /\
    Z.of_nat (length chunks) = ceilDiv (size fifteenBytes) 6 /\
    Forall (fun chunk => 0 < size chunk <= 6) chunks /\
    (3 <= 6 -> size fifteenBytes = 2 * 6 + 3 -> map size chunks = [6; 6; 3]) /\
    length (concat chunks) = length fifteenBytes /\
    trace_of (@ValidateFlash smallHeader Bench (@bench_driver smallHeader)
                fifteenBytes programmedBench)
    = @readEvents smallHeader 0 chunks /\
    (concat chunks = fifteenBytes ->
     value_of (@ValidateFlash smallHeader Bench (@bench_driver smallHeader)
                 fifteenBytes programmedBench) = FT4222_OK) /\
    (concat chunks <> fifteenBytes ->
     value_of (@ValidateFlash smallHeader Bench (@bench_driver smallHeader)
                 fifteenBytes programmedBench) = FT4222_CORRUPTED_UPLOAD).
Proof.
  apply (@ValidateFlash_chunks smallHeader Bench (@bench_driver smallHeader)
           fifteenBytes programmedBench).
  - reflexivity.
  - reflexivity.
  - reflexivity.
  - vm_compute. repeat constructor.
Defined.

(** C8 as the specification states it fails where a chunk has no room for
    three bytes: with reads of at most two bytes, an image of
    [2 * 2 + 3 = 7] bytes is read in four chunks of 2, 2, 2 and 1 bytes, not
    in three of 2, 2 and 3. *)
Lemma ValidateFlash_seven_bytes_in_reads_of_two :
  size sevenBytes = 2 * @MAX_READ_SIZE shortReadHeader + 3
  /\ trace_of (@ValidateFlash shortReadHeader Bench (@bench_driver shortReadHeader)
                 sevenBytes
                 (handle_of (@ProgramFlash shortReadHeader Bench
                               (@bench_driver shortReadHeader) 1 sevenBytes
                               (blankBench 0 0))))
     = [ EvWrite [0x03; 0; 0; 0] 4 false FT4222_OK;
         EvRead 2 true [1; 2] FT4222_OK;
         EvWrite [0x03; 0; 0; 2] 4 false FT4222_OK;
         EvRead 2 true [3; 4] FT4222_OK;
         EvWrite [0x03; 0; 0; 4] 4 false FT4222_OK;
         EvRead 2 true [5; 6] FT4222_OK;
         EvWrite [0x03; 0; 0; 6] 4 false FT4222_OK;
         EvRead 1 true [7] FT4222_OK ]
  /\ value_of (@ValidateFlash shortReadHeader Bench (@bench_driver shortReadHeader)
                 sevenBytes
                 (handle_of (@ProgramFlash shortReadHeader Bench
                               (@bench_driver shortReadHeader) 1 sevenBytes
                               (blankBench 0 0))))
     = FT4222_OK
  /\ pieceSizes 7 2 = [2; 2; 2; 1].
Proof. vm_compute. repeat split. Qed.

(** [2 * MAX_READ_SIZE + 3] bytes are read as chunks of 6, 6 and 3 bytes, at
    addresses 0, 6 and 12. *)
Example ValidateFlash_fifteen_bytes :
  pieceSizes 15 6 = [6; 6; 3]
  /\ trace_of (@ValidateFlash smallHeader Bench (@bench_driver smallHeader)
                 fifteenBytes programmedBench)
     = [ EvWrite [0x03; 0; 0; 0] 4 false FT4222_OK;
         EvRead 6 true [10; 11; 12; 13; 14; 15] FT4222_OK;
         EvWrite [0x03; 0; 0; 6] 4 false FT4222_OK;
         EvRead 6 true [16; 17; 18; 19; 20; 21] FT4222_OK;
         EvWrite [0x03; 0; 0; 12] 4 false FT4222_OK;
         EvRead 3 true [22; 23; 24] FT4222_OK ]
  /\ value_of (@ValidateFlash smallHeader Bench (@bench_driver smallHeader)
                 fifteenBytes programmedBench) = FT4222_OK
  /\ value_of (@ValidateFlash smallHeader Bench (@bench_driver smallHeader)
                 fifteenBytes (blankBench 0 0)) = FT4222_CORRUPTED_UPLOAD.
Proof. vm_compute. repeat split. Qed.

(** ** Whole images *)

Lemma smallHeader_geometryFits : @geometryFits smallHeader.
Proof. vm_compute. repeat split; discriminate. Qed.

Lemma smallHeader_opcodesTellApart : @opcodesTellApart smallHeader.
Proof. split; discriminate. Qed.

Lemma blankBench_ideal (latency : nat) :
  (latency < 5)%nat -> @idealBench smallHeader (blankBench latency 0).
Proof. intros Hl. repeat split. exact Hl. Qed.

(** C1 on the bench: nine bytes, sectors of eight, a chip that stays busy for
    one poll after every program command. *)
Lemma ProgramFlash_stores_image_witness :
  value_of (@ProgramFlash smallHeader Bench (@bench_driver smallHeader) 1
                          nineBytes (blankBench 1 0))
  = Some FT4222_OK
  /\ @flash_contents
       (handle_of (@ProgramFlash smallHeader Bench (@bench_driver smallHeader) 1
                                 nineBytes (blankBench 1 0)))
       (length nineBytes)
     = nineBytes.
Proof.
  apply (@ProgramFlash_stores_image smallHeader 1 nineBytes (blankBench 1 0)).
  - exact smallHeader_geometryFits.
  - exact smallHeader_opcodesTellApart.
  - discriminate.
  - apply blankBench_ideal. lia.
  - vm_compute. split; [ reflexivity | discriminate ].
  - lia.
Defined.


(** The run in full: sector 0 with its two pages and its read-back, then
    sector 1 with the one-byte window. *)
Example ProgramFlash_nine_bytes :
  @ProgramFlash smallHeader Bench (@bench_driver smallHeader) 1 nineBytes
                (blankBench 0 0)
  = ([ EvWrite [0x06] 1 true FT4222_OK;
       EvWrite [0x02; 0; 0; 0] 4 false FT4222_OK;
       EvWrite [1; 2; 3; 4] 4 true FT4222_OK;
       EvWrite [0x05] 1 false FT4222_OK;
       EvRead 1 true [0] FT4222_OK;
       EvWrite [0x06] 1 true FT4222_OK;
       EvWrite [0x02; 0; 0; 4] 4 false FT4222_OK;
       EvWrite [5; 6; 7; 8] 4 true FT4222_OK;
       EvWrite [0x05] 1 false FT4222_OK;
       EvRead 1 true [0] FT4222_OK;
       EvWrite [0x03; 0; 0; 0] 4 false FT4222_OK;
       EvRead 8 true [1; 2; 3; 4; 5; 6; 7; 8] FT4222_OK;
       EvWrite [0x06] 1 true FT4222_OK;
       EvWrite [0x02; 0; 0; 8] 4 false FT4222_OK;
       EvWrite [9] 4 true FT4222_OK;
       EvWrite [0x05] 1 false FT4222_OK;
       EvRead 1 true [0] FT4222_OK;
       EvWrite [0x03; 0; 0; 8] 4 false FT4222_OK;
       EvRead 8 true [9; 0xEE; 0xEE; 0xEE; 0xFF; 0xFF; 0xFF; 0xFF] FT4222_OK ],
     handle_of (@ProgramFlash smallHeader Bench (@bench_driver smallHeader) 1
                              nineBytes (blankBench 0 0)),
     Some FT4222_OK).
Proof. vm_compute. reflexivity. Qed.

(** ** Retries *)

(** C2.  [smallHeader] allows three program attempts per sector.  The chip
    corrupts the first two read-backs of the sector; the third read-back is
    the window, byte for byte, and the flash holds the image.
    [ProgramFlash] still returns [FT4222_CORRUPTED_UPLOAD]: the attempt
    counter is tested after the last allowed attempt whatever its outcome. *)
Theorem final_attempt_success_is_reported_corrupted :
  @MAX_SECTOR_PROGRAM_ATTEMPTS smallHeader = 3
  /\ reads_of 8
       (trace_of (@ProgramFlash smallHeader Bench (@bench_driver smallHeader) 3
                                fiveBytes (blankBench 0 2)))
     = [ [254; 2; 3; 4; 5; 0xEE; 0xEE; 0xEE];
         [254; 2; 3; 4; 5; 0xEE; 0xEE; 0xEE];
         [1; 2; 3; 4; 5; 0xEE; 0xEE; 0xEE] ]
  /\ @countErrors 5 [1; 2; 3; 4; 5; 0xEE; 0xEE; 0xEE] fiveBytes = 0
  /\ @flash_contents
       (handle_of (@ProgramFlash smallHeader Bench (@bench_driver smallHeader) 3
                                 fiveBytes (blankBench 0 2)))
       5
     = fiveBytes
  /\ value_of (@ProgramFlash smallHeader Bench (@bench_driver smallHeader) 3
                             fiveBytes (blankBench 0 2))
     = Some FT4222_CORRUPTED_UPLOAD.
Proof. vm_compute. repeat split. Qed.

(** One attempt earlier the same success is accepted. *)
Example second_attempt_success_is_accepted :
  reads_of 8
    (trace_of (@ProgramFlash smallHeader Bench (@bench_driver smallHeader) 3
                             fiveBytes (blankBench 0 1)))
  = [ [254; 2; 3; 4; 5; 0xEE; 0xEE; 0xEE]; [1; 2; 3; 4; 5; 0xEE; 0xEE; 0xEE] ]
  /\ frames_of 0x20
       (trace_of (@ProgramFlash smallHeader Bench (@bench_driver smallHeader) 3
                                fiveBytes (blankBench 0 1)))
     = [ [0x20; 0; 0; 0] ]
  /\ value_of (@ProgramFlash smallHeader Bench (@bench_driver smallHeader) 3
                             fiveBytes (blankBench 0 1))
     = Some FT4222_OK.
Proof. vm_compute. repeat split. Qed.

(** Every read-back of sector 0 corrupted: three program attempts, each
    followed by a sector erase, then [FT4222_CORRUPTED_UPLOAD]; sector 1 is
    never touched. *)
Example every_attempt_fails :
  reads_of 8
    (trace_of (@ProgramFlash smallHeader Bench (@bench_driver smallHeader) 3
                             nineBytes (blankBench 0 9)))
  = [ [254; 2; 3; 4; 5; 6; 7; 8]; [254; 2; 3; 4; 5; 6; 7; 8];
      [254; 2; 3; 4; 5; 6; 7; 8] ]
  /\ frames_of 0x20
       (trace_of (@ProgramFlash smallHeader Bench (@bench_driver smallHeader) 3
                                nineBytes (blankBench 0 9)))
     = [ [0x20; 0; 0; 0]; [0x20; 0; 0; 0]; [0x20; 0; 0; 0] ]
  /\ frames_of 0x02
       (trace_of (@ProgramFlash smallHeader Bench (@bench_driver smallHeader) 3
                                nineBytes (blankBench 0 9)))
     = [ [0x02; 0; 0; 0]; [0x02; 0; 0; 4]; [0x02; 0; 0; 0]; [0x02; 0; 0; 4];
         [0x02; 0; 0; 0]; [0x02; 0; 0; 4] ]
  /\ value_of (@ProgramFlash smallHeader Bench (@bench_driver smallHeader) 3
                             nineBytes (blankBench 0 9))
     = Some FT4222_CORRUPTED_UPLOAD.
Proof. vm_compute. repeat split. Qed.

(** ** Waiting for the chip *)

(** A chip that needs three more polls is waited for; one that needs five is
    given up on after [MAX_WAIT_TIME_MS = 5] polls. *)
Example WaitForFlashReady_busy_chip :
  @WaitForFlashReady smallHeader Bench (@bench_driver smallHeader)
                     (chip (fun _ => 0xFF) false 3 [] (blankBench 0 0))
  = (@sleptPolls smallHeader [1; 1; 1] ++ @pollEvents smallHeader 0,
     blankBench 0 0, FT4222_OK)
  /\ @WaitForFlashReady smallHeader Bench (@bench_driver smallHeader)
                        (chip (fun _ => 0xFF) false 5 [] (blankBench 0 0))
     = (@sleptPolls smallHeader [1; 1; 1; 1; 1] ++ [EvTimeout],
        blankBench 0 0, FT4222_TIME_OUT_ERROR).
Proof. vm_compute. repeat split. Qed.

(** ** The further properties at work *)

(** X2 on the bench: nine bytes, two sectors, the first read-back
    disturbed. *)
Lemma ProgramFlash_ok_means_verified_witness :
  exists segments,
    length segments = Z.to_nat (@sectorCount smallHeader nineBytes) /\
    trace_of (@ProgramFlash smallHeader Bench (@bench_driver smallHeader) 2 nineBytes
                            (blankBench 0 1))
    = concat segments /\
    forall k,
      0 <= k < @sectorCount smallHeader nineBytes ->
      exists retried waits readBack,
        nth (Z.to_nat k) segments []
        = concat (map (@retriedEvents smallHeader
                         (@sectorBuffer smallHeader nineBytes k (k * 8)) k)
                      retried)
          ++ @passEvents smallHeader (@sectorBuffer smallHeader nineBytes k (k * 8)) k
                         waits readBack /\
        Forall
          (fun pass =>
             @pagesWaited smallHeader (@sectorBuffer smallHeader nineBytes k (k * 8))
                          (pageWaits pass) /\
             0 < countErrors (@bytesToTransmit smallHeader nineBytes k)
                             (corruptedReadBack pass)
                             (@sectorBuffer smallHeader nineBytes k (k * 8)) /\
             @readyWait smallHeader (eraseWait pass))
          retried /\
        @pagesWaited smallHeader (@sectorBuffer smallHeader nineBytes k (k * 8)) waits /\
        length readBack = Z.to_nat 8 /\
        (forall j,
            0 <= j < @bytesToTransmit smallHeader nineBytes k ->
            at_index readBack j
            = at_index (@sectorBuffer smallHeader nineBytes k (k * 8)) j) /\
        (0 < 3 -> Z.of_nat (length retried) + 1 < 3).
Proof.
  apply (@ProgramFlash_ok_means_verified smallHeader Bench (@bench_driver smallHeader)
           2 nineBytes (blankBench 0 1)).
  vm_compute. reflexivity.
Defined.

(** That run: the first read-back of sector 0 is disturbed, the sector is
    erased and programmed again; sector 1 takes one pass. *)
Example ProgramFlash_nine_bytes_one_retry :
  trace_of (@ProgramFlash smallHeader Bench (@bench_driver smallHeader) 2 nineBytes
                          (blankBench 0 1))
  = @retriedEvents smallHeader [1; 2; 3; 4; 5; 6; 7; 8] 0
      {| pageWaits := [@pollEvents smallHeader 0; @pollEvents smallHeader 0];
         corruptedReadBack := [254; 2; 3; 4; 5; 6; 7; 8];
         eraseWait := @pollEvents smallHeader 0 |}
    ++ @passEvents smallHeader [1; 2; 3; 4; 5; 6; 7; 8] 0
         [@pollEvents smallHeader 0; @pollEvents smallHeader 0]
         [1; 2; 3; 4; 5; 6; 7; 8]
    ++ @passEvents smallHeader [9] 1 [@pollEvents smallHeader 0]
         [9; 0xEE; 0xEE; 0xEE; 0xFF; 0xFF; 0xFF; 0xFF].
Proof. vm_compute. reflexivity. Qed.

(** X3 on the bench: every read-back is disturbed, and the run still ends;
    five rounds of fuel give what three give. *)
Lemma ProgramFlash_ends_within_the_attempts_witness :
  (exists status,
      value_of (@ProgramFlash smallHeader Bench (@bench_driver smallHeader) 5 nineBytes
                              (blankBench 0 9))
      = Some status)
  /\ @ProgramFlash smallHeader Bench (@bench_driver smallHeader) 5 nineBytes
                   (blankBench 0 9)
     = @ProgramFlash smallHeader Bench (@bench_driver smallHeader) (Z.to_nat 3) nineBytes
                     (blankBench 0 9).
Proof.
  apply (@ProgramFlash_ends_within_the_attempts smallHeader Bench
           (@bench_driver smallHeader) 5 nineBytes (blankBench 0 9)).
  - reflexivity.
  - vm_compute. lia.
  - reflexivity.
  - reflexivity.
  - reflexivity.
Defined.

(** X7 on the bench. *)
Lemma ValidateFlash_empty_image_witness :
  (exists status,
      status <> FT4222_OK /\
      trace_of (@ValidateFlash smallHeader Bench (@bench_driver smallHeader) []
                               (blankBench 0 0))
      = [EvWrite (0x03 :: IntToByteVec 0) 4 false status] /\
      value_of (@ValidateFlash smallHeader Bench (@bench_driver smallHeader) []
                               (blankBench 0 0))
      = status)
  \/
  (exists status,
      trace_of (@ValidateFlash smallHeader Bench (@bench_driver smallHeader) []
                               (blankBench 0 0))
      = [ EvWrite (0x03 :: IntToByteVec 0) 4 false FT4222_OK;
          EvRead 0 true [] status ] /\
      value_of (@ValidateFlash smallHeader Bench (@bench_driver smallHeader) []
                               (blankBench 0 0))
      = status).
Proof.
  apply (@ValidateFlash_empty_image smallHeader Bench (@bench_driver smallHeader)
           (blankBench 0 0)).
  reflexivity.
Defined.

(** The run itself: a frame, a read of nothing, [FT4222_OK]. *)
Example ValidateFlash_nothing :
  @ValidateFlash smallHeader Bench (@bench_driver smallHeader) [] (blankBench 0 0)
  = ([ EvWrite [0x03; 0; 0; 0] 4 false FT4222_OK; EvRead 0 true [] FT4222_OK ],
     blankBench 0 0, FT4222_OK).
Proof. vm_compute. reflexivity. Qed.

(** X8 on the bench: the fifteen bytes, on the chip that was programmed with
    them. *)
Lemma ValidateFlash_compares_the_flash_witness :
  (value_of (@ValidateFlash smallHeader Bench (@bench_driver smallHeader) fifteenBytes
                            programmedBench) = FT4222_OK
   <-> flash_contents programmedBench (length fifteenBytes) = fifteenBytes)
  /\ (value_of (@ValidateFlash smallHeader Bench (@bench_driver smallHeader) fifteenBytes
                               programmedBench) <> FT4222_OK ->
      value_of (@ValidateFlash smallHeader Bench (@bench_driver smallHeader) fifteenBytes
                               programmedBench) = FT4222_CORRUPTED_UPLOAD)
  /\ handle_of (@ValidateFlash smallHeader Bench (@bench_driver smallHeader) fifteenBytes
                               programmedBench)
     = programmedBench.
Proof.
  apply (@ValidateFlash_compares_the_flash smallHeader fifteenBytes programmedBench).
  - split; reflexivity.
  - cbn. discriminate.
  - vm_compute. repeat split.
  - vm_compute. reflexivity.
  - vm_compute. split; [ reflexivity | discriminate ].
Defined.

(** X9 on the bench: nine bytes, a chip that stays busy for one poll. *)
Lemma ValidateFlash_accepts_what_ProgramFlash_wrote_witness :
  value_of (@ValidateFlash smallHeader Bench (@bench_driver smallHeader) nineBytes
              (handle_of (@ProgramFlash smallHeader Bench (@bench_driver smallHeader) 1
                                        nineBytes (blankBench 1 0))))
  = FT4222_OK
  /\ handle_of (@ValidateFlash smallHeader Bench (@bench_driver smallHeader) nineBytes
                  (handle_of (@ProgramFlash smallHeader Bench (@bench_driver smallHeader) 1
                                            nineBytes (blankBench 1 0))))
     = handle_of (@ProgramFlash smallHeader Bench (@bench_driver smallHeader) 1
                                nineBytes (blankBench 1 0)).
Proof.
  apply (@ValidateFlash_accepts_what_ProgramFlash_wrote smallHeader 1 nineBytes
           (blankBench 1 0)).
  - exact smallHeader_geometryFits.
  - exact smallHeader_opcodesTellApart.
  - discriminate.
  - split; reflexivity.
  - apply blankBench_ideal. lia.
  - vm_compute. split; [ reflexivity | discriminate ].
  - lia.
Defined.

(** X10 on the bench: the chip that holds the fifteen bytes. *)
Lemma erase_on_the_bench_witness :
  (@sectorEraseTellsApart smallHeader ->
   forall sectorIndex,
     0 <= sectorIndex * 8 < 2 ^ 24 ->
     let r := @EraseSector smallHeader Bench (@bench_driver smallHeader) sectorIndex
                           programmedBench in
     value_of r = FT4222_OK /\ idleBench (handle_of r) /\
     forall a,
       cells (handle_of r) a
       = if (sectorIndex * 8 <=? a) && (a <? (sectorIndex + 1) * 8)
         then 0xFF else cells programmedBench a)
  /\
  (@chipEraseTellsApart smallHeader ->
   let r := @EraseFlash smallHeader Bench (@bench_driver smallHeader) programmedBench in
   value_of r = FT4222_OK /\ idleBench (handle_of r) /\
   forall a, cells (handle_of r) a = 0xFF).
Proof.
  apply (@erase_on_the_bench smallHeader programmedBench).
  - reflexivity.
  - vm_compute. repeat split.
  - vm_compute. lia.
Defined.

(** Sector 1 of that chip erased: the first sector is as it was, the second
    reads [0xFF]. *)
Example EraseSector_second_sector :
  let r := @EraseSector smallHeader Bench (@bench_driver smallHeader) 1 programmedBench in
  trace_of r
  = [ EvWrite [0x06] 1 true FT4222_OK;
      EvWrite [0x20; 0; 0; 8] 4 true FT4222_OK;
      EvWrite [0x05] 1 false FT4222_OK;
      EvRead 1 true [0] FT4222_OK ]
  /\ @flash_contents programmedBench 16
     = [10; 11; 12; 13; 14; 15; 16; 17; 18; 19; 20; 21; 22; 23; 24; 0xEE]
  /\ @flash_contents (handle_of r) 16
     = [10; 11; 12; 13; 14; 15; 16; 17; 0xFF; 0xFF; 0xFF; 0xFF; 0xFF; 0xFF; 0xFF; 0xFF].
Proof. vm_compute. repeat split. Qed.

(** X11 on the bench: the second sector of that chip. *)
Lemma ReadSectorFlash_reads_the_sector_witness :
  value_of (@ReadSectorFlash smallHeader Bench (@bench_driver smallHeader) 1 [1; 2; 3]
                             programmedBench)
  = (FT4222_OK,
     map (fun k => cells programmedBench (1 * 8 + Z.of_nat k)) (seq 0 (Z.to_nat 8)))
  /\ handle_of (@ReadSectorFlash smallHeader Bench (@bench_driver smallHeader) 1 [1; 2; 3]
                                 programmedBench)
     = programmedBench.
Proof.
  apply (@ReadSectorFlash_reads_the_sector smallHeader 1 [1; 2; 3] programmedBench).
  - split; reflexivity.
  - cbn. discriminate.
  - vm_compute. repeat split.
  - vm_compute. reflexivity.
  - lia.
  - vm_compute. discriminate.
Defined.

(** X12 on the bench: the first read-back is disturbed, three attempts are
    allowed. *)
Lemma ProgramFlash_recovers_from_disturbed_read_backs_witness :
  value_of (@ProgramFlash smallHeader Bench (@bench_driver smallHeader) 2 fiveBytes
                          (blankBench 0 1))
  = Some FT4222_OK
  /\ flash_contents
       (handle_of (@ProgramFlash smallHeader Bench (@bench_driver smallHeader) 2
                                 fiveBytes (blankBench 0 1)))
       (length fiveBytes)
     = fiveBytes
  /\ (forall a,
         a < 0 \/ @sectorCount smallHeader fiveBytes * 8 <= a ->
         cells (handle_of (@ProgramFlash smallHeader Bench (@bench_driver smallHeader) 2
                                         fiveBytes (blankBench 0 1))) a
         = cells (blankBench 0 1) a).
Proof.
  apply (@ProgramFlash_recovers_from_disturbed_read_backs smallHeader 2 fiveBytes
           (blankBench 0 1)).
  - exact smallHeader_geometryFits.
  - exact smallHeader_opcodesTellApart.
  - cbn. discriminate.
  - cbn. discriminate.
  - repeat split.
  - vm_compute. lia.
  - vm_compute. split; [ reflexivity | discriminate ].
  - reflexivity.
  - vm_compute. lia.
Defined.

(** X13 on the bench: nine bytes take three pages of four; the cell at
    address 12 is not written. *)
Lemma ProgramFlash_writes_only_the_pages_of_the_image_witness :
  cells (handle_of (@ProgramFlash smallHeader Bench (@bench_driver smallHeader) 1
                                  nineBytes (blankBench 0 0))) 12
  = cells (blankBench 0 0) 12.
Proof.
  apply (@ProgramFlash_writes_only_the_pages_of_the_image smallHeader 1 nineBytes
           (blankBench 0 0)).
  - exact smallHeader_geometryFits.
  - exact smallHeader_opcodesTellApart.
  - discriminate.
  - apply blankBench_ideal. lia.
  - vm_compute. split; [ reflexivity | discriminate ].
  - lia.
  - right. vm_compute. discriminate.
Defined.

(** The sixteen cells of the two sectors after that run: the image, three
    stray bytes that fill its last page, and four cells never written. *)
Example ProgramFlash_nine_bytes_cells :
  @flash_contents
    (handle_of (@ProgramFlash smallHeader Bench (@bench_driver smallHeader) 1
                              nineBytes (blankBench 0 0))) 16
  = [1; 2; 3; 4; 5; 6; 7; 8; 9; 0xEE; 0xEE; 0xEE; 0xFF; 0xFF; 0xFF; 0xFF].
Proof. vm_compute. reflexivity. Qed.

(** ** Opening the board *)

(** X16 on the bench: three attempts are allowed and the first two
    read-backs are disturbed; the second sector is never reached. *)
Lemma ProgramFlash_gives_up_after_the_attempts_witness :
  value_of (@ProgramFlash smallHeader Bench (@bench_driver smallHeader) 3 nineBytes
                          (blankBench 0 2))
  = Some FT4222_CORRUPTED_UPLOAD
  /\ (forall a,
         a < 0 \/ 8 <= a ->
         cells (handle_of (@ProgramFlash smallHeader Bench (@bench_driver smallHeader) 3
                                         nineBytes (blankBench 0 2))) a
         = cells (blankBench 0 2) a).
Proof.
  apply (@ProgramFlash_gives_up_after_the_attempts smallHeader 3 nineBytes
           (blankBench 0 2)).
  - exact smallHeader_geometryFits.
  - exact smallHeader_opcodesTellApart.
  - cbn. discriminate.
  - cbn. discriminate.
  - repeat split.
  - vm_compute. lia.
  - vm_compute. split; [ reflexivity | discriminate ].
  - vm_compute. split; [ reflexivity | discriminate ].
  - vm_compute. lia.
Defined.

(** That run: three passes over the first sector, the third verified, and
    [FT4222_CORRUPTED_UPLOAD] all the same. *)
Example ProgramFlash_third_pass_verified :
  let r := @ProgramFlash smallHeader Bench (@bench_driver smallHeader) 3 nineBytes
                         (blankBench 0 2) in
  value_of r = Some FT4222_CORRUPTED_UPLOAD
  /\ reads_of 8 (trace_of r)
     = [ [254; 2; 3; 4; 5; 6; 7; 8]; [254; 2; 3; 4; 5; 6; 7; 8];
         [1; 2; 3; 4; 5; 6; 7; 8] ]
  /\ @flash_contents (handle_of r) 16
     = [1; 2; 3; 4; 5; 6; 7; 8; 0xFF; 0xFF; 0xFF; 0xFF; 0xFF; 0xFF; 0xFF; 0xFF].
Proof. vm_compute. repeat split. Qed.

(** Four FTDI devices are listed; the second is an FT4222 whose detail call
    fails, the third and fourth are FT4222s.  The third is opened. *)
Example InitBoard_four_devices :
  let host := {| listed := [ (0, device "FT232R USB UART" "A1");
                             (4, device "FT4222" "B2");
                             (0, device "FT4222 A" "C3");
                             (0, device "FT4222" "D4") ];
                 openStatus := 0; initStatus := 0; openedSerial := None |} in
  status_of (InitBoard host) = 0
  /\ openedSerial (host_of (InitBoard host)) = Some "C3"%string
  /\ nth_error (calls_of (InitBoard host)) 5 = Some (CallOpenEx "C3" 1 0)
  /\ nth_error (calls_of (InitBoard host)) 6 = Some (CallSPIMasterInit 1 1 1 1 1 0)
  /\ status_of (InitBoard {| listed := [ (0, device "FT232R USB UART" "A1") ];
                            openStatus := 0; initStatus := 0; openedSerial := None |})
     = 2.
Proof. vm_compute. repeat split. Qed.
